(** * T1D simulation tool adapter: model of [fastMCP_adapter.py]

    The development embeds the tool entry point [simulate_glucose_dynamics],
    the initialization guard [_ensure_pymgipsim_initialized] and the
    search-path set-up of [fastMCP_adapter.py], and the adapter, the mock
    simulator and the checks of [test_adapter_connection.py].

    Modelling conventions.
    - Python values that the adapter handles without looking inside them
      (the four tool arguments, the attributes of the [argparse] namespace)
      are values of [pyval].
    - A float64 (Python [float], numpy sample) is modelled by the rational
      number it denotes. A float64 operation returns the exact result
      rounded to the nearest float64, ties to even ([float64_round]). NaN,
      the infinities and the sign of zero are not represented: where numpy
      would give inf or nan (a quotient by zero, an overflow) the model
      stops with the marker [non_finite], of kind [OutsideModel], and says
      nothing of what the program does from there. The time axis and the
      glucose states are float64 arrays; numpy compares the time axis with
      the float64 it makes of [duration_minutes].
    - A Python exception is an [Exception] value: its class name, [str(e)]
      and whether it is an instance of [Exception], which is what
      [except Exception] catches; [SystemExit] and [KeyboardInterrupt] are
      not. A computation returns or raises ([result]); calls that do not
      return are outside the model. [os.getcwd] and [os.chdir] are taken to
      succeed.
    - The simulation engine [pymgipsim] and [argparse] are external to the
      adapter: they are the fields of [Engine]. [json.dumps] and the
      directory of the module file are parameters as well.
    - Process state (working directory, the engine's own state, the module
      flag [_initialized], the log) is passed explicitly. *)

From Stdlib Require Import ZArith QArith Qround Qabs Qpower Lqa.
From stdpp Require Import base option list sorting strings gmap pretty.

(** ** Python values, exceptions *)

Module Py.

#[warnings="-register-all"]
Inductive pyval : Type :=
  | PyNone
  | PyInt (z : Z)
  | PyFloat (q : Q)
  | PyStr (s : string)
  | PyList (l : list pyval).

(** [type(v).__name__] *)
Definition type_name (v : pyval) : string :=
  match v with
  | PyNone => "NoneType"
  | PyInt _ => "int"
  | PyFloat _ => "float"
  | PyStr _ => "str"
  | PyList _ => "list"
  end.

(** [bool(v)] *)
Definition truthy (v : pyval) : bool :=
  match v with
  | PyNone => false
  | PyInt z => negb (z =? 0)%Z
  | PyFloat q => negb (Qeq_bool q 0)
  | PyStr s => negb (String.eqb s "")
  | PyList l => match l with [] => false | _ => true end
  end.

(** What a clause [except Exception] does with a raised object: it catches
    the instances of [Exception] and lets through the other instances of
    [BaseException] ([SystemExit], [KeyboardInterrupt], [GeneratorExit]).
    [OutsideModel] is not a Python exception: it marks the point where a
    value arises that the model does not represent (a float that is inf or
    nan); the program goes on there and the model does not follow it. *)
Inductive ExcKind : Type :=
  | OfException
  | OfBaseException
  | OutsideModel.

(** A raised object: its kind, its class name and [str(e)]. *)
Record Exception : Type := mkException {
  exc_kind : ExcKind;
  exc_class : string;
  exc_str : string
}.

Definition TypeError := mkException OfException "TypeError".
Definition ValueError := mkException OfException "ValueError".
Definition IndexError := mkException OfException "IndexError".
Definition AttributeError := mkException OfException "AttributeError".
Definition OverflowError := mkException OfException "OverflowError".
Definition RuntimeError := mkException OfException "RuntimeError".
Definition SystemExit := mkException OfBaseException "SystemExit".

(** A float operation gave inf or nan. *)
Definition non_finite : Exception :=
  mkException OutsideModel "" "float result is inf or nan".

Inductive result (A : Type) : Type :=
  | Ok (a : A)
  | Raise (e : Exception).
Arguments Ok {A} a.
Arguments Raise {A} e.

Definition result_bind {A B} (r : result A) (k : A → result B) : result B :=
  match r with Ok a => k a | Raise e => Raise e end.

#[export] Instance result_ret : MRet result := λ A a, Ok a.
#[export] Instance result_bind_inst : MBind result := λ A B k r, result_bind r k.
#[export] Instance result_fmap : FMap result := λ A B f r,
  match r with Ok a => Ok (f a) | Raise e => Raise e end.

(** The numeric value of an [int] or a [float]. *)
Definition as_number (v : pyval) : option Q :=
  match v with
  | PyInt z => Some (inject_Z z)
  | PyFloat q => Some q
  | _ => None
  end.

Definition Qlt_bool (x y : Q) : bool := negb (Qle_bool y x).

(** [round(q)] to an integer, ties to even. *)
Definition round_half_even (q : Q) : Z :=
  let f := Qfloor q in
  match (q - inject_Z f ?= 1 # 2)%Q with
  | Lt => f
  | Gt => (f + 1)%Z
  | Eq => if Z.even f then f else (f + 1)%Z
  end.

(** [q * 2^z] *)
Definition scale2 (q : Q) (z : Z) : Q :=
  if (0 <=? z)%Z then (q * inject_Z (2 ^ z))%Q else (q / inject_Z (2 ^ (- z)))%Q.

(** For [a > 0], the [p] with [2^p <= a < 2^(p+1)]. *)
Definition binade (a : Q) : Z :=
  if Qle_bool 1 a then Z.log2 (Qfloor a) else (- Z.log2_up (Qceiling (/ a)))%Z.

(** For [a > 0], the nearest multiple of the float64 unit in the last place
    at [a]: 53 significant bits, least exponent -1074, ties to even. *)
Definition round_pos (a : Q) : Q :=
  let sh := Z.max (binade a - 52) (-1074) in
  scale2 (inject_Z (round_half_even (scale2 a (- sh)))) sh.

(** IEEE 754 binary64 rounding to nearest, ties to even; [None] when the
    rounded magnitude reaches [2^1024]. *)
Definition float64_round (q : Q) : option Q :=
  let q := Qred q in
  if Qeq_bool q 0 then Some 0%Q
  else
    let r := round_pos (Qabs q) in
    if Qle_bool (inject_Z (2 ^ 1024)) r then None
    else Some (Qred (if Qle_bool 0 q then r else - r)).

(** The float64 nearest to [q], for [q] within the float64 range. *)
Definition float64 (q : Q) : Q := default (Qred q) (float64_round q).

(** [x / y] on numpy float64 operands: the quotient rounded to float64;
    [None] when numpy gives inf or nan (a zero divisor, an overflow). *)
Definition np_divide (x y : Q) : option Q :=
  if Qeq_bool y 0 then None else float64_round (x / y).

(** [xs / y] on a float64 array. *)
Definition np_divide_array (xs : list Q) (y : Q) : option (list Q) :=
  mapM (λ x, np_divide x y) xs.

(** The float64 that numpy makes of a Python scalar before it compares a
    float64 array with it: a [float] is itself, an [int] is rounded to the
    nearest float64 and raises when that is out of range. *)
Definition as_float64 (v : pyval) : result Q :=
  match v with
  | PyInt z =>
      match float64_round (inject_Z z) with
      | Some r => Ok r
      | None => Raise (OverflowError "int too large to convert to float")
      end
  | PyFloat q => Ok q
  | _ =>
      Raise (TypeError ("'<=' not supported between instances of 'numpy.ndarray' and '"
                          +:+ type_name v +:+ "'"))
  end.

(** [v / n] for a nonzero [int] literal [n]: Python true division. The
    quotient of two [int]s is correctly rounded and raises when it exceeds
    the float64 range; the quotient of a [float] is rounded. *)
Definition true_div_int (v : pyval) (n : Z) : result Q :=
  match v with
  | PyInt z =>
      match float64_round (inject_Z z / inject_Z n) with
      | Some r => Ok r
      | None => Raise (OverflowError "integer division result too large for a float")
      end
  | PyFloat q => Ok (float64 (q / inject_Z n))
  | _ =>
      Raise (TypeError ("unsupported operand type(s) for /: '" +:+ type_name v
                          +:+ "' and 'int'"))
  end.

(** The multiple of one tenth nearest to [q], ties to the even tenth. *)
Definition nearest_tenth (q : Q) : Q := Qmake (round_half_even (q * 10)) 10.

(** [round(q, 1)]: the float64 nearest to that tenth. *)
Definition round1 (q : Q) : Q := float64 (nearest_tenth q).

(** [np.min(xs)], [np.max(xs)] *)
Definition np_min (xs : list Q) : result Q :=
  match xs with
  | [] => Raise (ValueError
            "zero-size array to reduction operation minimum which has no identity")
  | x :: xs' => Ok (foldl (λ m y, if Qlt_bool y m then y else m) x xs')
  end.

Definition np_max (xs : list Q) : result Q :=
  match xs with
  | [] => Raise (ValueError
            "zero-size array to reduction operation maximum which has no identity")
  | x :: xs' => Ok (foldl (λ m y, if Qlt_bool m y then y else m) x xs')
  end.

(** [xs[-1]] on a one-dimensional array *)
Definition index_last (xs : list Q) : result Q :=
  match last xs with
  | Some x => Ok x
  | None => Raise (IndexError "index -1 is out of bounds for axis 0 with size 0")
  end.

(** [xs[i]] on a one-dimensional array along [axis] of an enclosing array *)
Definition np_index {A} (axis : nat) (xs : list A) (i : nat) : result A :=
  match xs !! i with
  | Some x => Ok x
  | None =>
      Raise (IndexError ("index " +:+ pretty i +:+ " is out of bounds for axis "
                           +:+ pretty axis +:+ " with size " +:+ pretty (length xs)))
  end.

(** [xs[i]] on a Python list *)
Definition list_index {A} (xs : list A) (i : nat) : result A :=
  match xs !! i with
  | Some x => Ok x
  | None => Raise (IndexError "list index out of range")
  end.

(** [xs[mask]] for a boolean array [mask] *)
Definition bool_index {A} (xs : list A) (mask : list bool) : result (list A) :=
  if (length xs =? length mask)%nat
  then Ok (map fst (List.filter snd (zip xs mask)))
  else
    Raise (IndexError
      ("boolean index did not match indexed array along axis 0; size of axis is "
         +:+ pretty (length xs) +:+ " but size of corresponding boolean axis is "
         +:+ pretty (length mask))).

(** [enumerate(xs)] *)
Definition enumerate {A} (xs : list A) : list (nat * A) := imap pair xs.

(** [os.path.join(a, b)] for a relative [b] *)
Definition path_join (a b : string) : string :=
  if String.eqb a "" then b
  else if String.eqb (String.substring (String.length a - 1) 1 a) "/" then a +:+ b
  else a +:+ "/" +:+ b.

End Py.

Export Py.

(** ** Data exchanged with the engine and with the caller *)

Module Adapter.

(** [argparse.Namespace]: attribute name to value *)
Abbreviation Namespace := (gmap string pyval).

(** [hasattr(args, k)] *)
Definition hasattr (args : Namespace) (k : string) : bool :=
  bool_decide (is_Some (args !! k)).

(** [args.k] *)
Definition getattr (args : Namespace) (k : string) : result pyval :=
  match args !! k with
  | Some v => Ok v
  | None =>
      Raise (AttributeError ("'Namespace' object has no attribute '" +:+ k +:+ "'"))
  end.

(** [if hasattr(args, k): args.k = v] *)
Definition set_if_present (k : string) (v : pyval) (args : Namespace) : Namespace :=
  if hasattr args k then <[k := v]> args else args.

(** [cohort.singlescale_model], the attributes the adapter reads:
    [states.as_array] (subjects x states x samples), [glucose_state],
    [states.state_units], [parameters.VG], [time.as_unix]. *)
Record Model : Type := {
  states_as_array : list (list (list Q));
  glucose_state : nat;
  states_state_units : list string;
  parameters_VG : list Q;
  time_as_unix : list Q
}.

Record Cohort : Type := { singlescale_model : Model }.

Record Summary : Type := {
  status : string;
  min_glucose_mg_dl : Q;
  max_glucose_mg_dl : Q;
  final_glucose_mg_dl : Q
}.

Record TraceEntry : Type := { time_min : Q; glucose_mg_dl : Q }.

Record ResultData : Type := { summary : Summary; cgm_trace : list TraceEntry }.

Inductive LogRecord : Type :=
  | LogInfo (fmt : string) (args : list pyval)
  | LogException (msg : string) (e : Exception).

(** What external code can see and change. *)
Record World (E : Type) : Type := mkWorld { cwd : string; ext : E }.
Arguments mkWorld {E} cwd ext.
Arguments cwd {E} w.
Arguments ext {E} w.

(** An external call: may raise, may change the world. *)
Definition Ext (E A : Type) : Type := World E → result A * World E.

(** The simulation engine as the adapter uses it. Python objects that a
    call may change in place ([args], the scenario) are returned by the
    call. *)
Record Engine : Type := {
  ext_state : Type;
  Parser : Type;
  Folder : Type;
  Scenario : Type;
  initialization : Ext ext_state ();
  generate_parser_cli : Ext ext_state Parser;
  parse_args : Parser → list string → Ext ext_state Namespace;
  results_path : Folder;
  create_simulation_results_folder :
    Folder → Ext ext_state (Folder * Folder * Folder * Folder);
  load_settings_file : Namespace → Folder → Ext ext_state (Scenario * Namespace);
  generate_simulation_settings_main :
    Scenario → Namespace → Folder → Ext ext_state (Scenario * Namespace);
  generate_virtual_subjects_main :
    Scenario → Namespace → Folder → Ext ext_state (Scenario * Namespace);
  activity_args_to_scenario :
    Scenario → Namespace → Ext ext_state (Scenario * Namespace);
  generate_inputs_main :
    Scenario → Namespace → Folder → Ext ext_state (Scenario * Namespace);
  generate_results_main : Scenario → Namespace → Folder → Ext ext_state Cohort;
  concentration_mmolL_to_mgdL : list Q → list Q
}.

(** ** Pure stages *)

(** Line 105: [max(1, int(np.ceil(duration_minutes / (24 * 60))))] *)
Definition days_of (duration_minutes : pyval) : result Z :=
  q ← true_div_int duration_minutes (24 * 60);
  mret (Z.max 1 (Qceiling q)).

(** Lines 106-133: the overrides written into [args]. *)
Definition map_parameters (carbs_grams : pyval) (days : Z) (args : Namespace)
  : Namespace :=
  let args := <["number_of_days" := PyInt days]> args in
  let args := set_if_present "breakfast_carb_range"
                (PyList [carbs_grams; carbs_grams]) args in
  let args := set_if_present "running_start_time" (PyList [PyStr "00:00"]) args in
  let args := set_if_present "cycling_start_time" (PyList [PyStr "00:00"]) args in
  let args := set_if_present "running_duration" (PyList [PyFloat 0]) args in
  let args := set_if_present "cycling_duration" (PyList [PyFloat 0]) args in
  let args := set_if_present "running_incline" (PyList [PyFloat 0]) args in
  let args := set_if_present "running_speed" (PyList [PyFloat 0]) args in
  set_if_present "cycling_power" (PyList [PyFloat 0]) args.

(** Lines 178-181: [states[0, glucose_state_idx, :]] *)
Definition extract_glucose (model : Model) : result (list Q) :=
  subject ← np_index 0 (states_as_array model) 0;
  np_index 1 subject (glucose_state model).

(** Lines 184-189. When a quotient is inf or nan the program goes on with
    it; the model stops there. *)
Definition normalize_units (conv : list Q → list Q) (unit : string)
    (glucose_raw : list Q) (VG : list Q) : result (list Q) :=
  if String.eqb unit "mmol/L" then
    vg ← np_index 0 VG 0;
    match np_divide_array glucose_raw vg with
    | Some quotients => mret (conv quotients)
    | None => Raise non_finite
    end
  else mret glucose_raw.

(** Lines 195-198. The time axis is a float64 array, so the comparison is
    with the float64 of [max_time]. *)
Definition truncate (time_points glucose : list Q) (duration_minutes : pyval)
  : result (list Q * list Q) :=
  max_time ← as_float64 duration_minutes;
  let mask := map (λ t, Qle_bool t max_time) time_points in
  time_points ← bool_index time_points mask;
  glucose ← bool_index glucose mask;
  mret (time_points, glucose).

(** Lines 205-209 *)
Definition classify (min_glucose max_glucose : Q) : string :=
  if Qlt_bool min_glucose 70 then "Hypoglycemia (Low)"
  else if Qlt_bool 180 max_glucose then "Hyperglycemia (High)"
  else "Normal".

(** Line 222: [i % 15 == 0 or i == len(glucose) - 1] *)
Definition keep (len_glucose i : nat) : bool :=
  (i mod 15 =? 0)%nat || (Z.of_nat i =? Z.of_nat len_glucose - 1)%Z.

(** Lines 219-223 *)
Definition subsample (time_points glucose : list Q) : list TraceEntry :=
  map (λ p, {| time_min := p.2.1; glucose_mg_dl := round1 p.2.2 |})
    (List.filter (λ p, keep (length glucose) p.1)
       (enumerate (zip time_points glucose))).

(** Lines 201-224 *)
Definition summarize (time_points glucose : list Q) : result ResultData :=
  min_glucose ← np_min glucose;
  max_glucose ← np_max glucose;
  final_glucose ← index_last glucose;
  let status := classify min_glucose max_glucose in
  mret {| summary := {| status := status;
                        min_glucose_mg_dl := round1 min_glucose;
                        max_glucose_mg_dl := round1 max_glucose;
                        final_glucose_mg_dl := round1 final_glucose |};
          cgm_trace := subsample time_points glucose |}.

(** Lines 175-224: from the engine's model to the result. *)
Definition postprocess (conv : list Q → list Q) (model : Model)
    (duration_minutes : pyval) : result ResultData :=
  glucose_raw ← extract_glucose model;
  unit ← list_index (states_state_units model) (glucose_state model);
  glucose ← normalize_units conv unit glucose_raw (parameters_VG model);
  '(time_points, glucose) ← truncate (time_as_unix model) glucose duration_minutes;
  summarize time_points glucose.

(** ** Notions used in the statements *)

(** The positions kept by the comprehension on a sequence of length [L]. *)
Definition selected (L : nat) : list nat := List.filter (keep L) (seq 0 L).

(** [duration_minutes] is a [float], or an [int] of magnitude at most
    [2^53], which float64 holds exactly. *)
Definition exact_duration (d : pyval) : Prop :=
  match d with
  | PyFloat _ => True
  | PyInt z => (Z.abs z ≤ 2 ^ 53)%Z
  | _ => False
  end.

(** The samples with time at most [max_time], as (time, glucose) pairs. *)
Definition within (max_time : Q) (time_points glucose : list Q) : list (Q * Q) :=
  List.filter (λ p, Qle_bool p.1 max_time) (zip time_points glucose).

(** ** Process state and the monad of the adapter's code *)

Section Tool.

Variable eng : Engine.
(** [os.path.dirname(__file__)] *)
Variable BASE_DIR : string.
Variable json_dumps : ResultData → string.

Abbreviation E := (ext_state eng).

Record State : Type := mkState {
  world : World E;
  _initialized : bool;
  log : list LogRecord
}.

Definition M (A : Type) : Type := State → result A * State.

#[export] Instance M_ret : MRet M := λ A a s, (Ok a, s).
#[export] Instance M_bind : MBind M := λ A B k m s,
  match m s with
  | (Ok a, s') => k a s'
  | (Raise e, s') => (Raise e, s')
  end.

Definition lift {A} (r : result A) : M A := λ s, (r, s).

Definition call {A} (f : Ext E A) : M A := λ s,
  let '(r, w) := f (world s) in
  (r, mkState w (_initialized s) (log s)).

Definition logger_info (fmt : string) (args : list pyval) : M () := λ s,
  (Ok (), mkState (world s) (_initialized s) (log s ++ [LogInfo fmt args])).

Definition logger_exception (msg : string) (e : Exception) (s : State) : State :=
  mkState (world s) (_initialized s) (log s ++ [LogException msg e]).

Definition os_getcwd : M string := λ s, (Ok (cwd (world s)), s).

Definition os_chdir (path : string) : M () := λ s,
  (Ok (), mkState (mkWorld path (ext (world s))) (_initialized s) (log s)).

Definition set_initialized (b : bool) : M () := λ s,
  (Ok (), mkState (world s) b (log s)).

(** [try: body finally: cleanup] *)
Definition try_finally {A} (body : M A) (cleanup : M ()) : M A := λ s,
  let '(r, s') := body s in
  match cleanup s' with
  | (Ok _, s'') => (r, s'')
  | (Raise e, s'') => (Raise e, s'')
  end.

Definition PY_MGIPSIM_DIR : string := path_join BASE_DIR "py_mgipsim".

(** Lines 44-65 *)
Definition _ensure_pymgipsim_initialized : M () := λ s,
  if _initialized s then (Ok (), s)
  else
    (_ ← logger_info "Initializing py_mgipsim environment..." [];
     old_cwd ← os_getcwd;
     _ ← try_finally
           (_ ← os_chdir PY_MGIPSIM_DIR; call (initialization eng))
           (os_chdir old_cwd);
     _ ← set_initialized true;
     logger_info "py_mgipsim initialized." []) s.

(** Lines 147-165: the three preparation stages, run when
    [not args.scenario_name]. *)
Definition prepare_scenario (settings_file : Scenario eng) (args : Namespace)
    (results_folder_path : Folder eng) : M (Scenario eng * Namespace) :=
  scenario_name ← lift (getattr args "scenario_name");
  if negb (truthy scenario_name) then
    '(settings_file, args) ←
       call (generate_simulation_settings_main eng settings_file args
               results_folder_path);
    '(settings_file, args) ←
       call (generate_virtual_subjects_main eng settings_file args
               results_folder_path);
    '(settings_file, args) ←
       call (activity_args_to_scenario eng settings_file args);
    call (generate_inputs_main eng settings_file args results_folder_path)
  else mret (settings_file, args).

(** Lines 89-226: the body of the [try]. *)
Definition simulate_body
    (carbs_grams insulin_bolus body_weight duration_minutes : pyval)
  : M ResultData :=
  _ ← logger_info
        "Starting simulation with carbs=%s g, bolus=%s U, body_weight=%s kg, duration=%s min"
        [carbs_grams; insulin_bolus; body_weight; duration_minutes];
  _ ← _ensure_pymgipsim_initialized;
  parser ← call (generate_parser_cli eng);
  args ← call (parse_args eng parser []);
  days ← lift (days_of duration_minutes);
  let args := map_parameters carbs_grams days args in
  folders ← call (create_simulation_results_folder eng (results_path eng));
  let results_folder_path := folders.2 in
  '(settings_file, args) ← call (load_settings_file eng args results_folder_path);
  '(settings_file, args) ← prepare_scenario settings_file args results_folder_path;
  cohort ← call (generate_results_main eng settings_file args results_folder_path);
  let model := singlescale_model cohort in
  lift (postprocess (concentration_mmolL_to_mgdL eng) model duration_minutes).

(** Lines 69-230: the tool. What it returns or lets through, and the state
    it leaves. [except Exception] catches the instances of [Exception]
    only. *)
Definition simulate_glucose_dynamics
    (carbs_grams insulin_bolus body_weight duration_minutes : pyval)
    (s : State) : result string * State :=
  match simulate_body carbs_grams insulin_bolus body_weight duration_minutes s with
  | (Ok result_data, s') => (Ok (json_dumps result_data), s')
  | (Raise e, s') =>
      match exc_kind e with
      | OfException =>
          (Ok ("Error executing simulation: " +:+ exc_str e),
           logger_exception "Simulation failed" e s')
      | _ => (Raise e, s')
      end
  end.

(** *** Notions used in the statements about runs *)

(** The model was returned by the engine's simulation call. *)
Definition engine_returned (model : Model) : Prop :=
  ∃ settings_file args folder w0 w1,
    generate_results_main eng settings_file args folder w0
    = (Ok {| singlescale_model := model |}, w1).

(** [glucose] is the glucose state of subject 0 of [model], in mg/dL. *)
Definition normalized_glucose (model : Model) (glucose : list Q) : Prop :=
  ∃ glucose_raw unit,
    extract_glucose model = Ok glucose_raw ∧
    states_state_units model !! glucose_state model = Some unit ∧
    normalize_units (concentration_mmolL_to_mgdL eng) unit glucose_raw
      (parameters_VG model) = Ok glucose.

(** Two states that differ at most in a prefix of their logs. *)
Definition sim (p1 p2 : list LogRecord) (s1 s2 : State) : Prop :=
  world s1 = world s2 ∧
  _initialized s1 = _initialized s2 ∧
  ∃ t, log s1 = p1 ++ t ∧ log s2 = p2 ++ t.

(** A computation that does not read the log. *)
Definition blind {A} (m : M A) : Prop :=
  ∀ p1 p2 s1 s2, sim p1 p2 s1 s2 →
    (m s1).1 = (m s2).1 ∧ sim p1 p2 (m s1).2 (m s2).2.

End Tool.

End Adapter.

(** ** A test double for the engine

    The double keeps a journal of the calls it receives, each with the
    working directory it ran in and the namespace it was given, returns a
    fixed model, and raises at the calls selected by [fail]. It accepts any
    carbohydrate value. *)

Module Double.
Import Adapter.

Definition journal : Type := list (string * string * Namespace).

Definition answer {A} (fail : string → option Exception) (name : string)
    (args : Namespace) (a : A) : Ext journal A := λ w,
  match fail name with
  | Some e => (Raise e, w)
  | None => (Ok a, mkWorld (cwd w) (ext w ++ [(name, cwd w, args)]))
  end.

Definition engine (model : Model) (defaults : Namespace)
    (fail : string → option Exception) : Engine := {|
  ext_state := journal;
  Parser := ();
  Folder := string;
  Scenario := ();
  initialization := answer fail "initialization" ∅ ();
  generate_parser_cli := answer fail "generate_parser_cli" ∅ ();
  parse_args := λ _ _, answer fail "parse_args" ∅ defaults;
  results_path := "results";
  create_simulation_results_folder := λ p,
    answer fail "create_simulation_results_folder" ∅ (p, p, p, p +:+ "/run");
  load_settings_file := λ args _, answer fail "load_settings_file" args ((), args);
  generate_simulation_settings_main := λ sc args _,
    answer fail "generate_simulation_settings_main" args (sc, args);
  generate_virtual_subjects_main := λ sc args _,
    answer fail "generate_virtual_subjects_main" args (sc, args);
  activity_args_to_scenario := λ sc args,
    answer fail "activity_args_to_scenario" args (sc, args);
  generate_inputs_main := λ sc args _,
    answer fail "generate_inputs_main" args (sc, args);
  generate_results_main := λ sc args _,
    answer fail "generate_results_main" args {| singlescale_model := model |};
  concentration_mmolL_to_mgdL := map (λ g, g * 18)%Q
|}.

Definition never : string → option Exception := λ _, None.

Definition fail_at (name : string) (e : Exception) : string → option Exception :=
  λ n, if String.eqb n name then Some e else None.

Definition defaults : Namespace :=
  {[ "scenario_name" := PyNone;
     "number_of_days" := PyInt 1;
     "breakfast_carb_range" := PyList [PyFloat 80; PyFloat 120];
     "running_start_time" := PyList [] ]}.

(** Samples every 5 minutes over one day; glucose falls from 120 to 66 at
    minute 35 and then rises by 1 per sample up to 190. *)
Definition day_time : list Q := map (λ i, inject_Z (Z.of_nat i * 5)) (seq 0 288).

Definition day_glucose : list Q :=
  map (λ i, if (i <? 7)%nat then inject_Z (120 - Z.of_nat i * 8)
            else if (i =? 7)%nat then 66%Q
            else inject_Z (Z.min 190 (100 + Z.of_nat i))) (seq 0 288).

Definition day_model : Model := {|
  states_as_array := [[[]; day_glucose]];
  glucose_state := 1;
  states_state_units := ["mU/L"; "mg/dL"];
  parameters_VG := [11%Q];
  time_as_unix := day_time
|}.

Definition start (eng : Engine) (j : ext_state eng) : State eng :=
  mkState eng (mkWorld "/srv/app" j) false [].

Definition json (r : ResultData) : string :=
  "{" +:+ status (summary r) +:+ "; " +:+ pretty (length (cgm_trace r)) +:+ "}".

Definition base : string := "/opt/t1d".
Definition sim_engine : Engine := engine day_model defaults never.
Definition s0 : State sim_engine := start sim_engine [].

(** The engine raises while generating inputs. *)
Definition solver_error : Exception := RuntimeError "solver diverged".
Definition failing_engine : Engine :=
  engine day_model defaults (fail_at "generate_inputs_main" solver_error).

Definition engine_calls : list string :=
  [ "initialization"; "generate_parser_cli"; "parse_args";
    "create_simulation_results_folder"; "load_settings_file";
    "generate_simulation_settings_main"; "generate_virtual_subjects_main";
    "activity_args_to_scenario"; "generate_inputs_main"; "generate_results_main" ].

(** The parser exits, as [argparse] does on a command line it rejects. *)
Definition exit_engine : Engine :=
  engine day_model defaults (fail_at "parse_args" (SystemExit "2")).

(** One sample, at minute [2^53 + 4]. *)
Definition late_model : Model := {|
  states_as_array := [[[100%Q]]];
  glucose_state := 0;
  states_state_units := ["mg/dL"];
  parameters_VG := [];
  time_as_unix := [inject_Z (2 ^ 53 + 4)]
|}.

Definition late_engine : Engine := engine late_model defaults never.

(** The result of the request {carbs=100, bolus=0, weight=70, duration=120}. *)
Definition expected_120 : ResultData := {|
  summary := {| status := "Hypoglycemia (Low)";
                min_glucose_mg_dl := 66;
                max_glucose_mg_dl := 124;
                final_glucose_mg_dl := 124 |};
  cgm_trace := [ {| time_min := 0; glucose_mg_dl := 120 |};
                 {| time_min := 75; glucose_mg_dl := 115 |};
                 {| time_min := 120; glucose_mg_dl := 124 |} ]
|}.

End Double.

(** ** Module set-up, sequences of requests, notions for their statements *)

Module Session.
Import Adapter.

(** Lines 17-18: [if PY_MGIPSIM_DIR not in sys.path: sys.path.append(...)] *)
Definition ensure_on_path (dir : string) (sys_path : list string) : list string :=
  if bool_decide (dir ∈ sys_path) then sys_path else sys_path ++ [dir].

(** Lines 112-133 as a table: the attributes overridden when present, with
    the value each receives. *)
Definition overrides (carbs_grams : pyval) : list (string * pyval) :=
  [ ("breakfast_carb_range", PyList [carbs_grams; carbs_grams]);
    ("running_start_time", PyList [PyStr "00:00"]);
    ("cycling_start_time", PyList [PyStr "00:00"]);
    ("running_duration", PyList [PyFloat 0]);
    ("cycling_duration", PyList [PyFloat 0]);
    ("running_incline", PyList [PyFloat 0]);
    ("running_speed", PyList [PyFloat 0]);
    ("cycling_power", PyList [PyFloat 0]) ].

(** The arguments of one tool call. *)
Record Request : Type := {
  req_carbs : pyval;
  req_bolus : pyval;
  req_weight : pyval;
  req_duration : pyval
}.

Definition is_info (r : LogRecord) : Prop :=
  match r with LogInfo _ _ => True | LogException _ _ => False end.

(** A call wrapped so that it counts in the first component of the state:
    [bump] is added at each call. *)
Definition counted {E A} (bump : nat) (f : Ext E A) : Ext (nat * E) A := λ w,
  let '(r, w') := f (mkWorld (cwd w) (ext w).2) in
  (r, mkWorld (cwd w') ((ext w).1 + bump, ext w')).

(** The engine [eng] with a counter of the runs of [initialization]. *)
Definition counting (eng : Engine) : Engine := {|
  ext_state := nat * ext_state eng;
  Parser := Parser eng;
  Folder := Folder eng;
  Scenario := Scenario eng;
  initialization := counted 1 (initialization eng);
  generate_parser_cli := counted 0 (generate_parser_cli eng);
  parse_args := λ p argv, counted 0 (parse_args eng p argv);
  results_path := results_path eng;
  create_simulation_results_folder := λ p,
    counted 0 (create_simulation_results_folder eng p);
  load_settings_file := λ args f, counted 0 (load_settings_file eng args f);
  generate_simulation_settings_main := λ sc args f,
    counted 0 (generate_simulation_settings_main eng sc args f);
  generate_virtual_subjects_main := λ sc args f,
    counted 0 (generate_virtual_subjects_main eng sc args f);
  activity_args_to_scenario := λ sc args,
    counted 0 (activity_args_to_scenario eng sc args);
  generate_inputs_main := λ sc args f,
    counted 0 (generate_inputs_main eng sc args f);
  generate_results_main := λ sc args f,
    counted 0 (generate_results_main eng sc args f);
  concentration_mmolL_to_mgdL := concentration_mmolL_to_mgdL eng
|}.

(** One engine call as an observer sees it: its name, the namespace it was
    given, the exception it raised. *)
Record CallRecord : Type := {
  call_name : string;
  call_args : option Namespace;
  call_raised : option Exception
}.

Definition raised {A} (r : result A) : option Exception :=
  match r with Ok _ => None | Raise e => Some e end.

Definition returned (c : CallRecord) : Prop := call_raised c = None.

(** A call wrapped so that it is recorded in the first component of the
    state. *)
Definition recorded {E A} (name : string) (args : option Namespace) (f : Ext E A)
  : Ext (list CallRecord * E) A := λ w,
  let '(r, w') := f (mkWorld (cwd w) (ext w).2) in
  (r, mkWorld (cwd w')
        ((ext w).1 ++ [{| call_name := name; call_args := args;
                          call_raised := raised r |}], ext w')).

(** The engine [eng] with a record of the calls made to it. *)
Definition recording (eng : Engine) : Engine := {|
  ext_state := list CallRecord * ext_state eng;
  Parser := Parser eng;
  Folder := Folder eng;
  Scenario := Scenario eng;
  initialization := recorded "initialization" None (initialization eng);
  generate_parser_cli :=
    recorded "generate_parser_cli" None (generate_parser_cli eng);
  parse_args := λ p argv, recorded "parse_args" None (parse_args eng p argv);
  results_path := results_path eng;
  create_simulation_results_folder := λ p,
    recorded "create_simulation_results_folder" None
      (create_simulation_results_folder eng p);
  load_settings_file := λ args f,
    recorded "load_settings_file" (Some args) (load_settings_file eng args f);
  generate_simulation_settings_main := λ sc args f,
    recorded "generate_simulation_settings_main" (Some args)
      (generate_simulation_settings_main eng sc args f);
  generate_virtual_subjects_main := λ sc args f,
    recorded "generate_virtual_subjects_main" (Some args)
      (generate_virtual_subjects_main eng sc args f);
  activity_args_to_scenario := λ sc args,
    recorded "activity_args_to_scenario" (Some args)
      (activity_args_to_scenario eng sc args);
  generate_inputs_main := λ sc args f,
    recorded "generate_inputs_main" (Some args) (generate_inputs_main eng sc args f);
  generate_results_main := λ sc args f,
    recorded "generate_results_main" (Some args)
      (generate_results_main eng sc args f);
  concentration_mmolL_to_mgdL := concentration_mmolL_to_mgdL eng
|}.

(** The calls recorded so far. *)
Definition calls {eng : Engine} (s : State (recording eng)) : list CallRecord :=
  (ext (world (recording eng) s)).1.



(** The outcome [res] of a computation and the engine calls [made] during
    it. Every call returned, unless the last one raised, and then [res] is
    the exception it raised. When every call returned and [res] is an
    exception, it is one of [P]. *)
Definition first_failure {A} (P : Exception → Prop) (res : result A)
    (made : list CallRecord) : Prop :=
  match res with
  | Ok _ => Forall returned made
  | Raise e =>
      (∃ before name args,
         made = before ++ [{| call_name := name; call_args := args;
                              call_raised := Some e |}]
         ∧ Forall returned before)
      ∨ (Forall returned made ∧ P e)
  end.

Definition tracked {eng : Engine} {A} (P : Exception → Prop)
    (m : M (recording eng) A) : Prop :=
  ∀ s, ∃ made, calls (m s).2 = calls s ++ made ∧ first_failure P (m s).1 made.


(** The exceptions of the adapter's own statements: the division of line
    105, the attribute [scenario_name], the post-processing. *)
Definition adapter_raises (conv : list Q → list Q) (d : pyval) (e : Exception)
  : Prop :=
  days_of d = Raise e
  ∨ (∃ args : Namespace, getattr args "scenario_name" = Raise e)
  ∨ (∃ model, postprocess conv model d = Raise e).

Section Requests.

Variable eng : Engine.
Variable BASE_DIR : string.
Variable json_dumps : ResultData → string.


(** One tool call, and tool calls one after the other from the state the
    previous one left. *)
Definition serve (s : State eng) (req : Request) : result string * State eng :=
  simulate_glucose_dynamics eng BASE_DIR json_dumps
    (req_carbs req) (req_bolus req) (req_weight req) (req_duration req) s.

Definition serve_all (reqs : list Request) (s : State eng) : State eng :=
  foldl (λ s req, (serve s req).2) s reqs.

(** [m] relates every state to the state it leaves. *)
Definition preserves (R : State eng → State eng → Prop) {A} (m : M eng A) : Prop :=
  ∀ s, R s (m s).2.

(** The engine calls of the pipeline: all but [initialization]. *)
Inductive pipeline_call : ∀ {A : Type}, Ext (ext_state eng) A → Prop :=
  | pc_parser : pipeline_call (generate_parser_cli eng)
  | pc_parse_args p argv : pipeline_call (parse_args eng p argv)
  | pc_folder p : pipeline_call (create_simulation_results_folder eng p)
  | pc_load args f : pipeline_call (load_settings_file eng args f)
  | pc_settings sc args f :
      pipeline_call (generate_simulation_settings_main eng sc args f)
  | pc_subjects sc args f :
      pipeline_call (generate_virtual_subjects_main eng sc args f)
  | pc_activity sc args : pipeline_call (activity_args_to_scenario eng sc args)
  | pc_inputs sc args f : pipeline_call (generate_inputs_main eng sc args f)
  | pc_results sc args f : pipeline_call (generate_results_main eng sc args f).

(** No pipeline call of the engine changes the working directory. *)
Definition cwd_stable : Prop :=
  ∀ A (f : Ext (ext_state eng) A), pipeline_call f →
    ∀ w, cwd (f w).2 = cwd w.

(** The log of [s'] is the log of [s] followed by info records. *)
Definition log_grows (s s' : State eng) : Prop :=
  ∃ t, log eng s' = log eng s ++ t ∧ Forall is_info t.

(** A set flag is still set in [s']. *)
Definition flag_kept (s s' : State eng) : Prop :=
  _initialized eng s = true → _initialized eng s' = true.

(** The working directory of [s'] is that of [s]. *)
Definition cwd_kept (s s' : State eng) : Prop :=
  cwd (world eng s') = cwd (world eng s).

(** The first record a call logs: its four arguments. *)
Definition starting (req : Request) : LogRecord :=
  LogInfo
    "Starting simulation with carbs=%s g, bolus=%s U, body_weight=%s kg, duration=%s min"
    [req_carbs req; req_bolus req; req_weight req; req_duration req].

End Requests.

(** The number of runs of [initialization] so far. *)
Definition initializations {eng : Engine} (s : State (counting eng)) : nat :=
  (ext (world (counting eng) s)).1.

(** From a state with the flag set: the flag is still set and no
    initialization has run. *)
Definition settled {eng : Engine} (s s' : State (counting eng)) : Prop :=
  _initialized (counting eng) s = true →
  _initialized (counting eng) s' = true ∧ initializations s' = initializations s.

End Session.

(** ** The connection test: [test_adapter_connection.py] *)

Module ConnectionTest.

(** ["\n"] *)
Definition nl : string := String (Ascii.ascii_of_nat 10) EmptyString.

Inductive LogLine : Type :=
  | Info (msg : string)
  | Error (msg : string).

(** The dictionary returned by [MockSimulator.run_simulation]. *)
Record RawResult : Type := {
  raw_status : string;
  raw_steps_completed : pyval;
  raw_result_data : string;
  raw_metrics_accuracy : pyval
}.

(** [v < 0] *)
Definition lt_zero (v : pyval) : result bool :=
  match v with
  | PyInt z => Ok (z <? 0)%Z
  | PyFloat q => Ok (Qlt_bool q 0)
  | _ =>
      Raise (TypeError ("'<' not supported between instances of '"
                          +:+ type_name v +:+ "' and 'int'"))
  end.

(** [sub in s] on strings *)
Fixpoint contains (sub s : string) : bool :=
  String.prefix sub s
  || match s with
     | EmptyString => false
     | String _ s' => contains sub s'
     end.

(** [steps] is a number that is not negative. *)
Definition accepts (steps : pyval) : bool :=
  match as_number steps with
  | Some q => Qle_bool 0 q
  | None => false
  end.

Section Format.

(** [str(q)] of a float, and [str(l)] of a list, which the model does not
    print; the latter is [None] when the list holds an [int] that [str]
    does not convert. *)
Variable repr_float : Q → string.
Variable repr_list : list pyval → option string.

Definition digits_limit : Exception :=
  ValueError "Exceeds the limit (4300 digits) for integer string conversion; use sys.set_int_max_str_digits() to increase the limit".

(** [str(v)], what an f-string field [{v}] shows. An [int] of more than
    4300 digits is not converted. *)
Definition py_str (v : pyval) : result string :=
  match v with
  | PyStr s => Ok s
  | PyNone => Ok "None"
  | PyInt z => if (Z.abs z <? 10 ^ 4300)%Z then Ok (pretty z) else Raise digits_limit
  | PyFloat q => Ok (repr_float q)
  | PyList l =>
      match repr_list l with
      | Some text => Ok text
      | None => Raise digits_limit
      end
  end.

(** [str(v)] returns. *)
Definition printable (v : pyval) : bool :=
  match py_str v with Ok _ => true | Raise _ => false end.

(** Lines 24-35: [MockSimulator.run_simulation] *)
Definition run_simulation (steps context : pyval) : result RawResult :=
  negative ← lt_zero steps;
  if negative : bool then Raise (ValueError "Steps cannot be negative")
  else
    text ← py_str context;
    mret {| raw_status := "success";
            raw_steps_completed := steps;
            raw_result_data := "Simulation result for " +:+ text;
            raw_metrics_accuracy := PyFloat (float64 (98 # 100)) |}.

(** Lines 75-78: the [except] clause, after the lines logged so far. Every
    exception raised in the [try] is an instance of [Exception]. *)
Definition failed (logged : list LogLine) (e : Exception) : string * list LogLine :=
  let error_msg := "Error in simulator adapter: " +:+ exc_str e in
  ("Tool Execution Failed: " +:+ error_msg, logged ++ [Error error_msg]).

(** Lines 53-78: [SimulatorAdapter.call_tool]; what it returns and what it
    logs. The f-strings are evaluated inside the [try]. *)
Definition call_tool (arguments : gmap string pyval) : string * list LogLine :=
  let steps := default (PyInt 10) (arguments !! "steps") in
  let context := default (PyStr "default") (arguments !! "context") in
  match (text_steps ← py_str steps;
         text_context ← py_str context;
         mret (Info ("Adapter calling simulator with: steps=" +:+ text_steps
                       +:+ ", context=" +:+ text_context))) with
  | Raise e => failed [] e
  | Ok info =>
      match (raw_result ← run_simulation steps context;
             accuracy ← py_str (raw_metrics_accuracy raw_result);
             mret ("Simulation Complete." +:+ nl
                     +:+ "Status: " +:+ raw_status raw_result +:+ nl
                     +:+ "Accuracy: " +:+ accuracy +:+ nl
                     +:+ "Data: " +:+ raw_result_data raw_result)) with
      | Ok output => (output, [info])
      | Raise e => failed [info] e
      end
  end.

(** Lines 129-139: the check of one test case on the adapter's answer. *)
Definition case_passes (expect_success : bool) (result : string) : bool :=
  if expect_success then contains "Simulation Complete" result
  else contains "Tool Execution Failed" result.

(** Lines 110-121: the two test cases, input and [expect_success]. *)
Definition test_cases : list (gmap string pyval * bool) :=
  [ ({[ "steps" := PyInt 50; "context" := PyStr "test_scenario_A" ]}, true);
    ({[ "steps" := PyInt (-1); "context" := PyStr "fail_scenario" ]}, false) ].

(** Lines 123-139: the verdict of the loop on each case. *)
Definition run_connection_test : list bool :=
  map (λ case, case_passes case.2 (call_tool case.1).1) test_cases.

End Format.

End ConnectionTest.

(** ** Rationals: comparison, rounding, extrema *)

Section Numeric.

Lemma Qlt_bool_true (x y : Q) : Qlt_bool x y = true ↔ (x < y)%Q.
Proof.
  unfold Qlt_bool. rewrite negb_true_iff. split.
  - intros H. apply Qnot_le_lt. intros Hle.
    apply Qle_bool_iff in Hle. congruence.
  - intros H. destruct (Qle_bool y x) eqn:Hb; [|done].
    apply Qle_bool_iff in Hb. exfalso. by apply (Qlt_not_le x y).
Qed.

Lemma Qlt_bool_false (x y : Q) : Qlt_bool x y = false ↔ (y <= x)%Q.
Proof.
  unfold Qlt_bool. rewrite negb_false_iff. apply Qle_bool_iff.
Qed.

Lemma foldl_min_spec (xs : list Q) (x : Q) :
  let m := foldl (λ m y, if Qlt_bool y m then y else m) x xs in
  m ∈ x :: xs ∧ ∀ y, y ∈ x :: xs → (m <= y)%Q.
Proof.
  revert x. induction xs as [|a xs IH]; intros x; simpl.
  - split; [by left|]. intros y Hy.
    apply list_elem_of_singleton in Hy as ->. apply Qle_refl.
  - destruct (Qlt_bool a x) eqn:Hax.
    + destruct (IH a) as [Hin Hle]. split; [by right|].
      intros y Hy. apply elem_of_cons in Hy as [->|Hy]; [|by apply Hle].
      apply Qlt_bool_true in Hax. apply Qle_trans with a.
      * apply Hle. by left.
      * by apply Qlt_le_weak.
    + destruct (IH x) as [Hin Hle]. apply Qlt_bool_false in Hax. split.
      * apply elem_of_cons in Hin as [->|Hin]; [by left|by do 2 right].
      * intros y Hy. apply elem_of_cons in Hy as [->|Hy]; [apply Hle; by left|].
        apply elem_of_cons in Hy as [->|Hy].
        -- apply Qle_trans with x; [apply Hle; by left|done].
        -- apply Hle. by right.
Qed.

Lemma foldl_max_spec (xs : list Q) (x : Q) :
  let m := foldl (λ m y, if Qlt_bool m y then y else m) x xs in
  m ∈ x :: xs ∧ ∀ y, y ∈ x :: xs → (y <= m)%Q.
Proof.
  revert x. induction xs as [|a xs IH]; intros x; simpl.
  - split; [by left|]. intros y Hy.
    apply list_elem_of_singleton in Hy as ->. apply Qle_refl.
  - destruct (Qlt_bool x a) eqn:Hax.
    + destruct (IH a) as [Hin Hle]. split; [by right|].
      intros y Hy. apply elem_of_cons in Hy as [->|Hy]; [|by apply Hle].
      apply Qlt_bool_true in Hax. apply Qle_trans with a.
      * by apply Qlt_le_weak.
      * apply Hle. by left.
    + destruct (IH x) as [Hin Hle]. apply Qlt_bool_false in Hax. split.
      * apply elem_of_cons in Hin as [->|Hin]; [by left|by do 2 right].
      * intros y Hy. apply elem_of_cons in Hy as [->|Hy]; [apply Hle; by left|].
        apply elem_of_cons in Hy as [->|Hy].
        -- apply Qle_trans with x; [done|apply Hle; by left].
        -- apply Hle. by right.
Qed.

(** [np.min] of a non-empty array is an element below all elements. *)
Lemma np_min_spec (xs : list Q) (m : Q) :
  np_min xs = Ok m → m ∈ xs ∧ ∀ y, y ∈ xs → (m <= y)%Q.
Proof.
  destruct xs as [|x xs]; simpl; [done|].
  intros [= <-]. apply foldl_min_spec.
Qed.

Lemma np_max_spec (xs : list Q) (m : Q) :
  np_max xs = Ok m → m ∈ xs ∧ ∀ y, y ∈ xs → (y <= m)%Q.
Proof.
  destruct xs as [|x xs]; simpl; [done|].
  intros [= <-]. apply foldl_max_spec.
Qed.

Lemma np_min_nonempty (xs : list Q) : xs ≠ [] → ∃ m, np_min xs = Ok m.
Proof. destruct xs; [done|]. intros _. simpl. eauto. Qed.

Lemma np_max_nonempty (xs : list Q) : xs ≠ [] → ∃ m, np_max xs = Ok m.
Proof. destruct xs; [done|]. intros _. simpl. eauto. Qed.

Lemma index_last_nonempty (xs : list Q) : xs ≠ [] → ∃ x, index_last xs = Ok x.
Proof.
  intros Hne. unfold index_last. destruct (last xs) eqn:Hl; [eauto|].
  apply last_None in Hl. done.
Qed.

Lemma round_half_even_close (x : Q) :
  (Qabs (inject_Z (round_half_even x) - x) <= 1 # 2)%Q.
Proof.
  apply Qabs_Qle_condition. unfold round_half_even.
  pose proof (Qfloor_le x) as Hlo. pose proof (Qlt_floor x) as Hhi.
  rewrite inject_Z_plus in Hhi. change (inject_Z 1) with 1%Q in Hhi.
  destruct (x - inject_Z (Qfloor x) ?= 1 # 2)%Q eqn:Hc.
  - apply Qeq_alt in Hc. destruct (Z.even (Qfloor x)).
    + generalize dependent (inject_Z (Qfloor x)). intros f ? ? ?. split; lra.
    + rewrite inject_Z_plus. change (inject_Z 1) with 1%Q.
      generalize dependent (inject_Z (Qfloor x)). intros f ? ? ?. split; lra.
  - apply Qlt_alt in Hc.
    generalize dependent (inject_Z (Qfloor x)). intros f ? ? ?. split; lra.
  - apply Qgt_alt in Hc. rewrite inject_Z_plus. change (inject_Z 1) with 1%Q.
    generalize dependent (inject_Z (Qfloor x)). intros f ? ? ?. split; lra.
Qed.



(** float64 values and roundings, as Python prints them:
    [0.1], [-0.35], [round(0.35, 1) == 0.3], [round(-0.15, 1) == -0.1],
    [round(0.25, 1) == 0.2], [round(65.04, 1) == 65.0]. *)
Example float64_tenth :
  float64 (1 # 10) = Qmake 3602879701896397 36028797018963968.
Proof. vm_compute. reflexivity. Qed.

Example float64_negative :
  float64 (- (35 # 100)) = Qmake (-3152519739159347) 9007199254740992.
Proof. vm_compute. reflexivity. Qed.

Example round1_below_tie : round1 (float64 (35 # 100)) = float64 (3 # 10).
Proof. vm_compute. reflexivity. Qed.

Example round1_negative : round1 (float64 (- (15 # 100))) = float64 (- (1 # 10)).
Proof. vm_compute. reflexivity. Qed.

Example round1_tie_to_even : round1 (float64 (25 # 100)) = float64 (2 # 10).
Proof. vm_compute. reflexivity. Qed.

Example round1_glucose : round1 (float64 (6504 # 100)) = 65%Q.
Proof. vm_compute. reflexivity. Qed.

(** *** float64 rounding *)

Lemma round_half_even_Z (x : Q) (n : Z) : x == inject_Z n → round_half_even x = n.
Proof.
  intros Hx. unfold round_half_even.
  assert (Qfloor x = n) as ->.
  { rewrite (Qfloor_comp x (inject_Z n) Hx). apply Qfloor_Z. }
  assert (x - inject_Z n < 1 # 2)%Q as Hlt by (rewrite Hx; lra).
  apply Qlt_alt in Hlt. unfold Qcompare in *. by rewrite Hlt.
Qed.

Lemma binade_le (a : Q) (p : Z) :
  (1 <= p)%Z → (a < inject_Z (2 ^ p))%Q → (binade a < p)%Z.
Proof.
  intros Hp Ha. unfold binade. destruct (Qle_bool 1 a) eqn:H1.
  - apply Qle_bool_iff in H1.
    assert (1 <= Qfloor a)%Z as Hf1.
    { change 1%Z with (Qfloor 1). by apply Qfloor_resp_le. }
    apply Z.log2_lt_pow2; [lia|].
    apply Z.lt_nge. intros Hge.
    apply (Qlt_not_le _ _ Ha). apply Qle_trans with (inject_Z (Qfloor a)).
    + by rewrite <- Zle_Qle.
    + apply Qfloor_le.
  - pose proof (Z.log2_up_nonneg (Qceiling (/ a))). lia.
Qed.

Lemma binade_Z (k : Z) (a : Q) :
  a == inject_Z k → (1 <= k)%Z → binade a = Z.log2 k.
Proof.
  intros Ha Hk. unfold binade.
  assert (Qle_bool 1 a = true) as ->.
  { apply Qle_bool_iff. rewrite Ha. change 1%Q with (inject_Z 1).
    by rewrite <- Zle_Qle. }
  by rewrite (Qfloor_comp a (inject_Z k) Ha), Qfloor_Z.
Qed.

Lemma pow2_pos (z : Z) : (0 <= z)%Z → (0 < inject_Z (2 ^ z))%Q.
Proof.
  intros Hz. change 0%Q with (inject_Z 0). rewrite <- Zlt_Qlt.
  by apply Z.pow_pos_nonneg.
Qed.

(** Below 2^43 the rounding error is at most 2^-11. *)
Lemma round_pos_near (a : Q) :
  (0 < a)%Q → (a < inject_Z (2 ^ 43))%Q →
  (a - (1 # 2048) <= round_pos a <= a + (1 # 2048))%Q.
Proof.
  intros H0 Ha. unfold round_pos.
  pose proof (binade_le a 43 ltac:(lia) Ha) as Hb.
  set (sh := Z.max (binade a - 52) (-1074)).
  assert (-1074 <= sh <= -10)%Z as Hsh by lia.
  unfold scale2.
  destruct (0 <=? - sh)%Z eqn:E1; [|apply Z.leb_gt in E1; lia].
  destruct (0 <=? sh)%Z eqn:E2; [apply Z.leb_le in E2; lia|].
  pose proof (round_half_even_close (a * inject_Z (2 ^ (- sh)))) as Hm.
  apply Qabs_Qle_condition in Hm.
  assert (1024 <= inject_Z (2 ^ (- sh)))%Q as HN.
  { change 1024%Q with (inject_Z (2 ^ 10)). rewrite <- Zle_Qle.
    apply Z.pow_le_mono_r; lia. }
  set (N := inject_Z (2 ^ (- sh))) in *.
  set (m := inject_Z (round_half_even (a * N))) in *.
  assert (m / N * N == m)%Q as Hdiv by (field; lra).
  set (t := (m / N)%Q) in *. clearbody t m N. split; nra.
Qed.

(** Integers up to 2^43 are rounded to themselves. *)
Lemma round_pos_exact (a : Q) (k : Z) :
  a == inject_Z k → (1 <= k <= 2 ^ 43)%Z → round_pos a == inject_Z k.
Proof.
  intros Ha Hk. unfold round_pos. rewrite (binade_Z k a Ha) by lia.
  assert (0 <= Z.log2 k <= 43)%Z as Hl.
  { split; [apply Z.log2_nonneg|].
    transitivity (Z.log2 (2 ^ 43)); [apply Z.log2_le_mono; lia|].
    rewrite Z.log2_pow2; lia. }
  replace (Z.max (Z.log2 k - 52) (-1074)) with (Z.log2 k - 52)%Z by lia.
  set (sh := (Z.log2 k - 52)%Z). assert (-52 <= sh <= -9)%Z as Hsh by lia.
  unfold scale2.
  destruct (0 <=? - sh)%Z eqn:E1; [|apply Z.leb_gt in E1; lia].
  destruct (0 <=? sh)%Z eqn:E2; [apply Z.leb_le in E2; lia|].
  rewrite (round_half_even_Z _ (k * 2 ^ (- sh))).
  - rewrite inject_Z_mult. pose proof (pow2_pos (- sh) ltac:(lia)). field. lra.
  - by rewrite Ha, inject_Z_mult.
Qed.

Lemma float64_round_pos (q : Q) :
  (0 < q)%Q → (round_pos (Qabs (Qred q)) < inject_Z (2 ^ 1024))%Q →
  ∃ r, float64_round q = Some r ∧ r == round_pos (Qabs (Qred q)).
Proof.
  intros H0 Hr. unfold float64_round.
  assert (0 < Qred q)%Q as H0' by by rewrite Qred_correct.
  destruct (Qeq_bool (Qred q) 0) eqn:Ez.
  { apply Qeq_bool_iff in Ez. rewrite Ez in H0'. by apply Qlt_irrefl in H0'. }
  destruct (Qle_bool (inject_Z (2 ^ 1024)) _) eqn:Eo.
  { apply Qle_bool_iff in Eo. exfalso. by apply (Qlt_not_le _ _ Hr). }
  assert (Qle_bool 0 (Qred q) = true) as ->.
  { apply Qle_bool_iff. by apply Qlt_le_weak. }
  eexists. split; [done|]. apply Qred_correct.
Qed.

Lemma float64_round_near (q : Q) :
  (0 < q)%Q → (q < inject_Z (2 ^ 43))%Q →
  ∃ r, float64_round q = Some r ∧ (q - (1 # 2048) <= r <= q + (1 # 2048))%Q.
Proof.
  intros H0 Hq.
  assert (Qabs (Qred q) == q) as Ha.
  { rewrite Qabs_pos; [apply Qred_correct|]. rewrite Qred_correct.
    by apply Qlt_le_weak. }
  assert (0 < Qabs (Qred q))%Q as H0' by by rewrite Ha.
  assert (Qabs (Qred q) < inject_Z (2 ^ 43))%Q as Hq' by by rewrite Ha.
  pose proof (round_pos_near (Qabs (Qred q)) H0' Hq') as Hn.
  destruct (float64_round_pos q H0) as (r & Hr & Heq).
  - apply Qle_lt_trans with (Qabs (Qred q) + (1 # 2048))%Q; [apply Hn|].
    apply Qlt_trans with (inject_Z (2 ^ 43) + (1 # 2048))%Q; [|done].
    clear -Hq'. set (A := Qabs (Qred q)) in *. set (B := inject_Z (2 ^ 43)) in *.
    clearbody A B. lra.
  - exists r. split; [done|].
    set (A := Qabs (Qred q)) in *. set (R := round_pos A) in *.
    clearbody R A. lra.
Qed.

Lemma float64_round_exact (q : Q) (k : Z) :
  q == inject_Z k → (1 <= k <= 2 ^ 43)%Z →
  ∃ r, float64_round q = Some r ∧ r == inject_Z k.
Proof.
  intros Hq Hk.
  assert (0 < q)%Q as H0.
  { rewrite Hq. change 0%Q with (inject_Z 0). rewrite <- Zlt_Qlt. lia. }
  assert (Qabs (Qred q) == inject_Z k) as Ha.
  { rewrite Qabs_pos; rewrite Qred_correct; [done|by apply Qlt_le_weak]. }
  pose proof (round_pos_exact _ k Ha Hk) as He.
  destruct (float64_round_pos q H0) as (r & Hr & Heq).
  - rewrite He. rewrite <- Zlt_Qlt. assert (2 ^ 43 < 2 ^ 1024)%Z by done. lia.
  - exists r. split; [done|]. by rewrite Heq.
Qed.

(** The ceiling of the exact quotient [d / 1440], in integer arithmetic. *)
Lemma Qceiling_div_1440 (d : Z) :
  Qceiling (inject_Z d / 1440) = ((d + 1439) / 1440)%Z.
Proof.
  unfold Qceiling, Qfloor, Qdiv, Qmult, Qinv, Qopp, inject_Z. simpl.
  Z.div_mod_to_equations. lia.
Qed.

Ltac abstract_inject :=
  repeat match goal with
  | |- context [inject_Z ?z] =>
      let x := fresh "x" in set (x := inject_Z z) in *; clearbody x
  | H : context [inject_Z ?z] |- _ =>
      let x := fresh "x" in set (x := inject_Z z) in *; clearbody x
  end.

Lemma Qceiling_unique (r : Q) (c : Z) :
  (inject_Z (c - 1) < r)%Q → (r <= inject_Z c)%Q → Qceiling r = c.
Proof.
  intros Hlo Hhi.
  pose proof (Qle_ceiling r) as H1. pose proof (Qceiling_lt r) as H2.
  assert (c - 1 < Qceiling r)%Z by (rewrite Zlt_Qlt; eapply Qlt_le_trans; eauto).
  assert (Qceiling r - 1 < c)%Z by (rewrite Zlt_Qlt; eapply Qlt_le_trans; eauto).
  lia.
Qed.

(** Up to [1440 * 2^43] the float64 quotient by 1440 has the ceiling of the
    exact quotient. *)
Lemma true_div_1440_ceiling (d : Z) :
  (0 < d <= 1440 * 2 ^ 43)%Z →
  ∃ r, true_div_int (PyInt d) (24 * 60) = Ok r
       ∧ Qceiling r = ((d + 1439) / 1440)%Z.
Proof.
  intros Hd. unfold true_div_int. change (24 * 60)%Z with 1440%Z.
  set (q := (inject_Z d / inject_Z 1440)%Q).
  pose proof (Z.div_mod d 1440 ltac:(lia)) as Hdm.
  pose proof (Z.mod_pos_bound d 1440 ltac:(lia)) as Hrem.
  set (k := (d / 1440)%Z) in *. set (rem := (d mod 1440)%Z) in *.
  assert (q * 1440 == inject_Z k * 1440 + inject_Z rem)%Q as Hq.
  { unfold q. rewrite Hdm, inject_Z_plus, inject_Z_mult.
    change (inject_Z 1440) with 1440%Q. field. }
  destruct (decide (rem = 0%Z)) as [Hz|Hnz].
  - rewrite Hz in Hq. change (inject_Z 0) with 0%Q in Hq.
    assert (q == inject_Z k)%Q as Hqk by lra.
    destruct (float64_round_exact q k Hqk ltac:(lia)) as (r & -> & Hr).
    exists r. split; [done|].
    rewrite (Qceiling_comp r (inject_Z k) Hr), Qceiling_Z.
    unfold k. Z.div_mod_to_equations. lia.
  - assert (1 <= inject_Z rem <= 1439)%Q as Hr.
    { change 1%Q with (inject_Z 1). change 1439%Q with (inject_Z 1439).
      rewrite <- !Zle_Qle. lia. }
    assert (0 <= inject_Z k)%Q as Hk0.
    { change 0%Q with (inject_Z 0). rewrite <- Zle_Qle. lia. }
    assert (inject_Z k + 1 <= inject_Z (2 ^ 43))%Q as Hk1.
    { change 1%Q with (inject_Z 1). rewrite <- inject_Z_plus, <- Zle_Qle. lia. }
    replace ((d + 1439) / 1440)%Z with (k + 1)%Z
      by (unfold k; Z.div_mod_to_equations; lia).
    assert (inject_Z (k + 1 - 1) == inject_Z k)%Q as Hkk
      by (by replace (k + 1 - 1)%Z with k by lia).
    assert (inject_Z (k + 1) == inject_Z k + 1)%Q as Hk2
      by (by rewrite inject_Z_plus).
    assert (0 < q < inject_Z (2 ^ 43))%Q as [Hq0 Hq1] by (abstract_inject; lra).
    destruct (float64_round_near q Hq0 Hq1) as (r & -> & Hnear).
    exists r. split; [done|].
    apply Qceiling_unique; abstract_inject; lra.
Qed.

(** *** The error of float64 rounding, relative to the value *)

#[local] Open Scope Q_scope.

Lemma scale2_Qpower (q : Q) (z : Z) : scale2 q z == q * 2 ^ z.
Proof.
  unfold scale2. destruct (0 <=? z)%Z eqn:E.
  - apply Z.leb_le in E. by rewrite Zpower_Qpower.
  - apply Z.leb_gt in E. rewrite Zpower_Qpower by lia.
    change (inject_Z 2) with 2%Q. rewrite Qpower_opp. unfold Qdiv.
    by rewrite Qinv_involutive.
Qed.

Lemma Qpower2_pos (z : Z) : 0 < 2 ^ z.
Proof. by apply Qpower_0_lt. Qed.

Lemma Qpower2_add (n m : Z) : 2 ^ (n + m) == 2 ^ n * 2 ^ m.
Proof. by apply Qpower_plus. Qed.

Lemma Qinv_le_swap (a p : Q) : 0 < a → 0 < p → / a <= p → / p <= a.
Proof.
  intros Ha Hp H.
  assert (a * / a == 1) as Ea by (apply Qmult_inv_r; lra).
  assert (p * / p == 1) as Ep by (apply Qmult_inv_r; lra).
  assert (0 < / p) as Hip by by apply Qinv_lt_0_compat.
  set (ia := / a) in *. set (ip := / p) in *. clearbody ia ip. nra.
Qed.

(** [binade a] is not above the binade of [a]. *)
Lemma binade_lower (a : Q) : 0 < a → 2 ^ binade a <= a.
Proof.
  intros Ha. unfold binade. destruct (Qle_bool 1 a) eqn:H1.
  - apply Qle_bool_iff in H1.
    assert (1 <= Qfloor a)%Z as Hn.
    { change 1%Z with (Qfloor 1). by apply Qfloor_resp_le. }
    destruct (Z.log2_spec (Qfloor a) ltac:(lia)) as [Hlo _].
    pose proof (Z.log2_nonneg (Qfloor a)) as Hnn.
    change 2%Q with (inject_Z 2). rewrite <- Zpower_Qpower by done.
    eapply Qle_trans; [|apply Qfloor_le]. by rewrite <- Zle_Qle.
  - assert (a < 1) as Hlt.
    { apply Qnot_le_lt. intros Hle. apply Qle_bool_iff in Hle. congruence. }
    set (c := Qceiling (/ a)).
    assert (1 < / a) as Hinv.
    { assert (a * / a == 1) as Ea by (apply Qmult_inv_r; lra).
      assert (0 < / a) by by apply Qinv_lt_0_compat.
      set (ia := / a) in *. clearbody ia. nra. }
    assert (1 < c)%Z as Hc.
    { rewrite Zlt_Qlt. eapply Qlt_le_trans; [exact Hinv|apply Qle_ceiling]. }
    destruct (Z.log2_up_spec c Hc) as [_ Hup].
    pose proof (Z.log2_up_nonneg c) as Hnn.
    rewrite Qpower_opp. apply Qinv_le_swap; [done|apply Qpower2_pos|].
    change 2%Q with (inject_Z 2). rewrite <- Zpower_Qpower by done.
    eapply Qle_trans; [apply Qle_ceiling|]. by rewrite <- Zle_Qle.
Qed.

(** The rounding error is at most [2^-53] of the value, or [2^-1075] for
    a value in the subnormal range. *)
Lemma round_pos_rel (a : Q) :
  0 < a → Qabs (round_pos a - a) <= a * 2 ^ (-53) + 2 ^ (-1075).
Proof.
  intros Ha. unfold round_pos. set (sh := Z.max (binade a - 52) (-1074)).
  rewrite scale2_Qpower.
  pose proof (round_half_even_close (scale2 a (- sh))) as Hm.
  set (m := inject_Z (round_half_even (scale2 a (- sh)))) in *.
  assert (scale2 a (- sh) == a * 2 ^ (- sh)) as Hx by apply scale2_Qpower.
  rewrite Hx in Hm. clear Hx.
  pose proof (Qpower2_pos sh) as Hp. pose proof (Qpower2_pos (- sh)) as Hn.
  assert (2 ^ sh * 2 ^ (- sh) == 1) as Hinv.
  { rewrite <- Qpower2_add. by replace (sh + - sh)%Z with 0%Z by lia. }
  assert (2 ^ sh <= a * 2 ^ (-52) + 2 ^ (-1074)) as Hsh.
  { pose proof (binade_lower a Ha) as Hb.
    pose proof (Qpower2_pos (-52)) as H52. pose proof (Qpower2_pos (-1074)) as Hs.
    destruct (Z.max_spec (binade a - 52) (-1074)) as [[_ E]|[_ E]]; fold sh in E;
      rewrite E.
    - set (P := 2 ^ (-1074)) in *. set (R := 2 ^ (-52)) in *. clearbody P R. nra.
    - replace (binade a - 52)%Z with (binade a + -52)%Z by lia.
      rewrite Qpower2_add.
      set (B := 2 ^ binade a) in *. set (P := 2 ^ (-1074)) in *.
      set (R := 2 ^ (-52)) in *. clearbody B P R. nra. }
  assert (2 ^ (-52) == 2 * 2 ^ (-53)) as E52 by reflexivity.
  assert (2 ^ (-1074) == 2 * 2 ^ (-1075)) as E1074.
  { replace (-1074)%Z with (1 + -1075)%Z by lia. by rewrite Qpower2_add. }
  rewrite E52, E1074 in Hsh. clear E52 E1074.
  apply Qabs_Qle_condition in Hm. apply Qabs_Qle_condition.
  set (U := 2 ^ sh) in *. set (V := 2 ^ (- sh)) in *.
  set (S53 := 2 ^ (-53)) in *. set (S1075 := 2 ^ (-1075)) in *.
  clearbody m U V S53 S1075. clear sh. split; nra.
Qed.

Lemma float64_round_rel (q : Q) :
  Qabs q <= 2 ^ 1023 →
  ∃ r, float64_round q = Some r ∧
       Qabs (r - q) <= Qabs q * 2 ^ (-53) + 2 ^ (-1075).
Proof.
  intros Hq. unfold float64_round.
  pose proof (Qpower2_pos (-53)) as H53. pose proof (Qpower2_pos (-1075)) as Hs.
  destruct (Qeq_bool (Qred q) 0) eqn:Ez.
  { apply Qeq_bool_iff in Ez. rewrite Qred_correct in Ez. exists 0. split; [done|].
    rewrite Ez. change (Qabs (0 - 0)) with 0. change (Qabs 0) with 0.
    set (A := 2 ^ (-53)) in *. set (B := 2 ^ (-1075)) in *. clearbody A B. lra. }
  apply Qeq_bool_neq in Ez. rewrite Qred_correct in Ez.
  assert (Qabs (Qred q) == Qabs q) as Ea by by rewrite Qred_correct.
  assert (0 < Qabs (Qred q)) as Hpos.
  { rewrite Ea. destruct (Qlt_le_dec 0 (Qabs q)) as [|Hle]; [done|].
    exfalso. apply Ez. apply Qabs_Qle_condition in Hle. lra. }
  pose proof (round_pos_rel _ Hpos) as Hrel.
  set (R := round_pos (Qabs (Qred q))) in *. rewrite Ea in Hrel.
  assert (2 ^ 1023 * 2 ^ (-53) + 2 ^ (-1075) < 2 ^ 1023) as Hroom by done.
  assert (inject_Z (2 ^ 1024) == 2 * 2 ^ 1023) as E1024 by done.
  apply Qabs_Qle_condition in Hrel.
  destruct (Qle_bool (inject_Z (2 ^ 1024)) R) eqn:Eo.
  { apply Qle_bool_iff in Eo. exfalso. rewrite E1024 in Eo.
    set (A := Qabs q) in *. set (T := 2 ^ 1023) in *.
    set (S53 := 2 ^ (-53)) in *. set (S1075 := 2 ^ (-1075)) in *.
    clearbody A T S53 S1075 R. nra. }
  eexists. split; [done|]. rewrite Qred_correct.
  destruct (Qle_bool 0 (Qred q)) eqn:Es.
  - apply Qle_bool_iff in Es. rewrite Qred_correct in Es.
    rewrite (Qabs_pos q Es) in *. apply Qabs_Qle_condition. done.
  - assert (q < 0) as Hneg.
    { apply Qnot_le_lt. intros Hle. rewrite <- (Qred_correct q) in Hle.
      apply Qle_bool_iff in Hle. congruence. }
    rewrite (Qabs_neg q) in * by lra. apply Qabs_Qle_condition.
    set (S53 := 2 ^ (-53)) in *. set (S1075 := 2 ^ (-1075)) in *.
    clearbody R S53 S1075. lra.
Qed.

(** Integers up to [2^53] are floats. *)
Lemma round_pos_exact53 (a : Q) (k : Z) :
  a == inject_Z k → (1 <= k <= 2 ^ 53)%Z → round_pos a == inject_Z k.
Proof.
  intros Ha Hk. unfold round_pos. rewrite (binade_Z k a Ha) by lia.
  assert (0 <= Z.log2 k <= 53)%Z as Hl.
  { split; [apply Z.log2_nonneg|].
    transitivity (Z.log2 (2 ^ 53)); [apply Z.log2_le_mono; lia|].
    rewrite Z.log2_pow2; lia. }
  replace (Z.max (Z.log2 k - 52) (-1074)) with (Z.log2 k - 52)%Z by lia.
  set (sh := (Z.log2 k - 52)%Z). rewrite scale2_Qpower.
  assert (∃ j : Z, scale2 a (- sh) == inject_Z j ∧ inject_Z j * 2 ^ sh == inject_Z k)
    as (j & Hj & Hjk).
  { destruct (decide (sh <= 0)%Z) as [Hle|Hgt].
    - exists (k * 2 ^ (- sh))%Z. rewrite scale2_Qpower, Ha, inject_Z_mult.
      rewrite Zpower_Qpower by lia. change (inject_Z 2) with 2%Q.
      split; [reflexivity|]. rewrite <- Qmult_assoc, <- Qpower2_add.
      replace (- sh + sh)%Z with 0%Z by lia. change (2 ^ 0) with 1. ring.
    - assert (k = 2 ^ 53)%Z as ->.
      { destruct (Z.log2_spec k ltac:(lia)) as [Hlo _].
        assert (Z.log2 k = 53)%Z as E by (unfold sh in Hgt; lia).
        rewrite E in Hlo. lia. }
      assert (sh = 1)%Z as -> by (unfold sh; rewrite Z.log2_pow2; lia).
      exists (2 ^ 52)%Z. rewrite scale2_Qpower, Ha. split; reflexivity. }
  by rewrite (round_half_even_Z _ j Hj).
Qed.

Lemma float64_round_int (z : Z) :
  (Z.abs z <= 2 ^ 53)%Z → ∃ r, float64_round (inject_Z z) = Some r ∧ r == inject_Z z.
Proof.
  intros Hz. unfold float64_round.
  destruct (Qeq_bool (Qred (inject_Z z)) 0) eqn:Ez.
  { apply Qeq_bool_iff in Ez. rewrite Qred_correct in Ez. exists 0. split; [done|].
    by rewrite Ez. }
  apply Qeq_bool_neq in Ez. rewrite Qred_correct in Ez.
  assert (z ≠ 0%Z) as Hnz by (intros ->; by apply Ez).
  assert (Qabs (Qred (inject_Z z)) == inject_Z (Z.abs z)) as Ea.
  { rewrite Qred_correct. unfold Qabs, inject_Z. simpl. reflexivity. }
  pose proof (round_pos_exact53 _ (Z.abs z) Ea ltac:(lia)) as He.
  set (R := round_pos _) in *.
  destruct (Qle_bool (inject_Z (2 ^ 1024)) R) eqn:Eo.
  { apply Qle_bool_iff in Eo. rewrite He in Eo. rewrite <- Zle_Qle in Eo.
    assert (2 ^ 53 < 2 ^ 1024)%Z by done. lia. }
  eexists. split; [done|]. rewrite Qred_correct.
  destruct (Qle_bool 0 (Qred (inject_Z z))) eqn:Es.
  - apply Qle_bool_iff in Es. rewrite Qred_correct in Es.
    change 0 with (inject_Z 0) in Es. rewrite <- Zle_Qle in Es.
    rewrite He. by rewrite Z.abs_eq.
  - assert (z < 0)%Z as Hneg.
    { apply Z.lt_nge. intros Hle. rewrite Zle_Qle in Hle.
      rewrite <- (Qred_correct (inject_Z z)) in Hle.
      change (inject_Z 0) with 0 in Hle.
      apply Qle_bool_iff in Hle. congruence. }
    rewrite He, Z.abs_neq by lia. rewrite inject_Z_opp. ring.
Qed.

End Numeric.

(** ** The parameter mapper *)

Section Mapper.
Import Adapter.

Lemma lookup_set_if_present_ne (k k' : string) (v : pyval) (args : Namespace) :
  k ≠ k' → set_if_present k v args !! k' = args !! k'.
Proof.
  intros Hne. unfold set_if_present. destruct (hasattr args k); [|done].
  by rewrite lookup_insert_ne.
Qed.

Lemma lookup_set_if_present_eq (k : string) (v : pyval) (args : Namespace) :
  set_if_present k v args !! k = (λ _, v) <$> (args !! k).
Proof.
  unfold set_if_present, hasattr. case_bool_decide as H.
  - rewrite lookup_insert_eq. by destruct H as [x ->].
  - destruct (args !! k) eqn:E; [|done]. exfalso. apply H. eauto.
Qed.

Lemma map_parameters_number_of_days (carbs : pyval) (days : Z) (args : Namespace) :
  map_parameters carbs days args !! "number_of_days" = Some (PyInt days).
Proof.
  unfold map_parameters.
  rewrite !lookup_set_if_present_ne by done. apply lookup_insert_eq.
Qed.


(** C4 (amended). For a positive integer [duration_minutes] up to
    [1440 * 2^43] the day count is [max(1, ceil(duration_minutes / 1440))],
    the ceiling being that of the exact quotient: the least [n >= 1] with
    [duration_minutes <= 1440 * n]. It is 1 on
    [1, 1440] and 2 on (1440, 2880], and it is the [number_of_days] of the
    namespace the mapper hands to the engine. *)
Theorem days_is_ceiling (d : Z) :
  (0 < d ≤ 1440 * 2 ^ 43)%Z →
  ∃ n : Z,
    days_of (PyInt d) = Ok n ∧
    n = Z.max 1 (Qceiling (inject_Z d / 1440)) ∧
    (1440 * (n - 1) < d ≤ 1440 * n)%Z ∧
    (d ≤ 1440 → n = 1)%Z ∧
    (1440 < d ≤ 2880 → n = 2)%Z ∧
    ∀ carbs args,
      map_parameters carbs n args !! "number_of_days" = Some (PyInt n).
Proof.
  intros Hd. destruct (true_div_1440_ceiling d Hd) as (r & Hr & Hc).
  exists (Z.max 1 (Qceiling r)).
  split; [unfold days_of; by rewrite Hr|]. rewrite Hc, Qceiling_div_1440.
  repeat split; try (Z.div_mod_to_equations; lia).
  intros carbs args. apply map_parameters_number_of_days.
Qed.

Lemma days_is_ceiling_witness :
  ∃ n : Z,
    days_of (PyInt 1441) = Ok n ∧
    n = Z.max 1 (Qceiling (inject_Z 1441 / 1440)) ∧
    (1440 * (n - 1) < 1441 ≤ 1440 * n)%Z ∧
    (1441 ≤ 1440 → n = 1)%Z ∧
    (1440 < 1441 ≤ 2880 → n = 2)%Z ∧
    ∀ carbs args,
      map_parameters carbs n args !! "number_of_days" = Some (PyInt n).
Proof. apply (days_is_ceiling 1441). lia. Defined.

(** C4, as stated for every positive integer, fails: the float64 quotient
    of [1440 * 2^43 + 1] by 1440 is the whole number [2^43], one day short
    of the ceiling. *)
Lemma days_beyond_float_precision :
  days_of (PyInt 12666373951979521) = Ok 8796093022208%Z ∧
  Z.max 1 (Qceiling (inject_Z 12666373951979521 / 1440)) = 8796093022209%Z.
Proof. vm_compute. done. Qed.

End Mapper.

(** ** Unit normalizer, status classification *)

Section Summarizer.
Import Adapter.

(** The quotients of an array by a nonzero divisor, none of them beyond
    the float64 range: each is within the float64 rounding error of the
    exact quotient. *)
Lemma np_divide_array_spec (xs : list Q) (y : Q) :
  ¬ (y == 0)%Q → Forall (λ x, (Qabs (x / y) <= 2 ^ 1023)%Q) xs →
  ∃ quotients,
    np_divide_array xs y = Some quotients ∧
    Forall2 (λ x q, (Qabs (q - x / y)
                     <= Qabs (x / y) * 2 ^ (-53) + 2 ^ (-1075))%Q) xs quotients.
Proof.
  intros Hy Hall. unfold np_divide_array.
  induction Hall as [|x xs Hx Hxs (qs & Hqs & Hrel)]; [by exists []|].
  destruct (float64_round_rel (x / y) Hx) as (q & Hq & Hqrel).
  exists (q :: qs). split; [|by constructor].
  apply mapM_Some. constructor; [|by apply mapM_Some].
  unfold np_divide. by destruct (Qeq_bool y 0) eqn:E; [apply Qeq_bool_iff in E|].
Qed.

(** C7. When the reported unit is ["mmol/L"] the normalized sequence is the
    engine's molar-to-mass conversion applied to the float64 quotients of
    the raw samples by [VG[0]], each within the float64 rounding error of
    the exact quotient; this for a nonzero [VG[0]] and quotients within the
    float64 range, where numpy gives no inf or nan. Without a [VG[0]] the
    index raises. For any other unit, [mg/dL] in particular, the raw
    sequence is returned unchanged. *)
Theorem normalize_units_spec (conv : list Q → list Q) (unit : string)
    (glucose_raw VG : list Q) :
  (unit = "mmol/L" → ∀ vg, VG !! 0%nat = Some vg →
     ¬ (vg == 0)%Q →
     Forall (λ g, (Qabs (g / vg) <= 2 ^ 1023)%Q) glucose_raw →
     ∃ quotients,
       normalize_units conv unit glucose_raw VG = Ok (conv quotients) ∧
       Forall2 (λ g q, (Qabs (q - g / vg)
                        <= Qabs (g / vg) * 2 ^ (-53) + 2 ^ (-1075))%Q)
         glucose_raw quotients) ∧
  (unit = "mmol/L" → VG = [] →
     normalize_units conv unit glucose_raw VG
     = Raise (IndexError "index 0 is out of bounds for axis 0 with size 0")) ∧
  (unit ≠ "mmol/L" → normalize_units conv unit glucose_raw VG = Ok glucose_raw) ∧
  normalize_units conv "mg/dL" glucose_raw VG = Ok glucose_raw.
Proof.
  split; [|split; [|split]]; [| | |done].
  - intros -> vg Hvg Hnz Hall.
    destruct (np_divide_array_spec glucose_raw vg Hnz Hall) as (qs & Hqs & Hrel).
    exists qs. split; [|done]. unfold normalize_units, np_index.
    cbn [String.eqb Ascii.eqb Bool.eqb]. rewrite Hvg.
    cbn [mbind result_bind_inst result_bind]. by rewrite Hqs.
  - by intros -> ->.
  - intros Hne. unfold normalize_units.
    apply String.eqb_neq in Hne. by rewrite Hne.
Qed.

Lemma normalize_units_spec_witness :
  (∃ quotients,
     normalize_units (map (λ g, g * 18)%Q) "mmol/L" [55; 66]%Q [11]%Q
     = Ok (map (λ g, g * 18)%Q quotients) ∧
     Forall2 (λ g q, (Qabs (q - g / 11)
                      <= Qabs (g / 11) * 2 ^ (-53) + 2 ^ (-1075))%Q)
       [55; 66]%Q quotients)
  ∧ normalize_units (map (λ g, g * 18)%Q) "mU/L" [90; 95]%Q []
    = Ok [90; 95]%Q.
Proof.
  split.
  - apply (proj1 (normalize_units_spec _ "mmol/L" [55; 66]%Q [11%Q]));
      [reflexivity|reflexivity|discriminate|].
    repeat constructor; by vm_compute.
  - apply (proj1 (proj2 (proj2 (normalize_units_spec _ "mU/L" _ [])))).
    discriminate.
Defined.

(** Quotients that are floats are exact; a zero divisor leaves the model. *)
Example normalize_units_exact :
  normalize_units (map (λ g, g * 18)%Q) "mmol/L" [55; 66]%Q [11]%Q
  = Ok [90; 108]%Q.
Proof. by vm_compute. Qed.

Example normalize_units_zero_divisor :
  normalize_units (map (λ g, g * 18)%Q) "mmol/L" [55; 66]%Q [0]%Q
  = Raise non_finite.
Proof. by vm_compute. Qed.

(** C2. On a non-empty sequence the summary exists and its status is
    ["Hypoglycemia (Low)"] when the minimum is below 70, otherwise
    ["Hyperglycemia (High)"] when the maximum is above 180, otherwise
    ["Normal"]; the minimum and the maximum are the least and the greatest
    sample. Low wins when both thresholds are crossed. *)
Theorem status_classification (time_points glucose : list Q) :
  glucose ≠ [] →
  ∃ r mn mx,
    summarize time_points glucose = Ok r ∧
    np_min glucose = Ok mn ∧ np_max glucose = Ok mx ∧
    (mn ∈ glucose ∧ ∀ g, g ∈ glucose → (mn <= g)%Q) ∧
    (mx ∈ glucose ∧ ∀ g, g ∈ glucose → (g <= mx)%Q) ∧
    ((mn < 70)%Q → status (summary r) = "Hypoglycemia (Low)") ∧
    (¬ (mn < 70)%Q → (180 < mx)%Q →
       status (summary r) = "Hyperglycemia (High)") ∧
    (¬ (mn < 70)%Q → ¬ (180 < mx)%Q → status (summary r) = "Normal").
Proof.
  intros Hne.
  destruct (np_min_nonempty glucose Hne) as [mn Hmn].
  destruct (np_max_nonempty glucose Hne) as [mx Hmx].
  destruct (index_last_nonempty glucose Hne) as [fin Hfin].
  eexists _, mn, mx. unfold summarize. rewrite Hmn, Hmx, Hfin. simpl.
  split; [reflexivity|]. split; [done|]. split; [done|].
  split; [by apply np_min_spec|]. split; [by apply np_max_spec|].
  simpl. unfold classify.
  destruct (Qlt_bool mn 70) eqn:Hlo; destruct (Qlt_bool 180 mx) eqn:Hhi;
    try apply Qlt_bool_true in Hlo; try apply Qlt_bool_true in Hhi;
    try apply Qlt_bool_false in Hlo; try apply Qlt_bool_false in Hhi;
    repeat split; intros; try done;
    try (exfalso; by eapply Qlt_not_le; eauto).
Qed.

Lemma status_classification_witness :
  ∃ r mn mx,
    summarize [0; 5]%Q [200; 65]%Q = Ok r ∧
    np_min [200; 65]%Q = Ok mn ∧ np_max [200; 65]%Q = Ok mx ∧
    (mn ∈ [200; 65]%Q ∧ ∀ g, g ∈ [200; 65]%Q → (mn <= g)%Q) ∧
    (mx ∈ [200; 65]%Q ∧ ∀ g, g ∈ [200; 65]%Q → (g <= mx)%Q) ∧
    ((mn < 70)%Q → status (summary r) = "Hypoglycemia (Low)") ∧
    (¬ (mn < 70)%Q → (180 < mx)%Q →
       status (summary r) = "Hyperglycemia (High)") ∧
    (¬ (mn < 70)%Q → ¬ (180 < mx)%Q → status (summary r) = "Normal").
Proof. apply (status_classification [0; 5]%Q [200; 65]%Q). discriminate. Defined.

(** The four cases of the specification, on sequences with the stated
    extrema. *)
Example status_low : classify 65 150 = "Hypoglycemia (Low)".
Proof. reflexivity. Qed.

Example status_high : classify 90 200 = "Hyperglycemia (High)".
Proof. reflexivity. Qed.

Example status_normal : classify 80 140 = "Normal".
Proof. reflexivity. Qed.

Example status_low_precedes_high :
  status ∘ summary <$> summarize [0; 5; 10]%Q [120; 65; 200]%Q
  = Ok "Hypoglycemia (Low)".
Proof. reflexivity. Qed.

End Summarizer.

(** ** Subsampling *)

Section Subsample.
Import Adapter.

Lemma imap_pair_seq {A} (d : A) (l : list A) (j : nat) :
  imap (λ i x, (j + i, x)) l
  = map (λ i, (i, nth (i - j) l d)) (seq j (length l)).
Proof.
  revert j. induction l as [|x l IH]; intros j; [done|].
  rewrite imap_cons. simpl. f_equal.
  - by rewrite Nat.add_0_r, Nat.sub_diag.
  - rewrite (imap_ext _ (λ i y, (S j + i, y))).
    + rewrite IH. apply map_ext_in. intros i Hi. apply in_seq in Hi.
      f_equal. replace (i - j) with (S (i - S j)) by lia. done.
    + intros i y _. simpl. f_equal. lia.
Qed.

Lemma enumerate_seq {A} (d : A) (l : list A) :
  enumerate l = map (λ i, (i, nth i l d)) (seq 0 (length l)).
Proof.
  unfold enumerate. rewrite (imap_ext _ (λ i x, (0 + i, x))) by done.
  rewrite (imap_pair_seq d). apply map_ext. intros i.
  by rewrite Nat.sub_0_r.
Qed.

Lemma filter_map_comm {A B} (p : B → bool) (f : A → B) (l : list A) :
  List.filter p (map f l) = map f (List.filter (λ a, p (f a)) l).
Proof.
  induction l as [|a l IH]; [done|]. simpl.
  destruct (p (f a)); simpl; by rewrite IH.
Qed.

Lemma nth_zip {A B} (l : list A) (k : list B) (a : A) (b : B) (i : nat) :
  length l = length k → nth i (zip l k) (a, b) = (nth i l a, nth i k b).
Proof.
  revert k i. induction l as [|x l IH]; intros [|y k] i Hlen; try done.
  - by destruct i.
  - destruct i; [done|]. simpl. apply IH. simpl in Hlen. lia.
Qed.






Lemma subsample_selected (time_points glucose : list Q) :
  length time_points = length glucose →
  subsample time_points glucose
  = map (λ i, {| time_min := nth i time_points 0%Q;
                 glucose_mg_dl := round1 (nth i glucose 0%Q) |})
      (selected (length glucose)).
Proof.
  intros Hlen. unfold subsample, selected.
  rewrite (enumerate_seq (0%Q, 0%Q)), filter_map_comm, map_map. simpl.
  rewrite length_zip_with, Hlen, Nat.min_id.
  apply map_ext. intros i. by rewrite nth_zip.
Qed.



(** Sixteen samples: positions 0 and 15, the last one once. Seventeen
    samples: positions 0, 15 and 16. *)
Example subsample_16 :
  subsample (take 16 Double.day_time) (take 16 Double.day_glucose)
  = [ {| Adapter.time_min := 0; Adapter.glucose_mg_dl := 120 |};
      {| Adapter.time_min := 75; Adapter.glucose_mg_dl := 115 |} ].
Proof. vm_compute. reflexivity. Qed.

Example subsample_17 :
  map Adapter.time_min
    (subsample (take 17 Double.day_time) (take 17 Double.day_glucose))
  = [0; 75; 80]%Q.
Proof. vm_compute. reflexivity. Qed.

End Subsample.

(** ** Truncation *)

Section Truncation.
Import Adapter.

Lemma mask_select_l {A B} (f : A → bool) (l : list A) (k : list B) :
  length l = length k →
  map fst (List.filter snd (zip l (map f l)))
  = map fst (List.filter (λ p, f p.1) (zip l k)).
Proof.
  revert k. induction l as [|x l IH]; intros [|y k] Hlen; try done.
  simpl in *. destruct (f x); simpl; f_equal; apply IH; lia.
Qed.

Lemma mask_select_r {A B} (f : A → bool) (l : list A) (k : list B) :
  length l = length k →
  map fst (List.filter snd (zip k (map f l)))
  = map snd (List.filter (λ p, f p.1) (zip l k)).
Proof.
  revert k. induction l as [|x l IH]; intros [|y k] Hlen; try done.
  simpl in *. destruct (f x); simpl; f_equal; apply IH; lia.
Qed.

Lemma truncate_spec (time_points glucose : list Q) (duration_minutes : pyval)
    (t' g' : list Q) :
  truncate time_points glucose duration_minutes = Ok (t', g') →
  ∃ max_time,
    as_float64 duration_minutes = Ok max_time ∧
    length time_points = length glucose ∧
    t' = map fst (within max_time time_points glucose) ∧
    g' = map snd (within max_time time_points glucose).
Proof.
  unfold truncate. destruct (as_float64 duration_minutes) as [mt|]; [|done].
  cbn [mbind result_bind_inst result_bind].
  unfold bool_index. rewrite !length_map, Nat.eqb_refl. simpl.
  destruct (length glucose =? length time_points)%nat eqn:Hlen; [|done].
  apply Nat.eqb_eq in Hlen. simpl. intros [= <- <-]. exists mt.
  split; [done|]. split; [done|]. unfold within.
  split; [by apply (mask_select_l (λ t, Qle_bool t mt))
         |by apply (mask_select_r (λ t, Qle_bool t mt))].
Qed.

(** For an exact duration the comparison is with the duration itself. *)
Lemma as_float64_exact (d : pyval) (max_time dur : Q) :
  as_float64 d = Ok max_time → as_number d = Some dur → exact_duration d →
  (max_time == dur)%Q.
Proof.
  destruct d as [|z|q|x|l]; try done; simpl.
  - intros Hmt [= <-] Hz. destruct (float64_round_int z Hz) as (r & Hr & Heq).
    rewrite Hr in Hmt. by injection Hmt as <-.
  - by intros [= <-] [= <-] _.
Qed.

Lemma within_time_le (max_time : Q) (time_points glucose : list Q) (t : Q) :
  t ∈ map fst (within max_time time_points glucose) → (t <= max_time)%Q.
Proof.
  intros Ht. apply list_elem_of_fmap in Ht as ([t0 g] & -> & Hin).
  apply list_elem_of_In, filter_In in Hin as [_ Hle].
  by apply Qle_bool_iff.
Qed.

(** Exactly the samples with time at most [max_time] are kept. *)
Lemma within_exact (max_time : Q) (time_points glucose : list Q) (p : Q * Q) :
  p ∈ within max_time time_points glucose
  ↔ p ∈ zip time_points glucose ∧ (p.1 <= max_time)%Q.
Proof.
  unfold within. rewrite !list_elem_of_In, filter_In, Qle_bool_iff. done.
Qed.

Lemma subsample_time_in (time_points glucose : list Q) (e : TraceEntry) :
  length time_points = length glucose →
  e ∈ subsample time_points glucose → time_min e ∈ time_points.
Proof.
  intros Hlen He. rewrite subsample_selected in He by done.
  apply list_elem_of_fmap in He as (i & -> & Hi). simpl.
  apply list_elem_of_In, nth_In. rewrite Hlen.
  apply list_elem_of_In, filter_In in Hi as [Hi _]. apply in_seq in Hi. lia.
Qed.

Lemma summarize_spec (time_points glucose : list Q) (r : ResultData) :
  summarize time_points glucose = Ok r →
  ∃ mn mx fin,
    np_min glucose = Ok mn ∧ np_max glucose = Ok mx ∧ last glucose = Some fin ∧
    summary r = {| status := classify mn mx;
                   min_glucose_mg_dl := round1 mn;
                   max_glucose_mg_dl := round1 mx;
                   final_glucose_mg_dl := round1 fin |} ∧
    cgm_trace r = subsample time_points glucose.
Proof.
  unfold summarize, index_last.
  destruct (np_min glucose) as [mn|] eqn:Hmn; [|done].
  destruct (np_max glucose) as [mx|] eqn:Hmx; [|done].
  destruct (last glucose) as [fin|] eqn:Hfin; [|done].
  simpl. intros [= <-]. by exists mn, mx, fin.
Qed.

(** What a successful post-processing computed. *)
Lemma postprocess_spec (conv : list Q → list Q) (model : Model)
    (duration_minutes : pyval) (r : ResultData) :
  postprocess conv model duration_minutes = Ok r →
  ∃ glucose_raw unit glucose max_time,
    extract_glucose model = Ok glucose_raw ∧
    states_state_units model !! glucose_state model = Some unit ∧
    normalize_units conv unit glucose_raw (parameters_VG model) = Ok glucose ∧
    as_float64 duration_minutes = Ok max_time ∧
    length (time_as_unix model) = length glucose ∧
    summarize (map fst (within max_time (time_as_unix model) glucose))
              (map snd (within max_time (time_as_unix model) glucose)) = Ok r.
Proof.
  unfold postprocess.
  destruct (extract_glucose model) as [raw|] eqn:Hraw; [|done]. simpl.
  unfold list_index.
  destruct (states_state_units model !! glucose_state model) as [unit|] eqn:Hu;
    [|done]. simpl.
  destruct (normalize_units conv unit raw (parameters_VG model))
    as [glucose|] eqn:Hn; [|done]. simpl.
  destruct (truncate (time_as_unix model) glucose duration_minutes)
    as [[t' g']|] eqn:Ht; [|done]. simpl.
  apply truncate_spec in Ht as (mt & Hd & Hlen & -> & ->).
  intros Hs. by exists raw, unit, glucose, mt.
Qed.

End Truncation.

(** ** The tool boundary *)

Section Boundary.
Import Adapter.

Variable eng : Engine.
Variable BASE_DIR : string.
Variable json_dumps : ResultData → string.

#[local] Abbreviation engine_returned := (Adapter.engine_returned eng).
#[local] Abbreviation normalized_glucose := (Adapter.normalized_glucose eng).

Lemma bind_Ok {A B} (m : M eng A) (k : A → M eng B) s b s' :
  (m ≫= k) s = (Ok b, s') → ∃ a s1, m s = (Ok a, s1) ∧ k a s1 = (Ok b, s').
Proof. unfold mbind, M_bind. destruct (m s) as [[a|e] s1]; [eauto|done]. Qed.

Lemma call_Ok {A} (f : Ext (ext_state eng) A) s a s' :
  call eng f s = (Ok a, s') →
  ∃ w', f (world eng s) = (Ok a, w')
        ∧ s' = mkState eng w' (_initialized eng s) (log eng s).
Proof.
  unfold call. destruct (f (world eng s)) as [r w']. intros [= -> <-]. eauto.
Qed.

Lemma lift_Ok {A} (r : result A) s a s' :
  lift eng r s = (Ok a, s') → r = Ok a ∧ s' = s.
Proof. unfold lift. by intros [= -> ->]. Qed.

Lemma prefix_append (p x : string) : String.prefix p (p +:+ x) = true.
Proof.
  induction p as [|a p IH]; simpl; [by destruct x|].
  destruct (Ascii.ascii_dec a a); [done|congruence].
Qed.

Ltac invert_run H :=
  repeat (apply bind_Ok in H as (? & ? & ? & H);
          try match goal with x : (_ * _)%type |- _ => destruct x end);
  repeat match goal with
         | Hc : call _ _ _ = (Ok _, _) |- _ => apply call_Ok in Hc as (? & Hc & ?)
         | Hl : lift _ _ _ = (Ok _, _) |- _ => apply lift_Ok in Hl as [Hl ?]
         end.

(** A successful request: the engine returned a model, and the result is
    the summary of the samples of its normalized glucose within the
    requested duration. *)
Lemma body_success c b w d s r :
  (simulate_body eng BASE_DIR c b w d s).1 = Ok r →
  ∃ model glucose max_time,
    engine_returned model ∧ normalized_glucose model glucose ∧
    as_float64 d = Ok max_time ∧
    length (time_as_unix model) = length glucose ∧
    summarize (map fst (within max_time (time_as_unix model) glucose))
              (map snd (within max_time (time_as_unix model) glucose)) = Ok r.
Proof.
  destruct (simulate_body eng BASE_DIR c b w d s) as [res s'] eqn:H.
  simpl. intros ->. unfold simulate_body in H. invert_run H.
  match goal with x : Cohort |- _ => destruct x as [model] end.
  simpl in *. apply postprocess_spec in H
    as (raw & unit & glucose & mt & Hraw & Hu & Hn & Hd & Hlen & Hs).
  exists model, glucose, mt. split; [|split; [|done]].
  - unfold engine_returned. eauto 10.
  - by exists raw, unit.
Qed.

(** A successful request: the division of line 105 and the post-processing
    of the engine's model returned. *)
Lemma body_success_stages c b w d s r :
  (simulate_body eng BASE_DIR c b w d s).1 = Ok r →
  (∃ days, days_of d = Ok days) ∧
  ∃ model, engine_returned model ∧
           postprocess (concentration_mmolL_to_mgdL eng) model d = Ok r.
Proof.
  destruct (simulate_body eng BASE_DIR c b w d s) as [res s'] eqn:H.
  simpl. intros ->. unfold simulate_body in H. invert_run H.
  match goal with x : Cohort |- _ => destruct x as [model] end.
  simpl in *. split; [eauto|]. exists model. split; [|done].
  unfold engine_returned. eauto 10.
Qed.

(** A successful request: the simulation call that left the final world
    returned the cohort whose model the result is the post-processing of. *)
Lemma body_success_final c b w d s r s' :
  simulate_body eng BASE_DIR c b w d s = (Ok r, s') →
  ∃ settings_file args folder w0 cohort,
    generate_results_main eng settings_file args folder w0
    = (Ok cohort, world eng s') ∧
    postprocess (concentration_mmolL_to_mgdL eng) (singlescale_model cohort) d
    = Ok r.
Proof.
  intros H. unfold simulate_body in H. invert_run H. subst. simpl in *.
  eauto 10.
Qed.

(** A successful request: the first engine call that takes [args] received
    the namespace written by the mapper from the parser's defaults. *)
Lemma body_success_args c b w d s r :
  (simulate_body eng BASE_DIR c b w d s).1 = Ok r →
  ∃ parser defaults days folder w0 w0' w1 w1' scenario0 args0,
    parse_args eng parser [] w0 = (Ok defaults, w0') ∧
    days_of d = Ok days ∧
    load_settings_file eng (map_parameters c days defaults) folder w1
    = (Ok (scenario0, args0), w1').
Proof.
  destruct (simulate_body eng BASE_DIR c b w d s) as [res s'] eqn:H.
  simpl. intros ->. unfold simulate_body in H. invert_run H.
  simpl in *. eauto 15.
Qed.

(** The outcomes of a call. *)
Lemma tool_outcome c b w d s :
  match simulate_body eng BASE_DIR c b w d s with
  | (Ok r, s') =>
      simulate_glucose_dynamics eng BASE_DIR json_dumps c b w d s
      = (Ok (json_dumps r), s')
  | (Raise e, s') =>
      simulate_glucose_dynamics eng BASE_DIR json_dumps c b w d s
      = match exc_kind e with
        | OfException =>
            (Ok ("Error executing simulation: " +:+ exc_str e),
             logger_exception eng "Simulation failed" e s')
        | _ => (Raise e, s')
        end
  end.
Proof.
  unfold simulate_glucose_dynamics.
  by destruct (simulate_body eng BASE_DIR c b w d s) as [[r|e] s'].
Qed.

(** C5 (amended). In a successful request the summary and the trace are
    computed from exactly the samples of the engine's model whose time is at
    most the float64 that numpy makes of [duration_minutes], and every trace
    time is at most that float64. For a [float] duration, and for an [int]
    duration of magnitude at most [2^53], that float64 is the duration, so
    every trace entry has [time_min <= duration_minutes]. *)
Theorem trace_within_duration c b w d s r :
  (simulate_body eng BASE_DIR c b w d s).1 = Ok r →
  ∃ model glucose max_time,
    engine_returned model ∧ normalized_glucose model glucose ∧
    as_float64 d = Ok max_time ∧
    (∀ p, p ∈ within max_time (time_as_unix model) glucose
          ↔ p ∈ zip (time_as_unix model) glucose ∧ (p.1 <= max_time)%Q) ∧
    summarize (map fst (within max_time (time_as_unix model) glucose))
              (map snd (within max_time (time_as_unix model) glucose)) = Ok r ∧
    Forall (λ e, (time_min e <= max_time)%Q) (cgm_trace r) ∧
    (exact_duration d →
     ∃ duration, as_number d = Some duration ∧ (max_time == duration)%Q ∧
                 Forall (λ e, (time_min e <= duration)%Q) (cgm_trace r)).
Proof.
  intros H. apply body_success in H
    as (model & glucose & mt & Hm & Hg & Hd & Hlen & Hs).
  exists model, glucose, mt. do 3 (split; [done|]).
  split; [apply within_exact|]. split; [done|].
  assert (Forall (λ e, (time_min e <= mt)%Q) (cgm_trace r)) as Hall.
  { apply summarize_spec in Hs as (_ & _ & _ & _ & _ & _ & _ & ->).
    apply Forall_forall. intros e He.
    apply (within_time_le mt (time_as_unix model) glucose).
    eapply subsample_time_in; [|exact He]. by rewrite !length_map. }
  split; [done|]. intros Hexact.
  assert (∃ duration, as_number d = Some duration) as [dur Hdur]
    by (destruct d; try done; by eexists).
  pose proof (as_float64_exact d mt dur Hd Hdur Hexact) as Heq.
  exists dur. do 2 (split; [done|]).
  eapply Forall_impl; [exact Hall|]. intros e He. simpl in He. by rewrite <- Heq.
Qed.

(** C6 (amended). In a successful request the reported minimum, maximum and
    final glucose are the (rounded) least, greatest and last element of the
    whole truncated sequence, of which the trace is the subsample. The
    truncated sequence is every sample with time at most the float64 that
    numpy makes of [duration_minutes]: the duration itself when it is a
    [float] or an [int] of magnitude at most [2^53]. *)
Theorem summary_over_full_sequence c b w d s r :
  (simulate_body eng BASE_DIR c b w d s).1 = Ok r →
  ∃ model glucose max_time full mn mx fin,
    engine_returned model ∧ normalized_glucose model glucose ∧
    as_float64 d = Ok max_time ∧
    (exact_duration d →
     ∃ duration, as_number d = Some duration ∧ (max_time == duration)%Q ∧
       ∀ p, p ∈ within max_time (time_as_unix model) glucose
            ↔ p ∈ zip (time_as_unix model) glucose ∧ (p.1 <= duration)%Q) ∧
    full = map snd (within max_time (time_as_unix model) glucose) ∧
    cgm_trace r
    = subsample (map fst (within max_time (time_as_unix model) glucose)) full ∧
    (mn ∈ full ∧ ∀ g, g ∈ full → (mn <= g)%Q) ∧
    (mx ∈ full ∧ ∀ g, g ∈ full → (g <= mx)%Q) ∧
    last full = Some fin ∧
    min_glucose_mg_dl (summary r) = round1 mn ∧
    max_glucose_mg_dl (summary r) = round1 mx ∧
    final_glucose_mg_dl (summary r) = round1 fin.
Proof.
  intros H. apply body_success in H
    as (model & glucose & mt & Hm & Hg & Hd & Hlen & Hs).
  apply summarize_spec in Hs as (mn & mx & fin & Hmn & Hmx & Hfin & Hsum & Htr).
  eexists model, glucose, mt, _, mn, mx, fin.
  do 3 (split; [done|]). split.
  { intros Hexact.
    assert (∃ duration, as_number d = Some duration) as [dur Hdur]
      by (destruct d; try done; by eexists).
    pose proof (as_float64_exact d mt dur Hd Hdur Hexact) as Heq.
    exists dur. do 2 (split; [done|]). intros p.
    rewrite within_exact. by rewrite Heq. }
  split; [done|]. rewrite Hsum. simpl. split; [done|].
  split; [by apply np_min_spec|]. split; [by apply np_max_spec|]. done.
Qed.

End Boundary.

(** ** The initialization guard *)

Section Guard.
Import Adapter.

Variable eng : Engine.
Variable BASE_DIR : string.

(** C9. When the flag is set the guard does nothing. Otherwise it runs the
    initialization once, from the engine's directory, and whether or not the
    initialization raises the working directory is afterwards the one the
    guard found; everything else of the world is as the initialization left
    it, and the flag is set only when the initialization returned. *)
Theorem guard_restores_cwd (s : State eng) :
  let out := _ensure_pymgipsim_initialized eng BASE_DIR s in
  cwd (world eng out.2) = cwd (world eng s) ∧
  if _initialized eng s then out = (Ok (), s)
  else
    let ran := initialization eng
                 (mkWorld (PY_MGIPSIM_DIR BASE_DIR) (ext (world eng s))) in
    out.1 = ran.1 ∧
    world eng out.2 = mkWorld (cwd (world eng s)) (ext ran.2) ∧
    _initialized eng out.2 = (if ran.1 is Ok _ then true else false).
Proof.
  unfold _ensure_pymgipsim_initialized.
  destruct (_initialized eng s) eqn:Hflag; [done|].
  unfold mbind, M_bind, try_finally, call, os_chdir, os_getcwd, logger_info,
    set_initialized. simpl.
  destruct (initialization eng _) as [[[]|e] w']; simpl; done.
Qed.

(** After a successful initialization a second call changes nothing. *)
Lemma guard_idempotent (s : State eng) :
  let out := _ensure_pymgipsim_initialized eng BASE_DIR s in
  out.1 = Ok () →
  _ensure_pymgipsim_initialized eng BASE_DIR out.2 = (Ok (), out.2).
Proof.
  unfold _ensure_pymgipsim_initialized.
  destruct (_initialized eng s) eqn:Hflag; [by simpl; rewrite Hflag|].
  unfold mbind, M_bind, try_finally, call, os_chdir, os_getcwd, logger_info,
    set_initialized. simpl.
  destruct (initialization eng _) as [[[]|e] w']; simpl; done.
Qed.

End Guard.

(** ** Arguments that are only logged *)

Section Unused.
Import Adapter.

Variable eng : Engine.
Variable BASE_DIR : string.
Variable json_dumps : ResultData → string.

#[local] Abbreviation sim := (Adapter.sim eng).
#[local] Abbreviation blind := (Adapter.blind eng).

Lemma blind_ret {A} (a : A) : blind (mret a).
Proof. by intros p1 p2 s1 s2 H. Qed.

Lemma blind_lift {A} (r : result A) : blind (lift eng r).
Proof. by intros p1 p2 s1 s2 H. Qed.

Lemma blind_bind {A B} (m : M eng A) (k : A → M eng B) :
  blind m → (∀ a, blind (k a)) → blind (m ≫= k).
Proof.
  intros Hm Hk p1 p2 s1 s2 H. destruct (Hm p1 p2 s1 s2 H) as [Hr Hs].
  unfold mbind, M_bind.
  destruct (m s1) as [[a1|e1] s1'], (m s2) as [[a2|e2] s2']; simpl in *;
    try discriminate.
  - injection Hr as ->. by apply Hk.
  - injection Hr as ->. by split.
Qed.

Lemma blind_call {A} (f : Ext (ext_state eng) A) : blind (call eng f).
Proof.
  intros p1 p2 s1 s2 (Hw & Hi & t & H1 & H2). unfold call. rewrite Hw.
  destruct (f (world eng s2)) as [r w']. simpl.
  split; [done|]. split; [done|]. split; [done|]. by exists t.
Qed.

Lemma blind_logger_info fmt args : blind (logger_info eng fmt args).
Proof.
  intros p1 p2 s1 s2 (Hw & Hi & t & H1 & H2). unfold logger_info. simpl.
  split; [done|]. split; [done|]. split; [done|].
  exists (t ++ [LogInfo fmt args]). by rewrite H1, H2, !app_assoc.
Qed.

Lemma blind_getcwd : blind (os_getcwd eng).
Proof.
  intros p1 p2 s1 s2 H. unfold os_getcwd. simpl. split; [|done].
  destruct H as (-> & _). done.
Qed.

Lemma blind_chdir path : blind (os_chdir eng path).
Proof.
  intros p1 p2 s1 s2 (Hw & Hi & t & H1 & H2). unfold os_chdir. simpl.
  rewrite Hw. split; [done|]. split; [done|]. split; [done|]. by exists t.
Qed.

Lemma blind_set_initialized b : blind (set_initialized eng b).
Proof.
  intros p1 p2 s1 s2 (Hw & Hi & t & H1 & H2). unfold set_initialized. simpl.
  split; [done|]. split; [done|]. split; [done|]. by exists t.
Qed.

Lemma blind_try_finally {A} (body : M eng A) (cleanup : M eng ()) :
  blind body → blind cleanup → blind (try_finally eng body cleanup).
Proof.
  intros Hb Hc p1 p2 s1 s2 H. destruct (Hb p1 p2 s1 s2 H) as [Hr Hs].
  unfold try_finally.
  destruct (body s1) as [r1 s1'], (body s2) as [r2 s2']. simpl in *.
  destruct (Hc p1 p2 s1' s2' Hs) as [Hr' Hs'].
  destruct (cleanup s1') as [[[]|e1] s1''], (cleanup s2') as [[[]|e2] s2''];
    simpl in *; try discriminate; [by split|].
  injection Hr' as ->. by split.
Qed.

Lemma blind_guard : blind (_ensure_pymgipsim_initialized eng BASE_DIR).
Proof.
  intros p1 p2 s1 s2 H. unfold _ensure_pymgipsim_initialized.
  pose proof H as (_ & Hi & _). rewrite Hi.
  destruct (_initialized eng s2); [done|].
  match goal with
  | |- (?m s1).1 = (?m s2).1 ∧ _ => enough (blind m) as Hb by by apply Hb
  end.
  apply blind_bind; [apply blind_logger_info|intros _].
  apply blind_bind; [apply blind_getcwd|intros old_cwd].
  apply blind_bind; [|intros _].
  - apply blind_try_finally; [|apply blind_chdir].
    apply blind_bind; [apply blind_chdir|intros _]. apply blind_call.
  - apply blind_bind; [apply blind_set_initialized|intros _].
    apply blind_logger_info.
Qed.

Lemma blind_prepare settings_file args folder :
  blind (prepare_scenario eng settings_file args folder).
Proof.
  unfold prepare_scenario.
  apply blind_bind; [apply blind_lift|intros scenario_name].
  destruct (negb (truthy scenario_name)); [|apply blind_ret].
  apply blind_bind; [apply blind_call|intros [sf1 a1]].
  apply blind_bind; [apply blind_call|intros [sf2 a2]].
  apply blind_bind; [apply blind_call|intros [sf3 a3]].
  apply blind_call.
Qed.

(** C10. Two calls from the same state that differ only in
    [insulin_bolus] and [body_weight] return the same string and leave the
    same world and flag; their logs differ in the two logged arguments of
    the first record only. *)
Theorem bolus_and_weight_only_logged c d b1 w1 b2 w2 (s : State eng) :
  let out1 := simulate_glucose_dynamics eng BASE_DIR json_dumps c b1 w1 d s in
  let out2 := simulate_glucose_dynamics eng BASE_DIR json_dumps c b2 w2 d s in
  out1.1 = out2.1 ∧
  world eng out1.2 = world eng out2.2 ∧
  _initialized eng out1.2 = _initialized eng out2.2 ∧
  ∃ fmt t,
    log eng out1.2 = log eng s ++ LogInfo fmt [c; b1; w1; d] :: t ∧
    log eng out2.2 = log eng s ++ LogInfo fmt [c; b2; w2; d] :: t.
Proof.
  set (fmt := "Starting simulation with carbs=%s g, bolus=%s U, body_weight=%s kg, duration=%s min").
  set (p1 := log eng s ++ [LogInfo fmt [c; b1; w1; d]]).
  set (p2 := log eng s ++ [LogInfo fmt [c; b2; w2; d]]).
  assert (∃ rest : M eng ResultData, blind rest ∧
            ∀ b w, simulate_body eng BASE_DIR c b w d
                   = (logger_info eng fmt [c; b; w; d] ≫= λ _, rest))
    as (rest & Hblind & Hbody).
  { eexists. split; [|intros b w; unfold simulate_body; reflexivity].
    apply blind_bind; [apply blind_guard|intros _].
    apply blind_bind; [apply blind_call|intros parser].
    apply blind_bind; [apply blind_call|intros args].
    apply blind_bind; [apply blind_lift|intros days].
    apply blind_bind; [apply blind_call|intros folders].
    apply blind_bind; [apply blind_call|intros [sf args1]].
    apply blind_bind; [apply blind_prepare|intros [sf2 args2]].
    apply blind_bind; [apply blind_call|intros cohort].
    apply blind_lift. }
  assert (∀ b w (p := log eng s ++ [LogInfo fmt [c; b; w; d]]),
            simulate_body eng BASE_DIR c b w d s
            = rest (mkState eng (world eng s) (_initialized eng s) p)) as Hrun.
  { intros b w p. by rewrite Hbody. }
  simpl. unfold simulate_glucose_dynamics. rewrite !Hrun. fold p1 p2.
  destruct (Hblind p1 p2 (mkState eng (world eng s) (_initialized eng s) p1)
              (mkState eng (world eng s) (_initialized eng s) p2))
    as (Hr & Hw & Hi & t & H1 & H2).
  { split; [done|]. split; [done|]. exists []. simpl. by rewrite !app_nil_r. }
  destruct (rest _) as [[r1|e1] s1], (rest _) as [[r2|e2] s2]; simpl in *;
    try discriminate.
  - injection Hr as ->. split; [done|]. split; [done|]. split; [done|].
    exists fmt, t. subst p1 p2. by rewrite H1, H2, <- !app_assoc.
  - injection Hr as ->. destruct (exc_kind e2); simpl.
    + split; [done|]. split; [done|]. split; [done|].
      exists fmt, (t ++ [LogException "Simulation failed" e2]). subst p1 p2.
      by rewrite H1, H2, <- !app_assoc.
    + split; [done|]. split; [done|]. split; [done|].
      exists fmt, t. subst p1 p2. by rewrite H1, H2, <- !app_assoc.
    + split; [done|]. split; [done|]. split; [done|].
      exists fmt, t. subst p1 p2. by rewrite H1, H2, <- !app_assoc.
Qed.

End Unused.

(** ** Runs against the test double *)

Module Runs.
Import Adapter Double.

Lemma run_120 :
  (simulate_body sim_engine base (PyFloat 100) (PyFloat 0) (PyFloat 70)
     (PyInt 120) s0).1 = Ok expected_120.
Proof. vm_compute. reflexivity. Qed.

Lemma trace_within_duration_witness :
  ∃ model glucose max_time,
    engine_returned sim_engine model ∧ normalized_glucose sim_engine model glucose ∧
    as_float64 (PyInt 120) = Ok max_time ∧
    (∀ p, p ∈ within max_time (time_as_unix model) glucose
          ↔ p ∈ zip (time_as_unix model) glucose ∧ (p.1 <= max_time)%Q) ∧
    summarize (map fst (within max_time (time_as_unix model) glucose))
              (map snd (within max_time (time_as_unix model) glucose))
    = Ok expected_120 ∧
    Forall (λ e, (time_min e <= max_time)%Q) (cgm_trace expected_120) ∧
    (exact_duration (PyInt 120) →
     ∃ duration, as_number (PyInt 120) = Some duration ∧
                 (max_time == duration)%Q ∧
                 Forall (λ e, (time_min e <= duration)%Q) (cgm_trace expected_120)).
Proof.
  eapply (trace_within_duration sim_engine base (PyFloat 100) (PyFloat 0)
            (PyFloat 70) (PyInt 120) s0).
  vm_compute. reflexivity.
Defined.

Lemma summary_over_full_sequence_witness :
  ∃ model glucose max_time full mn mx fin,
    engine_returned sim_engine model ∧ normalized_glucose sim_engine model glucose ∧
    as_float64 (PyInt 120) = Ok max_time ∧
    (exact_duration (PyInt 120) →
     ∃ duration, as_number (PyInt 120) = Some duration ∧
       (max_time == duration)%Q ∧
       ∀ p, p ∈ within max_time (time_as_unix model) glucose
            ↔ p ∈ zip (time_as_unix model) glucose ∧ (p.1 <= duration)%Q) ∧
    full = map snd (within max_time (time_as_unix model) glucose) ∧
    cgm_trace expected_120
    = subsample (map fst (within max_time (time_as_unix model) glucose)) full ∧
    (mn ∈ full ∧ ∀ g, g ∈ full → (mn <= g)%Q) ∧
    (mx ∈ full ∧ ∀ g, g ∈ full → (g <= mx)%Q) ∧
    last full = Some fin ∧
    min_glucose_mg_dl (summary expected_120) = round1 mn ∧
    max_glucose_mg_dl (summary expected_120) = round1 mx ∧
    final_glucose_mg_dl (summary expected_120) = round1 fin.
Proof.
  eapply (summary_over_full_sequence sim_engine base (PyFloat 100) (PyFloat 0)
            (PyFloat 70) (PyInt 120) s0).
  vm_compute. reflexivity.
Defined.

(** The reported minimum, 66 at minute 35, is a sample that the trace does
    not contain: it lies below every trace entry. *)
Example minimum_not_from_trace :
  min_glucose_mg_dl (summary expected_120) = 66%Q ∧
  Forall (λ e, (min_glucose_mg_dl (summary expected_120) < glucose_mg_dl e)%Q)
    (cgm_trace expected_120).
Proof. split; [done|]. repeat constructor. Qed.

(** Whichever engine call raises, and whatever instance of [Exception] it
    raises, the caller gets the error string for that exception. *)
Lemma every_engine_failure_reported (name cls msg : string) :
  name ∈ engine_calls →
  let eng := engine day_model defaults
               (fail_at name (mkException OfException cls msg)) in
  (simulate_glucose_dynamics eng base json
     (PyFloat 100) (PyFloat 0) (PyFloat 70) (PyInt 120) (start eng [])).1
  = Ok ("Error executing simulation: " +:+ msg).
Proof.
  intros Hin. unfold engine_calls in Hin.
  repeat (apply elem_of_cons in Hin as [->|Hin]; [vm_compute; reflexivity|]).
  by apply elem_of_nil in Hin.
Qed.

(** Failures of the adapter's own statements. *)
Example non_numeric_duration :
  (simulate_glucose_dynamics sim_engine base json
     (PyFloat 100) (PyFloat 0) (PyFloat 70) (PyStr "two hours") s0).1
  = Ok "Error executing simulation: unsupported operand type(s) for /: 'str' and 'int'".
Proof. vm_compute. reflexivity. Qed.

Example empty_truncation :
  (simulate_glucose_dynamics sim_engine base json
     (PyFloat 100) (PyFloat 0) (PyFloat 70) (PyInt (-5)) s0).1
  = Ok "Error executing simulation: zero-size array to reduction operation minimum which has no identity".
Proof. vm_compute. reflexivity. Qed.

Example missing_scenario_name :
  let eng := engine day_model (delete "scenario_name" defaults) never in
  (simulate_glucose_dynamics eng base json
     (PyFloat 100) (PyFloat 0) (PyFloat 70) (PyInt 120) (start eng [])).1
  = Ok "Error executing simulation: 'Namespace' object has no attribute 'scenario_name'".
Proof. vm_compute. reflexivity. Qed.

Example missing_glucose_state :
  let model := {| states_as_array := [[[]]]; glucose_state := 1;
                  states_state_units := ["mU/L"; "mg/dL"];
                  parameters_VG := [11%Q]; time_as_unix := [] |} in
  let eng := engine model defaults never in
  (simulate_glucose_dynamics eng base json
     (PyFloat 100) (PyFloat 0) (PyFloat 70) (PyInt 120) (start eng [])).1
  = Ok "Error executing simulation: index 1 is out of bounds for axis 1 with size 1".
Proof. vm_compute. reflexivity. Qed.

(** The engine calls that take [args] see the mapped namespace: two days
    for 1500 minutes, the carbohydrate value twice, and one-element
    placeholders only for the activity attributes the parser defines. *)
Example engine_sees_mapped_args :
  let out := simulate_glucose_dynamics sim_engine base json
               (PyFloat 100) (PyFloat 0) (PyFloat 70) (PyInt 1500) s0 in
  (λ call, (call.1.1, call.2 !! "number_of_days", call.2 !! "breakfast_carb_range",
            call.2 !! "running_start_time", call.2 !! "cycling_power"))
    <$> (ext (world sim_engine out.2)) !! 4%nat
  = Some ("load_settings_file", Some (PyInt 2),
          Some (PyList [PyFloat 100; PyFloat 100]),
          Some (PyList [PyStr "00:00"]), None).
Proof. vm_compute. reflexivity. Qed.

(** The initialization raises: the working directory is the original one
    again, the flag stays unset, and the next request initializes anew. *)
Example failed_initialization_restores_cwd :
  let eng := engine day_model defaults (fail_at "initialization" solver_error) in
  let out := _ensure_pymgipsim_initialized eng base (start eng []) in
  out.1 = Raise solver_error ∧
  cwd (world eng out.2) = "/srv/app" ∧
  _initialized eng out.2 = false.
Proof. vm_compute. done. Qed.

(** A first request: the initialization runs in the engine's directory,
    every later call in the original one; a second request from the state
    the first one left does not initialize again. *)
Example initialization_runs_in_engine_directory :
  let first := simulate_glucose_dynamics sim_engine base json
                 (PyFloat 100) (PyFloat 0) (PyFloat 70) (PyInt 120) s0 in
  let second := simulate_glucose_dynamics sim_engine base json
                  (PyFloat 50) (PyFloat 0) (PyFloat 70) (PyInt 60) first.2 in
  (λ call, (call.1.1, call.1.2)) <$> take 3 (ext (world sim_engine first.2))
  = [ ("initialization", "/opt/t1d/py_mgipsim");
      ("generate_parser_cli", "/srv/app"); ("parse_args", "/srv/app") ] ∧
  cwd (world sim_engine first.2) = "/srv/app" ∧
  _initialized sim_engine first.2 = true ∧
  length (List.filter (λ call, String.eqb call.1.1 "initialization")
            (ext (world sim_engine second.2))) = 1%nat.
Proof. vm_compute. done. Qed.

(** C5, as stated, fails for an [int] duration that float64 does not
    hold: numpy compares the time axis with the float64 nearest to
    [2^53 + 3], which is [2^53 + 4], and the sample at minute [2^53 + 4]
    is kept. *)
Lemma trace_beyond_int_duration :
  ∃ r,
    (simulate_body late_engine base (PyFloat 100) (PyFloat 0) (PyFloat 70)
       (PyInt (2 ^ 53 + 3)) (start late_engine [])).1 = Ok r ∧
    cgm_trace r = [ {| time_min := inject_Z (2 ^ 53 + 4); glucose_mg_dl := 100 |} ] ∧
    Forall (λ e, (inject_Z (2 ^ 53 + 3) < time_min e)%Q) (cgm_trace r).
Proof. eexists. split; [by vm_compute|]. split; [done|]. by repeat constructor. Qed.

(** C6, as stated, fails for the same request: no sample has a time at
    most [duration_minutes], and the summary reports the sample at minute
    [2^53 + 4]. *)
Lemma summary_beyond_int_duration :
  ∃ r,
    (simulate_body late_engine base (PyFloat 100) (PyFloat 0) (PyFloat 70)
       (PyInt (2 ^ 53 + 3)) (start late_engine [])).1 = Ok r ∧
    within (inject_Z (2 ^ 53 + 3)) (time_as_unix late_model) [100%Q] = [] ∧
    min_glucose_mg_dl (summary r) = 100%Q ∧
    max_glucose_mg_dl (summary r) = 100%Q ∧
    final_glucose_mg_dl (summary r) = 100%Q.
Proof. eexists. split; [by vm_compute|]. by vm_compute. Qed.

(** Beyond the float64 range the comparison itself raises. *)
Example duration_beyond_float64 :
  postprocess (concentration_mmolL_to_mgdL sim_engine) day_model (PyInt (2 ^ 1024))
  = Raise (OverflowError "int too large to convert to float").
Proof. by vm_compute. Qed.

End Runs.

(** ** Carbohydrate input *)


(** ** More on the parameter mapper *)

Section MapperFrame.
Import Adapter Session.

Lemma lookup_set_if_present (k k' : string) (v : pyval) (args : Namespace) :
  set_if_present k v args !! k'
  = if decide (k = k') then (λ _, v) <$> (args !! k') else args !! k'.
Proof.
  case_decide as H.
  - subst k'. apply lookup_set_if_present_eq.
  - by apply lookup_set_if_present_ne.
Qed.

Lemma dom_set_if_present (k : string) (v : pyval) (args : Namespace) :
  dom (set_if_present k v args) = dom args.
Proof.
  unfold set_if_present, hasattr. case_bool_decide as H; [|done].
  rewrite dom_insert_L. apply elem_of_dom in H.
  apply subseteq_union_1_L. by apply singleton_subseteq_l.
Qed.

Lemma lookup_foldl_set_if_present (l : list (string * pyval)) (args : Namespace)
    (k : string) :
  NoDup l.*1 →
  foldl (λ a kv, set_if_present kv.1 kv.2 a) args l !! k
  = match (list_to_map l : Namespace) !! k with
    | Some v => (λ _, v) <$> (args !! k)
    | None => args !! k
    end.
Proof.
  revert args. induction l as [|[k0 v0] l IH]; intros args Hnd; [done|].
  apply NoDup_cons in Hnd as [Hk0 Hnd]. simpl.
  rewrite IH by done. rewrite lookup_set_if_present, lookup_insert.
  destruct (decide (k0 = k)) as [->|Hne].
  - rewrite (not_elem_of_list_to_map_1 _ k) by done. done.
  - by destruct (list_to_map l !! k).
Qed.

Lemma NoDup_overrides (carbs : pyval) : NoDup (overrides carbs).*1.
Proof. apply (bool_decide_unpack (NoDup (overrides carbs).*1)). by vm_compute. Qed.

(** The mapper, attribute by attribute. *)
Lemma lookup_map_parameters (carbs : pyval) (days : Z) (args : Namespace)
    (k : string) :
  map_parameters carbs days args !! k
  = match (list_to_map (overrides carbs) : Namespace) !! k with
    | Some v => (λ _, v) <$> (<["number_of_days" := PyInt days]> args !! k)
    | None => <["number_of_days" := PyInt days]> args !! k
    end.
Proof.
  rewrite <- (lookup_foldl_set_if_present _ _ _ (NoDup_overrides carbs)).
  unfold map_parameters, overrides. cbn [foldl fst snd]. reflexivity.
Qed.

Lemma overrides_not_number_of_days (carbs : pyval) :
  (list_to_map (overrides carbs) : Namespace) !! "number_of_days" = None.
Proof. by vm_compute. Qed.

(** X1. The mapper defines [number_of_days] and creates no other attribute;
    every attribute other than the nine it writes keeps its value. *)
Theorem map_parameters_frame (carbs : pyval) (days : Z) (args : Namespace) :
  dom (map_parameters carbs days args) = {[ "number_of_days" ]} ∪ dom args ∧
  ∀ k, k ∉ [ "number_of_days"; "breakfast_carb_range"; "running_start_time";
             "cycling_start_time"; "running_duration"; "cycling_duration";
             "running_incline"; "running_speed"; "cycling_power" ] →
       map_parameters carbs days args !! k = args !! k.
Proof.
  split.
  - unfold map_parameters. rewrite !dom_set_if_present. apply dom_insert_L.
  - intros k Hk. apply not_elem_of_cons in Hk as [Hk0 Hk].
    rewrite lookup_map_parameters, lookup_insert_ne by done.
    by rewrite (not_elem_of_list_to_map_1 _ k).
Qed.

(** X2. After the mapper, each activity attribute that the parser defines is
    a list of exactly one element, and one the parser does not define stays
    undefined: no activity list reaches the engine empty. *)
Theorem map_parameters_activity_lists (carbs : pyval) (days : Z)
    (args : Namespace) (k : string) :
  k ∈ [ "running_start_time"; "cycling_start_time"; "running_duration";
        "cycling_duration"; "running_incline"; "running_speed";
        "cycling_power" ] →
  match map_parameters carbs days args !! k with
  | Some v => is_Some (args !! k) ∧ ∃ x, v = PyList [x]
  | None => args !! k = None
  end.
Proof.
  intros Hk.
  assert (k ≠ "number_of_days"
          ∧ ∃ x, (list_to_map (overrides carbs) : Namespace) !! k
                 = Some (PyList [x])) as [Hne [x Hx]].
  { repeat (apply elem_of_cons in Hk as [->|Hk]);
      [..|by apply elem_of_nil in Hk]; (split; [done|]); eexists;
      vm_compute; reflexivity. }
  rewrite lookup_map_parameters, Hx, lookup_insert_ne by done.
  destruct (args !! k); simpl; eauto.
Qed.

Lemma map_parameters_activity_lists_witness :
  match map_parameters (PyFloat 100) 1 Double.defaults !! "running_start_time" with
  | Some v => is_Some (Double.defaults !! "running_start_time")
              ∧ ∃ x, v = PyList [x]
  | None => Double.defaults !! "running_start_time" = None
  end.
Proof.
  apply (map_parameters_activity_lists (PyFloat 100) 1 Double.defaults).
  by left.
Defined.

(** X3. Mapping twice with the same values is mapping once. *)
Theorem map_parameters_idempotent (carbs : pyval) (days : Z) (args : Namespace) :
  map_parameters carbs days (map_parameters carbs days args)
  = map_parameters carbs days args.
Proof.
  apply map_eq. intros k. rewrite (lookup_map_parameters _ _ (map_parameters _ _ _)).
  destruct (decide (k = "number_of_days")) as [->|Hne].
  - rewrite lookup_map_parameters.
    by rewrite overrides_not_number_of_days, !lookup_insert_eq.
  - rewrite lookup_insert_ne by done. rewrite lookup_map_parameters.
    rewrite lookup_insert_ne by done.
    by destruct (list_to_map (overrides carbs) !! k), (args !! k).
Qed.

End MapperFrame.

(** ** More on the summary and the trace *)

Section SummaryShape.
Import Adapter.

Lemma count_multiples_15 (n : nat) :
  length (List.filter (λ i, i mod 15 =? 0)%nat (seq 0 n)) = (n + 14) / 15.
Proof.
  induction n as [|n IH]; [done|].
  rewrite seq_S, List.filter_app, length_app, IH.
  cbn [List.filter Nat.add]. replace (S (n + 14)) with (n + 15) by lia.
  pose proof (Nat.div_mod_eq n 15) as H0.
  pose proof (Nat.div_mod_eq (n + 14) 15) as H1.
  pose proof (Nat.div_mod_eq (n + 15) 15) as H2.
  pose proof (Nat.mod_upper_bound n 15 ltac:(lia)) as B0.
  pose proof (Nat.mod_upper_bound (n + 14) 15 ltac:(lia)) as B1.
  pose proof (Nat.mod_upper_bound (n + 15) 15 ltac:(lia)) as B2.
  destruct (n mod 15 =? 0)%nat eqn:E; cbn [length].
  - apply Nat.eqb_eq in E. lia.
  - apply Nat.eqb_neq in E. lia.
Qed.

Lemma selected_S (n : nat) :
  selected (S n) = List.filter (λ i, i mod 15 =? 0)%nat (seq 0 n) ++ [n].
Proof.
  unfold selected. rewrite seq_S, List.filter_app. simpl. f_equal.
  - apply filter_ext_in. intros i Hi. apply in_seq in Hi. unfold keep.
    replace (Z.of_nat i =? Z.of_nat (S n) - 1)%Z with false; [apply orb_false_r|].
    symmetry. apply Z.eqb_neq. lia.
  - unfold keep. replace (Z.of_nat n =? Z.of_nat (S n) - 1)%Z with true;
      [by rewrite orb_true_r|].
    symmetry. apply Z.eqb_eq. lia.
Qed.

Lemma selected_head (n : nat) : head (selected (S n)) = Some 0.
Proof. unfold selected. simpl. by unfold keep. Qed.

Lemma selected_last (n : nat) : last (selected (S n)) = Some n.
Proof. rewrite selected_S. apply last_snoc. Qed.

(** X4. The status by the samples themselves: Low exactly when some sample
    is below 70; High exactly when none is below 70 and some sample is above
    180; Normal exactly when every sample lies in [70, 180]. On an empty
    sequence there is no summary. *)
Theorem status_by_samples (time_points glucose : list Q) :
  match summarize time_points glucose with
  | Ok r =>
      (status (summary r) = "Hypoglycemia (Low)"
       ↔ Exists (λ g, (g < 70)%Q) glucose) ∧
      (status (summary r) = "Hyperglycemia (High)"
       ↔ Forall (λ g, (70 <= g)%Q) glucose ∧ Exists (λ g, (180 < g)%Q) glucose) ∧
      (status (summary r) = "Normal"
       ↔ Forall (λ g, (70 <= g <= 180)%Q) glucose)
  | Raise _ => glucose = []
  end.
Proof.
  destruct (summarize time_points glucose) as [r|e] eqn:Hs.
  - apply summarize_spec in Hs as (mn & mx & fin & Hmn & Hmx & _ & -> & _).
    apply np_min_spec in Hmn as [Hmn_in Hmn]. apply np_max_spec in Hmx as [Hmx_in Hmx].
    simpl. unfold classify. rewrite !Exists_exists, !Forall_forall.
    destruct (Qlt_bool mn 70) eqn:Hlo; [|destruct (Qlt_bool 180 mx) eqn:Hhi].
    + apply Qlt_bool_true in Hlo. split; [|split].
      * split; [intros _; by exists mn|done].
      * split; [done|]. intros [H _]. specialize (H mn Hmn_in). lra.
      * split; [done|]. intros H. specialize (H mn Hmn_in). lra.
    + apply Qlt_bool_false in Hlo. apply Qlt_bool_true in Hhi. split; [|split].
      * split; [done|]. intros (g & Hg & Hlt). specialize (Hmn g Hg). lra.
      * split; [|done]. intros _. split; [|by exists mx].
        intros g Hg. specialize (Hmn g Hg). lra.
      * split; [done|]. intros H. specialize (H mx Hmx_in). lra.
    + apply Qlt_bool_false in Hlo. apply Qlt_bool_false in Hhi. split; [|split].
      * split; [done|]. intros (g & Hg & Hlt). specialize (Hmn g Hg). lra.
      * split; [done|]. intros [_ (g & Hg & Hgt)]. specialize (Hmx g Hg). lra.
      * split; [|done]. intros _ g Hg.
        specialize (Hmn g Hg). specialize (Hmx g Hg). lra.
  - destruct glucose as [|g glucose]; [done|].
    unfold summarize in Hs. simpl in Hs.
    destruct (index_last_nonempty (g :: glucose) ltac:(done)) as [x Hx].
    rewrite Hx in Hs. done.
Qed.

(** X5. The trace of a summary is never empty: it starts with the first
    sample and ends with the last one, whose glucose is the reported final
    glucose. *)
Theorem trace_endpoints (time_points glucose : list Q) :
  length time_points = length glucose →
  match summarize time_points glucose with
  | Ok r =>
      head (cgm_trace r)
      = Some {| time_min := nth 0 time_points 0%Q;
                glucose_mg_dl := round1 (nth 0 glucose 0%Q) |} ∧
      last (cgm_trace r)
      = Some {| time_min := nth (length glucose - 1) time_points 0%Q;
                glucose_mg_dl := final_glucose_mg_dl (summary r) |}
  | Raise _ => glucose = []
  end.
Proof.
  intros Hlen. destruct (summarize time_points glucose) as [r|e] eqn:Hs.
  - apply summarize_spec in Hs as (mn & mx & fin & _ & _ & Hfin & -> & ->).
    simpl. rewrite subsample_selected by done.
    destruct glucose as [|g0 glucose]; [done|].
    assert (nth (length glucose) (g0 :: glucose) 0%Q = fin) as Hnth.
    { rewrite nth_lookup. rewrite last_lookup in Hfin.
      cbn [length pred] in Hfin. by rewrite Hfin. }
    change (length (g0 :: glucose)) with (S (length glucose)).
    split.
    + unfold selected. simpl. by unfold keep.
    + rewrite selected_S, map_app, Nat.sub_succ, Nat.sub_0_r. cbn [map].
      by rewrite last_snoc, Hnth.
  - destruct glucose as [|g glucose]; [done|].
    unfold summarize in Hs. simpl in Hs.
    destruct (index_last_nonempty (g :: glucose) ltac:(done)) as [x Hx].
    rewrite Hx in Hs. done.
Qed.

Lemma trace_endpoints_witness :
  match summarize [0; 5; 10]%Q [120; 65; 200]%Q with
  | Ok r =>
      head (cgm_trace r)
      = Some {| time_min := nth 0 [0; 5; 10]%Q 0%Q;
                glucose_mg_dl := round1 (nth 0 [120; 65; 200]%Q 0%Q) |} ∧
      last (cgm_trace r)
      = Some {| time_min := nth (length [120; 65; 200]%Q - 1) [0; 5; 10]%Q 0%Q;
                glucose_mg_dl := final_glucose_mg_dl (summary r) |}
  | Raise _ => [120; 65; 200]%Q = []
  end.
Proof. apply (trace_endpoints [0; 5; 10]%Q [120; 65; 200]%Q). reflexivity. Defined.

(** X6. A sequence of [L >= 1] samples gives a trace of
    [(L + 13) / 15 + 1] entries: at most [L / 15 + 2], and never more than
    the samples themselves. *)
Theorem trace_length (time_points glucose : list Q) :
  length time_points = length glucose →
  length (subsample time_points glucose)
  = match length glucose with 0 => 0 | S n => (n + 14) / 15 + 1 end ∧
  length (subsample time_points glucose) ≤ length glucose / 15 + 2 ∧
  length (subsample time_points glucose) ≤ length glucose.
Proof.
  intros Hlen. rewrite subsample_selected, length_map by done.
  destruct (length glucose) as [|n]; [by repeat split; simpl; lia|].
  rewrite selected_S, length_app, count_multiples_15. cbn [length].
  pose proof (Nat.div_mod_eq (n + 14) 15) as H1.
  pose proof (Nat.div_mod_eq (S n) 15) as H2.
  pose proof (Nat.mod_upper_bound (n + 14) 15 ltac:(lia)) as B1.
  pose proof (Nat.mod_upper_bound (S n) 15 ltac:(lia)) as B2.
  repeat split; lia.
Qed.

Lemma trace_length_witness :
  length (subsample (take 17 Double.day_time) (take 17 Double.day_glucose))
  = match length (take 17 Double.day_glucose) with
    | 0 => 0
    | S n => (n + 14) / 15 + 1
    end ∧
  length (subsample (take 17 Double.day_time) (take 17 Double.day_glucose))
  ≤ length (take 17 Double.day_glucose) / 15 + 2 ∧
  length (subsample (take 17 Double.day_time) (take 17 Double.day_glucose))
  ≤ length (take 17 Double.day_glucose).
Proof.
  apply (trace_length (take 17 Double.day_time) (take 17 Double.day_glucose)).
  reflexivity.
Defined.

End SummaryShape.

(** ** When the post-processing fails *)

Section PostprocessEdges.
Import Adapter.

Variable eng : Engine.
Variable BASE_DIR : string.
Variable json_dumps : ResultData → string.

#[local] Abbreviation normalized_glucose := (Adapter.normalized_glucose eng).
#[local] Abbreviation conv := (concentration_mmolL_to_mgdL eng).

Lemma truncate_ok (time_points glucose : list Q) (d : pyval) (max_time : Q) :
  as_float64 d = Ok max_time → length time_points = length glucose →
  truncate time_points glucose d
  = Ok (map fst (within max_time time_points glucose),
        map snd (within max_time time_points glucose)).
Proof.
  intros Hd Hlen. unfold truncate, bool_index. rewrite Hd.
  cbn [mbind result_bind_inst result_bind].
  rewrite !length_map, Nat.eqb_refl. cbn [mbind result_bind_inst result_bind].
  rewrite <- Hlen, Nat.eqb_refl. cbn [mbind result_bind_inst result_bind mret result_ret].
  unfold within.
  by rewrite (mask_select_l (λ t, Qle_bool t max_time) time_points glucose),
    (mask_select_r (λ t, Qle_bool t max_time) time_points glucose).
Qed.


Lemma summarize_empty (time_points : list Q) :
  summarize time_points []
  = Raise (ValueError
      "zero-size array to reduction operation minimum which has no identity").
Proof. reflexivity. Qed.

Lemma within_nonempty (max_time : Q) (time_points glucose : list Q) :
  length time_points = length glucose →
  within max_time time_points glucose ≠ []
  ↔ Exists (λ t, (t <= max_time)%Q) time_points.
Proof.
  intros Hlen. rewrite Exists_exists. split.
  - intros Hne. destruct (within max_time time_points glucose) as [|p l] eqn:E;
      [done|].
    assert (p ∈ within max_time time_points glucose) as Hp by (rewrite E; by left).
    apply within_exact in Hp as [Hz Hle]. exists p.1. split; [|done].
    destruct p as [t g]. by apply elem_of_zip_l in Hz.
  - intros (t & Ht & Hle) Hnil.
    apply list_elem_of_lookup in Ht as [i Hi].
    destruct (lookup_lt_is_Some_2 glucose i) as [g Hg].
    { rewrite <- Hlen. by eapply lookup_lt_Some. }
    assert ((t, g) ∈ within max_time time_points glucose) as Hin.
    { apply within_exact. split; [|done]. apply list_elem_of_lookup. exists i.
      by rewrite lookup_zip_with, Hi; simpl; rewrite Hg. }
    rewrite Hnil in Hin. by apply elem_of_nil in Hin.
Qed.

Lemma postprocess_run (model : Model) (d : pyval) (glucose : list Q)
    (max_time : Q) :
  normalized_glucose model glucose → as_float64 d = Ok max_time →
  length (time_as_unix model) = length glucose →
  postprocess conv model d
  = summarize (map fst (within max_time (time_as_unix model) glucose))
              (map snd (within max_time (time_as_unix model) glucose)).
Proof.
  intros (raw & unit & Hraw & Hu & Hn) Hd Hlen. unfold postprocess, list_index.
  rewrite Hraw. cbn [mbind result_bind_inst result_bind]. rewrite Hu.
  cbn [mbind result_bind_inst result_bind]. rewrite Hn.
  cbn [mbind result_bind_inst result_bind].
  by rewrite (truncate_ok _ _ _ _ Hd Hlen).
Qed.


(** X8. When every sample time is after the float64 that numpy makes of the
    duration (a negative duration, a duration before the first sample, an
    empty time axis), the result is the error of [np.min] on an empty array,
    not an empty trace. *)
Theorem empty_truncation_raises (model : Model) (d : pyval) (glucose : list Q)
    (max_time : Q) :
  normalized_glucose model glucose → as_float64 d = Ok max_time →
  length (time_as_unix model) = length glucose →
  Forall (λ t, (max_time < t)%Q) (time_as_unix model) →
  postprocess conv model d
  = Raise (ValueError
      "zero-size array to reduction operation minimum which has no identity").
Proof.
  intros Hg Hd Hlen Hall. rewrite (postprocess_run model d glucose max_time) by done.
  destruct (within max_time (time_as_unix model) glucose) as [|p l] eqn:E; [done|].
  exfalso. assert (within max_time (time_as_unix model) glucose ≠ []) as Hne
    by by rewrite E.
  apply (within_nonempty max_time _ glucose Hlen) in Hne.
  apply Exists_exists in Hne as (t & Ht & Hle).
  rewrite Forall_forall in Hall. specialize (Hall t Ht). lra.
Qed.

(** X9. When the engine's glucose index is not a state of subject 0, the
    result is numpy's index error on axis 1, naming the index and the number
    of states. *)
Theorem missing_glucose_state_raises (model : Model) (d : pyval)
    (subject : list (list Q)) :
  states_as_array model !! 0%nat = Some subject →
  length subject ≤ glucose_state model →
  postprocess conv model d
  = Raise (IndexError ("index " +:+ pretty (glucose_state model)
                         +:+ " is out of bounds for axis 1 with size "
                         +:+ pretty (length subject))).
Proof.
  intros Hs Hlen. unfold postprocess, extract_glucose, np_index.
  rewrite Hs. cbn [mbind result_bind_inst result_bind].
  by rewrite (lookup_ge_None_2 subject (glucose_state model) Hlen).
Qed.

(** X10. A duration that is not a number never gives a result: some
    statement raises, and the call returns the error string for that
    exception, or lets it through when it is not an instance of
    [Exception]. *)
Theorem non_numeric_duration_fails c b w d (s : State eng) :
  as_number d = None →
  ∃ e, (simulate_body eng BASE_DIR c b w d s).1 = Raise e ∧
       (simulate_glucose_dynamics eng BASE_DIR json_dumps c b w d s).1
       = match exc_kind e with
         | OfException => Ok ("Error executing simulation: " +:+ exc_str e)
         | _ => Raise e
         end.
Proof.
  intros Hd. pose proof (tool_outcome eng BASE_DIR json_dumps c b w d s) as Hout.
  destruct (simulate_body eng BASE_DIR c b w d s) as [[r|e] s'] eqn:Hrun.
  - exfalso. destruct (body_success eng BASE_DIR c b w d s r) as
      (_ & _ & mt & _ & _ & Hmt & _); [by rewrite Hrun|].
    by destruct d.
  - exists e. split; [done|]. rewrite Hout. by destruct (exc_kind e).
Qed.

End PostprocessEdges.

Lemma empty_truncation_raises_witness :
  Adapter.postprocess (Adapter.concentration_mmolL_to_mgdL Double.sim_engine)
    Double.day_model (PyInt (-5))
  = Raise (ValueError
      "zero-size array to reduction operation minimum which has no identity").
Proof.
  apply (empty_truncation_raises Double.sim_engine Double.day_model (PyInt (-5))
           Double.day_glucose (-5)).
  - exists Double.day_glucose, "mg/dL". repeat split; reflexivity.
  - reflexivity.
  - reflexivity.
  - apply Forall_forall. intros t Ht. apply Qlt_bool_true.
    revert t Ht. apply Forall_forall. apply (Forall_fold_right). vm_compute.
    repeat split.
Defined.

Lemma missing_glucose_state_raises_witness :
  let model := {| Adapter.states_as_array := [[[]]]; Adapter.glucose_state := 1;
                  Adapter.states_state_units := ["mU/L"; "mg/dL"];
                  Adapter.parameters_VG := [11%Q]; Adapter.time_as_unix := [] |} in
  Adapter.postprocess (map (λ g, g * 18)%Q) model (PyInt 120)
  = Raise (IndexError "index 1 is out of bounds for axis 1 with size 1").
Proof.
  intros model.
  apply (missing_glucose_state_raises Double.sim_engine model (PyInt 120) [[]]).
  - reflexivity.
  - simpl. lia.
Defined.

Lemma non_numeric_duration_fails_witness :
  ∃ e, (Adapter.simulate_body Double.sim_engine Double.base
          (PyFloat 100) (PyFloat 0) (PyFloat 70) (PyStr "two hours") Double.s0).1
       = Raise e ∧
       (Adapter.simulate_glucose_dynamics Double.sim_engine Double.base Double.json
          (PyFloat 100) (PyFloat 0) (PyFloat 70) (PyStr "two hours") Double.s0).1
       = match exc_kind e with
         | OfException => Ok ("Error executing simulation: " +:+ exc_str e)
         | _ => Raise e
         end.
Proof.
  apply (non_numeric_duration_fails Double.sim_engine Double.base Double.json).
  reflexivity.
Defined.

(** ** Durations that are not positive *)

Section Clamp.
Import Adapter.

Lemma round_half_even_nonneg (x : Q) : (0 <= x)%Q → (0 <= round_half_even x)%Z.
Proof.
  intros Hx. pose proof (Qfloor_resp_le 0 x Hx) as Hf.
  change (Qfloor 0) with 0%Z in Hf. unfold round_half_even.
  destruct (x - inject_Z (Qfloor x) ?= 1 # 2)%Q; [destruct (Z.even _)| |]; lia.
Qed.

Lemma scale2_nonneg (q : Q) (z : Z) : (0 <= q)%Q → (0 <= scale2 q z)%Q.
Proof.
  intros Hq. unfold scale2. destruct (0 <=? z)%Z eqn:E.
  - apply Z.leb_le in E. apply Qmult_le_0_compat; [done|].
    apply Qlt_le_weak. by apply pow2_pos.
  - apply Z.leb_gt in E. unfold Qdiv. apply Qmult_le_0_compat; [done|].
    apply Qinv_le_0_compat, Qlt_le_weak, pow2_pos. lia.
Qed.

Lemma round_pos_nonneg (a : Q) : (0 <= a)%Q → (0 <= round_pos a)%Q.
Proof.
  intros Ha. unfold round_pos. apply scale2_nonneg.
  change 0%Q with (inject_Z 0). rewrite <- Zle_Qle.
  by apply round_half_even_nonneg, scale2_nonneg.
Qed.

(** A quotient in (-2^43, 0] is rounded to a float that is not positive. *)
Lemma float64_round_nonpos (q : Q) :
  (- inject_Z (2 ^ 43) < q)%Q → (q <= 0)%Q →
  ∃ r, float64_round q = Some r ∧ (r <= 0)%Q.
Proof.
  intros Hlo Hhi. unfold float64_round.
  destruct (Qeq_bool (Qred q) 0) eqn:Ez; [by exists 0%Q|].
  assert (Qred q < 0)%Q as Hneg.
  { apply Qeq_bool_neq in Ez. rewrite Qred_correct in *.
    destruct (Qlt_le_dec q 0) as [|Hge]; [done|].
    exfalso. apply Ez. by apply Qle_antisym. }
  assert (Qabs (Qred q) == - q)%Q as Ha.
  { rewrite Qabs_neg by by apply Qlt_le_weak. by rewrite Qred_correct. }
  assert (0 < Qabs (Qred q))%Q as H0.
  { rewrite Ha. rewrite Qred_correct in Hneg. lra. }
  assert (Qabs (Qred q) < inject_Z (2 ^ 43))%Q as H1.
  { rewrite Ha. set (B := inject_Z (2 ^ 43)) in *. clearbody B. lra. }
  pose proof (round_pos_near _ H0 H1) as [_ Hnear].
  pose proof (round_pos_nonneg (Qabs (Qred q)) (Qlt_le_weak _ _ H0)) as Hnn.
  destruct (Qle_bool (inject_Z (2 ^ 1024)) _) eqn:Eo.
  { apply Qle_bool_iff in Eo. exfalso.
    assert (inject_Z (2 ^ 43) + (1 # 2048) < inject_Z (2 ^ 1024))%Q as Hbig by done.
    set (A := Qabs (Qred q)) in *. set (R := round_pos A) in *.
    set (B := inject_Z (2 ^ 43)) in *. set (C := inject_Z (2 ^ 1024)) in *.
    clearbody R A B C. lra. }
  assert (Qle_bool 0 (Qred q) = false) as ->.
  { apply not_true_is_false. intros Hle. apply Qle_bool_iff in Hle. lra. }
  eexists. split; [done|]. rewrite Qred_correct.
  set (R := round_pos _) in *. clearbody R. lra.
Qed.

(** X11. A duration of zero or below, an [int] or a [float] above
    [-1440 * 2^43], gives one simulated day: the lower clamp of
    [max(1, ...)]. *)
Theorem nonpositive_duration_one_day (d : pyval) (q : Q) :
  as_number d = Some q →
  (- inject_Z (1440 * 2 ^ 43) < q)%Q → (q <= 0)%Q →
  days_of d = Ok 1%Z.
Proof.
  intros Hd Hlo Hhi.
  assert (- inject_Z (2 ^ 43) < q / inject_Z (24 * 60))%Q as Hlo'.
  { change (24 * 60)%Z with 1440%Z. rewrite inject_Z_mult in Hlo.
    change (inject_Z 1440) with 1440%Q in *.
    set (B := inject_Z (2 ^ 43)) in *. clearbody B.
    apply Qlt_shift_div_l; [done|]. lra. }
  assert (q / inject_Z (24 * 60) <= 0)%Q as Hhi'.
  { change (inject_Z (24 * 60)) with 1440%Q. apply Qle_shift_div_r; [done|]. lra. }
  destruct (float64_round_nonpos _ Hlo' Hhi') as (r & Hr & Hr0).
  assert (Z.max 1 (Qceiling r) = 1%Z) as Hmax.
  { pose proof (Qceiling_resp_le r 0 Hr0) as Hc.
    change (Qceiling 0) with 0%Z in Hc. lia. }
  unfold days_of, true_div_int, np_divide, float64.
  destruct d as [|z|x|s|l]; simplify_eq/=; rewrite Hr; simpl; by rewrite Hmax.
Qed.

Lemma nonpositive_duration_one_day_witness : days_of (PyInt (-5)) = Ok 1%Z.
Proof.
  apply (nonpositive_duration_one_day (PyInt (-5)) (inject_Z (-5)));
    [reflexivity| |]; by vm_compute.
Defined.

End Clamp.

(** ** What a call keeps of the process state *)

Section Invariants.
Import Adapter Session.

Variable eng : Engine.
Variable BASE_DIR : string.
Variable json_dumps : ResultData → string.

Lemma bind_unfold {A B} (m : M eng A) (k : A → M eng B) (s : State eng) :
  (m ≫= k) s
  = match m s with
    | (Ok a, s') => k a s'
    | (Raise e, s') => (Raise e, s')
    end.
Proof. reflexivity. Qed.

(** The guard from an unset flag: what it returns and the state it leaves. *)
Lemma guard_runs (s : State eng) :
  _initialized eng s = false →
  _ensure_pymgipsim_initialized eng BASE_DIR s
  = let ran := initialization eng
                 (mkWorld (PY_MGIPSIM_DIR BASE_DIR) (ext (world eng s))) in
    let w := mkWorld (cwd (world eng s)) (ext ran.2) in
    match ran.1 with
    | Ok _ =>
        (Ok (), mkState eng w true
                  (log eng s ++ [LogInfo "Initializing py_mgipsim environment..." []]
                     ++ [LogInfo "py_mgipsim initialized." []]))
    | Raise e =>
        (Raise e, mkState eng w false
                    (log eng s ++ [LogInfo "Initializing py_mgipsim environment..." []]))
    end.
Proof.
  intros Hflag. unfold _ensure_pymgipsim_initialized. rewrite Hflag.
  unfold mbind, M_bind, try_finally, call, os_chdir, os_getcwd, logger_info,
    set_initialized. simpl.
  destruct (initialization eng _) as [[[]|e] w']; simpl; [|by rewrite Hflag].
  by rewrite <- app_assoc.
Qed.

Section Relation.

Variable R : State eng → State eng → Prop.
Context {R_preorder : PreOrder R}.

Hypothesis Hinfo : ∀ fmt args, preserves eng R (logger_info eng fmt args).
Hypothesis Hguard : preserves eng R (_ensure_pymgipsim_initialized eng BASE_DIR).
Hypothesis Hcall :
  ∀ A (f : Ext (ext_state eng) A), pipeline_call eng f → preserves eng R (call eng f).
Hypothesis Hexc : ∀ s msg e, R s (logger_exception eng msg e s).

Lemma preserves_ret {A} (a : A) : preserves eng R (mret a).
Proof. intros s. reflexivity. Qed.

Lemma preserves_lift {A} (r : result A) : preserves eng R (lift eng r).
Proof. intros s. reflexivity. Qed.

Lemma preserves_bind {A B} (m : M eng A) (k : A → M eng B) :
  preserves eng R m → (∀ a, preserves eng R (k a)) → preserves eng R (m ≫= k).
Proof.
  intros Hm Hk s. rewrite bind_unfold. specialize (Hm s).
  destruct (m s) as [[a|e] s1]; simpl in *; [|done].
  etransitivity; [exact Hm|apply Hk].
Qed.

Ltac preserves_step :=
  match goal with
  | |- preserves _ _ (_ ≫= _) =>
      apply preserves_bind;
      [|let x := fresh "x" in
        intros x;
        lazymatch type of x with
        | (_ * _)%type => destruct x
        | _ => idtac
        end;
        cbn beta iota zeta]
  | |- preserves _ _ (lift _ _) => apply preserves_lift
  | |- preserves _ _ (call _ _) => apply Hcall; constructor
  | |- preserves _ _ (mret _) => apply preserves_ret
  end.

Lemma preserves_prepare settings_file args folder :
  preserves eng R (prepare_scenario eng settings_file args folder).
Proof.
  unfold prepare_scenario. apply preserves_bind; [apply preserves_lift|].
  intros scenario_name. destruct (negb (truthy scenario_name));
    repeat preserves_step.
Qed.

(** The state a request's body leaves is related to the state the guard
    left. *)
Lemma body_after_guard c b w d (s : State eng) :
  let s1 := (logger_info eng
      "Starting simulation with carbs=%s g, bolus=%s U, body_weight=%s kg, duration=%s min"
      [c; b; w; d] s).2 in
  R (_ensure_pymgipsim_initialized eng BASE_DIR s1).2
    (simulate_body eng BASE_DIR c b w d s).2.
Proof.
  intros s1. unfold simulate_body. rewrite bind_unfold.
  change (logger_info eng _ _ s) with (Ok (), s1). cbn beta iota.
  rewrite bind_unfold.
  destruct (_ensure_pymgipsim_initialized eng BASE_DIR s1) as [[[]|e] s2];
    cbn beta iota; [|reflexivity].
  unfold snd at 1.
  match goal with
  | |- R ?s (?m ?s).2 => enough (preserves eng R m) as Hp by apply Hp
  end.
  repeat first [preserves_step | apply preserves_prepare].
Qed.

Lemma preserves_body c b w d :
  preserves eng R (simulate_body eng BASE_DIR c b w d).
Proof.
  intros s. etransitivity; [apply Hinfo|].
  etransitivity; [apply Hguard|]. apply body_after_guard.
Qed.

Lemma preserves_serve (req : Request) (s : State eng) :
  R s (serve eng BASE_DIR json_dumps s req).2.
Proof.
  unfold serve, simulate_glucose_dynamics.
  pose proof (preserves_body (req_carbs req) (req_bolus req) (req_weight req)
                (req_duration req) s) as Hb.
  destruct (simulate_body _ _ _ _ _ _ s) as [[r|e] s']; simpl in *; [done|].
  destruct (exc_kind e); simpl; [|done..].
  etransitivity; [exact Hb|apply Hexc].
Qed.

Lemma preserves_serve_all (reqs : list Request) (s : State eng) :
  R s (serve_all eng BASE_DIR json_dumps reqs s).
Proof.
  revert s. induction reqs as [|req reqs IH]; intros s; [reflexivity|].
  unfold serve_all. cbn [foldl]. etransitivity; [apply (preserves_serve req)|].
  apply IH.
Qed.

End Relation.

(** *** The flag *)

#[local] Instance flag_kept_preorder : PreOrder (flag_kept eng).
Proof. split; [by intros s H|]. intros s1 s2 s3 H1 H2 H. by apply H2, H1. Qed.

(** X12. Once the flag is set it stays set, whatever requests follow and
    whether they succeed or fail. *)
Theorem initialized_persists (reqs : list Request) (s : State eng) :
  _initialized eng s = true →
  _initialized eng (serve_all eng BASE_DIR json_dumps reqs s) = true.
Proof.
  apply (preserves_serve_all (flag_kept eng)).
  - by intros fmt args s' H.
  - intros s' H. unfold _ensure_pymgipsim_initialized. by rewrite H.
  - intros A f _ s' H. unfold call. by destruct (f (world eng s')).
  - by intros s' msg e H.
Qed.

(** *** The working directory *)

#[local] Instance cwd_kept_preorder : PreOrder (cwd_kept eng).
Proof.
  split; [by intros s; unfold cwd_kept|].
  intros s1 s2 s3 H1 H2. unfold cwd_kept in *. congruence.
Qed.

Lemma guard_keeps_cwd : preserves eng (cwd_kept eng)
                          (_ensure_pymgipsim_initialized eng BASE_DIR).
Proof.
  intros s. unfold cwd_kept. destruct (_initialized eng s) eqn:Hflag.
  - unfold _ensure_pymgipsim_initialized. by rewrite Hflag.
  - rewrite (guard_runs s Hflag). cbn zeta.
    by destruct (initialization eng _).1.
Qed.

(** X13. When no pipeline call of the engine changes the working directory,
    no sequence of requests does: the guard's change of directory is undone
    before the pipeline starts, on success and on failure. *)
Theorem requests_keep_cwd (reqs : list Request) (s : State eng) :
  cwd_stable eng →
  cwd (world eng (serve_all eng BASE_DIR json_dumps reqs s)) = cwd (world eng s).
Proof.
  intros Hstable. apply (preserves_serve_all (cwd_kept eng)).
  - by intros fmt args s'.
  - apply guard_keeps_cwd.
  - intros A f Hf s'. unfold cwd_kept, call.
    specialize (Hstable A f Hf (world eng s')).
    by destruct (f (world eng s')).
  - by intros s' msg e.
Qed.

(** *** The log *)

#[local] Instance log_grows_preorder : PreOrder (log_grows eng).
Proof.
  split.
  - intros s. exists []. by rewrite app_nil_r.
  - intros s1 s2 s3 (t1 & H1 & F1) (t2 & H2 & F2). exists (t1 ++ t2).
    split; [by rewrite H2, H1, app_assoc|]. by apply Forall_app.
Qed.




(** *** A failing initialization *)

(** X15. When the initialization raises, the engine is as the
    initialization left it, no pipeline call has run, the working directory
    is the caller's, the flag is still unset, so the next request
    initializes again. For an instance of [Exception] the call returns the
    error string and the log has the two info records and the exception;
    any other exception is let through, after the two info records. *)
Theorem failed_initialization_outcome (req : Request) (s : State eng)
    (e : Exception) (w' : World (ext_state eng)) :
  _initialized eng s = false →
  initialization eng (mkWorld (PY_MGIPSIM_DIR BASE_DIR) (ext (world eng s)))
  = (Raise e, w') →
  let logged := [ starting req;
                  LogInfo "Initializing py_mgipsim environment..." [] ] in
  serve eng BASE_DIR json_dumps s req
  = match exc_kind e with
    | OfException =>
        (Ok ("Error executing simulation: " +:+ exc_str e),
         mkState eng (mkWorld (cwd (world eng s)) (ext w')) false
           (log eng s ++ logged ++ [LogException "Simulation failed" e]))
    | _ =>
        (Raise e,
         mkState eng (mkWorld (cwd (world eng s)) (ext w')) false
           (log eng s ++ logged))
    end.
Proof.
  intros Hflag Hinit. unfold serve, simulate_glucose_dynamics, simulate_body.
  rewrite bind_unfold. unfold logger_info at 1. cbn beta iota.
  rewrite bind_unfold, guard_runs by done. cbn [world log _initialized].
  rewrite Hinit. cbn. unfold logger_exception, starting.
  destruct (exc_kind e); cbn; by rewrite <- !app_assoc.
Qed.

End Invariants.

(** ** Failures, stage by stage *)

Section Stages.
Import Adapter Session.

Variable eng : Engine.
Variable BASE_DIR : string.
Variable json_dumps : ResultData → string.

#[local] Abbreviation reng := (recording eng).

(** The record is only an observer: without it, a recorded call is the
    call itself. *)
Lemma recorded_erase {A} (name : string) (args : option Namespace)
    (f : Ext (ext_state eng) A) (w : World (list CallRecord * ext_state eng)) :
  let erase (w : World (list CallRecord * ext_state eng)) :=
    mkWorld (cwd w) (ext w).2 in
  (recorded name args f w).1 = (f (erase w)).1 ∧
  erase (recorded name args f w).2 = (f (erase w)).2 ∧
  (ext (recorded name args f w).2).1
  = (ext w).1 ++ [{| call_name := name; call_args := args;
                     call_raised := raised (f (erase w)).1 |}].
Proof.
  cbn zeta. unfold recorded. by destruct (f _) as [r [c e]].
Qed.

Section Tracked.

Variable P : Exception → Prop.

Lemma tracked_silent {A} (m : M reng A) :
  (∀ s, ∃ a, (m s).1 = Ok a ∧ calls (m s).2 = calls s) → tracked P m.
Proof.
  intros H s. destruct (H s) as (a & Hr & Hc). exists [].
  rewrite Hr, Hc, app_nil_r. split; [done|]. by constructor.
Qed.

Lemma tracked_ret {A} (a : A) : tracked P (mret a : M reng A).
Proof. apply tracked_silent. intros s. by exists a. Qed.

Lemma tracked_lift {A} (r : result A) :
  (∀ e, r = Raise e → P e) → tracked P (lift reng r).
Proof.
  intros H s. exists []. rewrite app_nil_r. split; [done|]. unfold lift.
  destruct r as [a|e]; simpl; [by constructor|]. right.
  split; [by constructor|]. by apply H.
Qed.

Lemma tracked_bind {A B} (m : M reng A) (k : A → M reng B) :
  tracked P m → (∀ a, tracked P (k a)) → tracked P (m ≫= k).
Proof.
  intros Hm Hk s. rewrite bind_unfold. destruct (Hm s) as (made1 & Hc1 & Hf1).
  destruct (m s) as [[a|e] s1]; simpl in *; [|by exists made1].
  destruct (Hk a s1) as (made2 & Hc2 & Hf2). exists (made1 ++ made2).
  split; [by rewrite Hc2, Hc1, app_assoc|].
  destruct (k a s1) as [[b|e] s2]; simpl in *.
  - by apply Forall_app.
  - destruct Hf2 as [(before & name & args & -> & Hb)|[Hall He]].
    + left. exists (made1 ++ before), name, args.
      split; [by rewrite app_assoc|]. by apply Forall_app.
    + right. split; [by apply Forall_app|done].
Qed.

Lemma tracked_call {A} (name : string) (args : option Namespace)
    (f : Ext (ext_state eng) A) :
  tracked P (call reng (recorded name args f)).
Proof.
  intros s. unfold call, recorded, calls.
  destruct (f _) as [[a|e] w']; simpl; eexists; (split; [reflexivity|]); simpl.
  - by repeat constructor.
  - left. by exists [], name, args.
Qed.

Lemma tracked_guard : tracked P (_ensure_pymgipsim_initialized reng BASE_DIR).
Proof.
  intros s. destruct (_initialized reng s) eqn:Hflag.
  - unfold _ensure_pymgipsim_initialized. rewrite Hflag. exists [].
    rewrite app_nil_r. split; [done|]. by constructor.
  - rewrite (guard_runs reng BASE_DIR s Hflag). cbn zeta.
    change (initialization reng)
      with (recorded "initialization" None (initialization eng)).
    unfold recorded, calls. destruct (initialization eng _) as [[[]|e] w'];
      simpl; eexists; (split; [reflexivity|]); simpl.
    + by repeat constructor.
    + left. by exists [], "initialization", None.
Qed.

Hypothesis Hscenario :
  ∀ (args : Namespace) e, getattr args "scenario_name" = Raise e → P e.

Ltac tracked_step :=
  match goal with
  | |- tracked _ (_ ≫= _) =>
      apply tracked_bind;
      [|let x := fresh "x" in
        intros x;
        lazymatch type of x with
        | (_ * _)%type => destruct x
        | _ => idtac
        end;
        cbn beta iota zeta]
  | |- tracked _ (call _ _) => apply tracked_call
  | |- tracked _ (mret _) => apply tracked_ret
  end.

Lemma tracked_prepare settings_file args folder :
  tracked P (prepare_scenario reng settings_file args folder).
Proof.
  unfold prepare_scenario.
  apply tracked_bind; [apply tracked_lift; intros e; apply Hscenario|].
  intros scenario_name. destruct (negb (truthy scenario_name));
    repeat tracked_step.
Qed.

End Tracked.

Lemma tracked_body c b w d :
  tracked (adapter_raises (concentration_mmolL_to_mgdL eng) d)
    (simulate_body reng BASE_DIR c b w d).
Proof.
  set (P := adapter_raises (concentration_mmolL_to_mgdL eng) d).
  assert (∀ (args : Namespace) e, getattr args "scenario_name" = Raise e → P e)
    as Hscenario by (intros args e He; right; left; by exists args).
  unfold simulate_body.
  apply tracked_bind; [apply tracked_silent; intros s; by exists ()|intros _].
  apply tracked_bind; [apply tracked_guard|intros _].
  apply tracked_bind; [apply tracked_call|intros parser].
  apply tracked_bind; [apply tracked_call|intros args].
  apply tracked_bind; [apply tracked_lift; intros e He; by left|intros days].
  cbn zeta.
  apply tracked_bind; [apply tracked_call|intros folders].
  apply tracked_bind; [apply tracked_call|intros [sf args1]].
  apply tracked_bind; [by apply tracked_prepare|intros [sf2 args2]].
  apply tracked_bind; [apply tracked_call|intros cohort].
  apply tracked_lift. intros e He. right. right. by eexists.
Qed.

(** C1 (amended). Whatever the request and the engine: every engine call
    made before the failure returned, the first call that raises ends the
    request, and no call is made after it; an engine call, the division of
    line 105, the attribute [scenario_name] and the post-processing are the
    only places a failure comes from. When the failure is an instance of
    [Exception] the call returns exactly ["Error executing simulation: "]
    followed by [str(e)] and logs the exception; any other exception
    ([SystemExit], [KeyboardInterrupt]) crosses the tool boundary. A result
    is returned only when every call and the division returned, and it is
    the post-processing of the model that the last call, the simulation,
    returned. *)
Theorem failure_is_error_string c b w d (s : State reng) :
  let run := simulate_body reng BASE_DIR c b w d s in
  let out := simulate_glucose_dynamics reng BASE_DIR json_dumps c b w d s in
  ∃ made,
    calls run.2 = calls s ++ made ∧
    first_failure (adapter_raises (concentration_mmolL_to_mgdL eng) d) run.1 made ∧
    (∀ call e, call ∈ made → call_raised call = Some e → run.1 = Raise e) ∧
    match run.1 with
    | Ok r =>
        (∃ days, days_of d = Ok days) ∧
        (∃ settings_file args folder w0 cohort,
           generate_results_main reng settings_file args folder w0
           = (Ok cohort, world reng run.2) ∧
           postprocess (concentration_mmolL_to_mgdL eng)
             (singlescale_model cohort) d = Ok r) ∧
        out = (Ok (json_dumps r), run.2)
    | Raise e =>
        match exc_kind e with
        | OfException =>
            out = (Ok ("Error executing simulation: " +:+ exc_str e),
                   logger_exception reng "Simulation failed" e run.2)
        | OfBaseException => out = (Raise e, run.2)
        | OutsideModel => True
        end
    end.
Proof.
  cbn zeta. destruct (tracked_body c b w d s) as (made & Hcalls & Hfirst).
  exists made. do 2 (split; [done|]).
  split.
  { intros call e' Hin Hraised.
    assert (∀ l, Forall returned l → call ∈ l → False) as Hno.
    { intros l Hl Hcall. rewrite Forall_forall in Hl.
      specialize (Hl call Hcall). unfold returned in Hl. congruence. }
    destruct (simulate_body reng BASE_DIR c b w d s).1 as [r|e];
      simpl in Hfirst; [by destruct (Hno made)|].
    destruct Hfirst as [(before & name & args & -> & Hb)|[Hall _]];
      [|by destruct (Hno made)].
    apply elem_of_app in Hin as [Hin|Hin]; [by destruct (Hno before)|].
    apply list_elem_of_singleton in Hin. subst call. simpl in Hraised.
    congruence. }
  pose proof (tool_outcome reng BASE_DIR json_dumps c b w d s) as Hout.
  pose proof (body_success_stages reng BASE_DIR c b w d s) as Hok.
  pose proof (body_success_final reng BASE_DIR c b w d s) as Hfinal.
  destruct (simulate_body reng BASE_DIR c b w d s) as [[r|e] s']; simpl in *.
  - destruct (Hok r eq_refl) as [Hdays _]. split; [done|].
    split; [by apply Hfinal|done].
  - rewrite Hout. by destruct (exc_kind e).
Qed.

End Stages.

(** C1, as stated, fails: an exception that is not an instance of
    [Exception] crosses the tool boundary. Here the parser exits. *)
Lemma uncaught_fault_crosses_boundary :
  (Adapter.simulate_glucose_dynamics Double.exit_engine Double.base Double.json
     (PyFloat 100) (PyFloat 0) (PyFloat 70) (PyInt 120)
     (Double.start Double.exit_engine [])).1
  = Raise (SystemExit "2").
Proof. by vm_compute. Qed.

(** A request whose input generation raises: the calls made, the last of
    which raised, and the error string. *)
Example failure_at_input_generation :
  let eng := Session.recording Double.failing_engine in
  let out := Adapter.simulate_glucose_dynamics eng Double.base Double.json
               (PyFloat 100) (PyFloat 0) (PyFloat 70) (PyInt 120)
               (Double.start eng ([], [])) in
  out.1 = Ok "Error executing simulation: solver diverged" ∧
  (λ c, (Session.call_name c, Session.call_raised c)) <$> Session.calls out.2
  = [ ("initialization", None); ("generate_parser_cli", None);
      ("parse_args", None); ("create_simulation_results_folder", None);
      ("load_settings_file", None);
      ("generate_simulation_settings_main", None);
      ("generate_virtual_subjects_main", None);
      ("activity_args_to_scenario", None);
      ("generate_inputs_main", Some Double.solver_error) ].
Proof. by vm_compute. Qed.

Lemma initialized_persists_witness :
  let req := {| Session.req_carbs := PyFloat 100; Session.req_bolus := PyFloat 0;
                Session.req_weight := PyFloat 70;
                Session.req_duration := PyStr "two hours" |} in
  let s := Adapter.mkState Double.sim_engine (Adapter.mkWorld "/srv/app" []) true [] in
  Adapter._initialized Double.sim_engine
    (Session.serve_all Double.sim_engine Double.base Double.json [req; req] s)
  = true.
Proof.
  intros req s.
  apply (initialized_persists Double.sim_engine Double.base Double.json [req; req] s).
  reflexivity.
Defined.

Lemma requests_keep_cwd_witness :
  let req := {| Session.req_carbs := PyFloat 100; Session.req_bolus := PyFloat 0;
                Session.req_weight := PyFloat 70;
                Session.req_duration := PyInt 120 |} in
  Adapter.cwd (Adapter.world Double.sim_engine
    (Session.serve_all Double.sim_engine Double.base Double.json [req; req]
       Double.s0))
  = Adapter.cwd (Adapter.world Double.sim_engine Double.s0).
Proof.
  intros req.
  apply (requests_keep_cwd Double.sim_engine Double.base Double.json [req; req]
           Double.s0).
  intros A f Hf w. destruct Hf; reflexivity.
Defined.

Lemma failed_initialization_outcome_witness :
  let eng := Double.engine Double.day_model Double.defaults
               (Double.fail_at "initialization" Double.solver_error) in
  let req := {| Session.req_carbs := PyFloat 100; Session.req_bolus := PyFloat 0;
                Session.req_weight := PyFloat 70;
                Session.req_duration := PyInt 120 |} in
  (Session.serve eng Double.base Double.json (Double.start eng []) req).1
  = Ok "Error executing simulation: solver diverged".
Proof.
  intros eng req.
  exact (f_equal fst
           (failed_initialization_outcome eng Double.base Double.json req
              (Double.start eng []) Double.solver_error
              (Adapter.mkWorld "/opt/t1d/py_mgipsim" []) eq_refl eq_refl)).
Defined.

(** ** How often the initialization runs *)

Section Counting.
Import Adapter Session.

Variable eng : Engine.
Variable BASE_DIR : string.
Variable json_dumps : ResultData → string.

(** The counter is only an observer: without it, a counted call is the
    call itself. *)
Lemma counted_erase {A} (bump : nat) (f : Ext (ext_state eng) A)
    (w : World (nat * ext_state eng)) :
  let erase (w : World (nat * ext_state eng)) := mkWorld (cwd w) (ext w).2 in
  (counted bump f w).1 = (f (erase w)).1 ∧
  erase (counted bump f w).2 = (f (erase w)).2 ∧
  (ext (counted bump f w).2).1 = (ext w).1 + bump.
Proof.
  cbn zeta. unfold counted. by destruct (f _) as [r [c e]].
Qed.

#[local] Instance settled_preorder : PreOrder (@settled eng).
Proof.
  split; [by intros s H|]. intros s1 s2 s3 H1 H2 H.
  destruct (H1 H) as [F1 C1]. destruct (H2 F1) as [F2 C2].
  split; [done|congruence].
Qed.

Lemma counted_call_settled {A} (g : Ext (ext_state eng) A)
    (s : State (counting eng)) :
  settled s (call (counting eng) (counted 0 g) s).2.
Proof.
  intros H. unfold call, counted, initializations.
  destruct (g _) as [r w']. simpl. split; [done|lia].
Qed.

Lemma pipeline_call_settled {A} (f : Ext (ext_state (counting eng)) A) :
  pipeline_call (counting eng) f →
  preserves (counting eng) settled (call (counting eng) f).
Proof. intros Hf s. destruct Hf; apply counted_call_settled. Qed.

Lemma guard_settled :
  preserves (counting eng) settled
    (_ensure_pymgipsim_initialized (counting eng) BASE_DIR).
Proof.
  intros s H. unfold _ensure_pymgipsim_initialized. by rewrite H.
Qed.

Lemma serve_all_settled (reqs : list Request) (s : State (counting eng)) :
  settled s (serve_all (counting eng) BASE_DIR json_dumps reqs s).
Proof.
  apply (preserves_serve_all (counting eng) BASE_DIR json_dumps settled).
  - by intros fmt args s' H.
  - apply guard_settled.
  - intros A f. apply pipeline_call_settled.
  - by intros s' msg e H.
Qed.

(** X16. From a state with the flag set, no request runs the
    initialization again, whatever the requests and their outcomes. *)
Theorem initialized_never_again (reqs : list Request) (s : State (counting eng)) :
  _initialized (counting eng) s = true →
  initializations (serve_all (counting eng) BASE_DIR json_dumps reqs s)
  = initializations s.
Proof. intros H. by apply (serve_all_settled reqs s). Qed.

(** X17. With an initialization that returns, one or more requests from an
    unset flag run it exactly once, in the first request, also when every
    request fails afterwards. *)
Theorem initialized_exactly_once (reqs : list Request) (s : State (counting eng)) :
  (∀ w, (initialization eng w).1 = Ok ()) →
  _initialized (counting eng) s = false → reqs ≠ [] →
  let s' := serve_all (counting eng) BASE_DIR json_dumps reqs s in
  initializations s' = initializations s + 1 ∧
  _initialized (counting eng) s' = true.
Proof.
  intros Hinit Hflag Hne. destruct reqs as [|req reqs]; [done|]. clear Hne.
  unfold serve_all. cbn [foldl].
  change (foldl _ ?s1 reqs)
    with (serve_all (counting eng) BASE_DIR json_dumps reqs s1).
  set (s1 := (serve (counting eng) BASE_DIR json_dumps s req).2).
  assert (_initialized (counting eng) s1 = true
          ∧ initializations s1 = initializations s + 1) as [F1 C1].
  { unfold s1, serve, simulate_glucose_dynamics.
    pose proof (body_after_guard (counting eng) BASE_DIR settled
                  (λ A f, pipeline_call_settled f)
                  (req_carbs req) (req_bolus req) (req_weight req)
                  (req_duration req) s) as Htail.
    cbn zeta in Htail. unfold logger_info at 1 in Htail. cbn [snd] in Htail.
    rewrite guard_runs in Htail by done. cbn zeta in Htail.
    cbn [world log _initialized ext cwd] in Htail.
    change (initialization (counting eng)) with (counted 1 (initialization eng))
      in Htail.
    unfold counted in Htail. cbn [ext cwd] in Htail.
    specialize (Hinit (mkWorld (PY_MGIPSIM_DIR BASE_DIR) (ext (world _ s)).2)).
    destruct (initialization eng _) as [r w'']. simpl in Hinit. subst r.
    cbn [fst snd ext] in Htail.
    destruct (Htail eq_refl) as [F C].
    destruct (simulate_body _ _ _ _ _ _ s) as [[r|e] s'];
      [|destruct (exc_kind e)]; simpl in *; by split. }
  destruct (serve_all_settled reqs s1 F1) as [F2 C2].
  cbn zeta. split; [congruence|done].
Qed.

End Counting.

Lemma initialized_never_again_witness :
  let req := {| Session.req_carbs := PyFloat 100; Session.req_bolus := PyFloat 0;
                Session.req_weight := PyFloat 70;
                Session.req_duration := PyInt 120 |} in
  let s := Adapter.mkState (Session.counting Double.sim_engine)
             (Adapter.mkWorld "/srv/app" (1%nat, [])) true [] in
  Session.initializations
    (Session.serve_all (Session.counting Double.sim_engine) Double.base
       Double.json [req; req] s)
  = Session.initializations s.
Proof.
  intros req s.
  apply (initialized_never_again Double.sim_engine Double.base Double.json
           [req; req] s).
  reflexivity.
Defined.

Lemma initialized_exactly_once_witness :
  let req := {| Session.req_carbs := PyFloat 100; Session.req_bolus := PyFloat 0;
                Session.req_weight := PyFloat 70;
                Session.req_duration := PyStr "two hours" |} in
  let s := Adapter.mkState (Session.counting Double.sim_engine)
             (Adapter.mkWorld "/srv/app" (0%nat, [])) false [] in
  let s' := Session.serve_all (Session.counting Double.sim_engine) Double.base
              Double.json [req; req; req] s in
  Session.initializations s' = (Session.initializations s + 1)%nat ∧
  Adapter._initialized (Session.counting Double.sim_engine) s' = true.
Proof.
  intros req s.
  apply (initialized_exactly_once Double.sim_engine Double.base Double.json
           [req; req; req] s).
  - intros w. reflexivity.
  - reflexivity.
  - discriminate.
Defined.

(** ** The module search path *)

Section SearchPath.
Import Session.

(** X18. After the set-up the engine's directory is on the search path;
    the entries that were there keep their positions, so the directory has
    the lowest priority when it is added; running the set-up again changes
    nothing, and a path without duplicates stays so. *)
Theorem ensure_on_path_spec (dir : string) (sys_path : list string) :
  let r := ensure_on_path dir sys_path in
  dir ∈ r ∧ sys_path `prefix_of` r ∧
  r = sys_path ++ (if bool_decide (dir ∈ sys_path) then [] else [dir]) ∧
  ensure_on_path dir r = r ∧
  (NoDup sys_path → NoDup r) ∧
  (∀ other, other ≠ dir → other ∈ r ↔ other ∈ sys_path).
Proof.
  cbn zeta. unfold ensure_on_path. case_bool_decide as Hin.
  - rewrite app_nil_r, bool_decide_eq_true_2 by done. by repeat split.
  - assert (dir ∈ sys_path ++ [dir]) as Hr by (apply elem_of_app; right; by left).
    rewrite bool_decide_eq_true_2 by done.
    split; [done|]. split; [by apply prefix_app_r|]. do 2 (split; [done|]).
    split.
    + intros Hnd. apply NoDup_app. split; [done|]. split; [|apply NoDup_singleton].
      intros x Hx Hx'. apply list_elem_of_singleton in Hx'. by subst.
    + intros other Hne. rewrite elem_of_app, list_elem_of_singleton.
      split; [by intros [?|?]|by left].
Qed.

End SearchPath.

(** ** The connection test *)

Section Connection.
Import ConnectionTest.

Variable repr_float : Q → string.
Variable repr_list : list pyval → option string.

#[local] Abbreviation py_str := (ConnectionTest.py_str repr_float repr_list).
#[local] Abbreviation printable := (ConnectionTest.printable repr_float repr_list).
#[local] Abbreviation call_tool := (ConnectionTest.call_tool repr_float repr_list).

Lemma lt_zero_accepts (steps : pyval) :
  match lt_zero steps with
  | Ok negative => accepts steps = negb negative
  | Raise e =>
      accepts steps = false ∧
      e = TypeError ("'<' not supported between instances of '"
                       +:+ type_name steps +:+ "' and 'int'")
  end.
Proof.
  destruct steps as [|z|q|s|l]; simpl; try done.
  - unfold accepts. simpl. destruct (z <? 0)%Z eqn:E; simpl.
    + apply Z.ltb_lt in E. apply not_true_is_false. intros H.
      apply Qle_bool_iff in H. change 0%Q with (inject_Z 0) in H.
      rewrite <- Zle_Qle in H. lia.
    + apply Z.ltb_ge in E. apply Qle_bool_iff. change 0%Q with (inject_Z 0).
      by rewrite <- Zle_Qle.
  - unfold accepts, Qlt_bool. simpl. by rewrite negb_involutive.
Qed.

(** The only failure of [str] is the limit on the digits of an [int]. *)
Lemma py_str_Raise (v : pyval) (e : Exception) :
  py_str v = Raise e → e = digits_limit.
Proof.
  destruct v as [|z|q|s|l]; simpl; try done.
  - by destruct (Z.abs z <? 10 ^ 4300)%Z; [|intros [= <-]].
  - by destruct (repr_list l); [|intros [= <-]].
Qed.

Lemma contains_prefix (sub s : string) :
  String.prefix sub s = true → contains sub s = true.
Proof. intros H. destruct s; cbn [contains]; by rewrite H. Qed.

Lemma contains_app_r (sub a b : string) :
  contains sub b = true → contains sub (a +:+ b) = true.
Proof.
  intros H. induction a as [|c a IH]; [done|].
  change (String c a +:+ b) with (String c (a +:+ b)).
  cbn [contains]. rewrite IH. apply orb_true_r.
Qed.

(** The three courses of a call: an argument that [str] does not convert,
    a rejected [steps], a success. *)
Lemma call_tool_cases (arguments : gmap string pyval) :
  let steps := default (PyInt 10) (arguments !! "steps") in
  let context := default (PyStr "default") (arguments !! "context") in
  (printable steps && printable context = false ∧
   call_tool arguments = failed [] digits_limit)
  ∨ (∃ info e, printable steps && printable context = true ∧
       accepts steps = false ∧
       (e = ValueError "Steps cannot be negative"
        ∨ e = TypeError ("'<' not supported between instances of '"
                           +:+ type_name steps +:+ "' and 'int'")) ∧
       call_tool arguments = failed [Info info] e)
  ∨ (∃ info text, printable steps && printable context = true ∧
       accepts steps = true ∧ py_str context = Ok text ∧
       call_tool arguments
       = ("Simulation Complete." +:+ nl
            +:+ "Status: " +:+ "success" +:+ nl
            +:+ "Accuracy: " +:+ repr_float (float64 (98 # 100)) +:+ nl
            +:+ "Data: " +:+ ("Simulation result for " +:+ text),
          [Info info])).
Proof.
  cbn zeta. unfold ConnectionTest.call_tool, ConnectionTest.printable.
  generalize (default (PyInt 10) (arguments !! "steps")). intros steps.
  generalize (default (PyStr "default") (arguments !! "context")). intros ctx.
  destruct (py_str steps) as [ts|e1] eqn:Hs;
    [|left; split; [done|]; by rewrite (py_str_Raise _ _ Hs)].
  destruct (py_str ctx) as [tc|e2] eqn:Hc;
    [|left; split; [done|]; by rewrite (py_str_Raise _ _ Hc)].
  right. cbn [mbind result_bind_inst result_bind mret result_ret andb].
  unfold run_simulation. pose proof (lt_zero_accepts steps) as Hacc.
  destruct (lt_zero steps) as [[|]|e];
    cbn [mbind result_bind_inst result_bind mret result_ret].
  - left. eexists _, _. split; [done|]. split; [done|]. split; [by left|done].
  - right. rewrite Hc.
    cbn [mbind result_bind_inst result_bind mret result_ret raw_status
         raw_result_data raw_metrics_accuracy ConnectionTest.py_str].
    eexists _, _. split; [done|]. split; [done|]. split; [done|]. done.
  - left. destruct Hacc as [Hacc ->].
    eexists _, _. split; [done|]. split; [done|]. split; [by right|done].
Qed.

(** X19. The adapter never raises, and its answer has one of two forms:
    the text starting with ["Simulation Complete."], with one info line
    logged, exactly when [steps] (10 when the key is missing) is a
    non-negative number and [str] converts both [steps] and [context];
    otherwise ["Tool Execution Failed: "] followed by the message that is
    also logged as an error, after the info line when the arguments could be
    shown. *)
Theorem call_tool_outcome (arguments : gmap string pyval) :
  let steps := default (PyInt 10) (arguments !! "steps") in
  let context := default (PyStr "default") (arguments !! "context") in
  let out := call_tool arguments in
  let shown := printable steps && printable context in
  String.prefix "Simulation Complete." out.1 = shown && accepts steps ∧
  String.prefix "Tool Execution Failed: " out.1 = negb (shown && accepts steps) ∧
  match out.2 with
  | [Info _] => shown && accepts steps = true
  | [Info _; Error msg] =>
      shown = true ∧ accepts steps = false ∧
      out.1 = "Tool Execution Failed: " +:+ msg
  | [Error msg] => shown = false ∧ out.1 = "Tool Execution Failed: " +:+ msg
  | _ => False
  end.
Proof.
  cbn zeta.
  destruct (call_tool_cases arguments)
    as [[Hp ->]|[(info & e & Hp & Ha & He & ->)|(info & text & Hp & Ha & Hc & ->)]];
    rewrite Hp; try rewrite Ha; unfold failed; cbn [fst snd andb negb app].
  - split; [done|]. split; [|done].
    apply (prefix_append "Tool Execution Failed: ").
  - split; [done|]. split; [|done].
    apply (prefix_append "Tool Execution Failed: ").
  - split; [apply (prefix_append "Simulation Complete.")|]. by split.
Qed.

(** X20. The test's check for an expected success is exact: it passes
    exactly when [steps] is a non-negative number and [str] converts both
    [steps] and [context], whatever the context text. *)
Theorem success_check_exact (arguments : gmap string pyval) :
  let steps := default (PyInt 10) (arguments !! "steps") in
  let context := default (PyStr "default") (arguments !! "context") in
  case_passes true (call_tool arguments).1
  = printable steps && printable context && accepts steps.
Proof.
  cbn zeta.
  destruct (call_tool_cases arguments)
    as [[Hp ->]|[(info & e & Hp & Ha & He & ->)|(info & text & Hp & Ha & Hc & ->)]];
    rewrite Hp; try rewrite Ha; unfold failed, case_passes; cbn [fst snd andb].
  - reflexivity.
  - destruct He as [->| ->]; [reflexivity|].
    generalize (default (PyInt 10) (arguments !! "steps")).
    intros steps. by destruct steps.
  - apply contains_prefix. reflexivity.
Qed.

(** X21. The test's check for an expected failure passes when the call
    failed, and also when it succeeded with a context text that has the
    keyword: the keyword is looked for in the whole answer, which on
    success ends with the context. *)
Theorem failure_check_passes (arguments : gmap string pyval) :
  let steps := default (PyInt 10) (arguments !! "steps") in
  let context := default (PyStr "default") (arguments !! "context") in
  printable steps && printable context && accepts steps = false
  ∨ (∃ text, py_str context = Ok text
             ∧ contains "Tool Execution Failed" text = true) →
  case_passes false (call_tool arguments).1 = true.
Proof.
  cbn zeta.
  destruct (call_tool_cases arguments)
    as [[Hp ->]|[(info & e & Hp & Ha & He & ->)|(info & text & Hp & Ha & Hc & ->)]];
    rewrite Hp; try rewrite Ha; unfold failed, case_passes; cbn [fst snd andb];
    intros Hor.
  - apply contains_prefix. reflexivity.
  - apply contains_prefix. reflexivity.
  - destruct Hor as [|(text' & Hc' & Hkw)]; [done|].
    rewrite Hc in Hc'. injection Hc' as <-.
    repeat apply contains_app_r. exact Hkw.
Qed.

End Connection.

Lemma failure_check_passes_witness :
  ConnectionTest.case_passes false
    (ConnectionTest.call_tool (λ _, "0.98") (λ _, None)
       {[ "steps" := PyInt 50; "context" := PyStr "Tool Execution Failed" ]}).1
  = true.
Proof.
  apply (failure_check_passes (λ _, "0.98") (λ _, None)
           {[ "steps" := PyInt 50; "context" := PyStr "Tool Execution Failed" ]}).
  right. by eexists.
Defined.

(** The two cases of the test pass; an [int] of 4301 digits as [steps] is a
    failure. *)
Example connection_test_passes :
  ConnectionTest.run_connection_test (λ _, "0.98") (λ _, None) = [true; true].
Proof. by vm_compute. Qed.

Example call_tool_digits_limit :
  ConnectionTest.call_tool (λ _, "0.98") (λ _, None)
    {[ "steps" := PyInt (10 ^ 4300) ]}
  = ("Tool Execution Failed: Error in simulator adapter: Exceeds the limit (4300 digits) for integer string conversion; use sys.set_int_max_str_digits() to increase the limit",
     [ConnectionTest.Error "Error in simulator adapter: Exceeds the limit (4300 digits) for integer string conversion; use sys.set_int_max_str_digits() to increase the limit"]).
Proof.
  unfold ConnectionTest.call_tool.
  rewrite lookup_singleton_eq, lookup_singleton_ne by done.
  cbn [default from_option id ConnectionTest.py_str].
  assert ((Z.abs (10 ^ 4300) <? 10 ^ 4300)%Z = false) as ->.
  { rewrite Z.abs_eq by (apply Z.pow_nonneg; lia). apply Z.ltb_irrefl. }
  reflexivity.
Qed.

(** ** Durations beyond the simulated span, and beyond the floats *)

Section Bounds.
Import Adapter.

Variable eng : Engine.

Lemma within_all (max_time : Q) (time_points glucose : list Q) :
  Forall (λ t, (t <= max_time)%Q) time_points →
  within max_time time_points glucose = zip time_points glucose.
Proof.
  intros Hall. unfold within.
  assert (Forall (λ p : Q * Q, Qle_bool p.1 max_time = true)
            (zip time_points glucose)) as Hz.
  { apply Forall_forall. intros [t g] Hin. apply elem_of_zip_l in Hin.
    rewrite Forall_forall in Hall. apply Qle_bool_iff. by apply Hall. }
  induction Hz as [|p l Hp Hl IH]; [done|]. cbn [List.filter].
  by rewrite Hp, IH.
Qed.

(** X22. When no sample time is after the float64 that numpy makes of the
    duration, nothing is cut: the result is the summary of the model's whole
    time axis and glucose sequence. *)
Theorem long_duration_keeps_all (model : Model) (d : pyval) (glucose : list Q)
    (max_time : Q) :
  normalized_glucose eng model glucose → as_float64 d = Ok max_time →
  length (time_as_unix model) = length glucose →
  Forall (λ t, (t <= max_time)%Q) (time_as_unix model) →
  postprocess (concentration_mmolL_to_mgdL eng) model d
  = summarize (time_as_unix model) glucose.
Proof.
  intros Hg Hd Hlen Hall.
  rewrite (postprocess_run eng model d glucose max_time) by done.
  rewrite within_all by done.
  assert (map fst (zip (time_as_unix model) glucose) = time_as_unix model) as ->
    by (apply (fst_zip (time_as_unix model) glucose); lia).
  assert (map snd (zip (time_as_unix model) glucose) = glucose) as ->
    by (apply (snd_zip (time_as_unix model) glucose); lia).
  done.
Qed.

Lemma round_half_even_floor (x : Q) : (Qfloor x <= round_half_even x)%Z.
Proof.
  unfold round_half_even.
  destruct (x - inject_Z (Qfloor x) ?= 1 # 2)%Q; [destruct (Z.even _)| |]; lia.
Qed.

(** From [2^1024] on the rounded magnitude is at least [2^1024]. *)
Lemma round_pos_big (a : Q) :
  (inject_Z (2 ^ 1024) <= a)%Q → (inject_Z (2 ^ 1024) <= round_pos a)%Q.
Proof.
  intros Ha. unfold round_pos, binade.
  assert (0 < 2 ^ 1024)%Z as Hpos by (by apply Z.pow_pos_nonneg).
  assert (2 ^ 1024 <= Qfloor a)%Z as Hn.
  { rewrite <- (Qfloor_Z (2 ^ 1024)). by apply Qfloor_resp_le. }
  assert (Qle_bool 1 a = true) as ->.
  { apply Qle_bool_iff. eapply Qle_trans; [|exact Ha].
    change 1%Q with (inject_Z 1). rewrite <- Zle_Qle. lia. }
  set (n := Qfloor a) in *. set (p := Z.log2 n).
  assert (1024 <= p)%Z as Hp.
  { unfold p. rewrite <- (Z.log2_pow2 1024) by lia. by apply Z.log2_le_mono. }
  destruct (Z.log2_spec n ltac:(lia)) as [Hlo _]. fold p in Hlo.
  replace (Z.max (p - 52) (-1074)) with (p - 52)%Z by lia.
  set (sh := (p - 52)%Z). assert (972 <= sh)%Z as Hsh by (unfold sh; lia).
  unfold scale2.
  destruct (0 <=? - sh)%Z eqn:E1; [apply Z.leb_le in E1; lia|].
  destruct (0 <=? sh)%Z eqn:E2; [|apply Z.leb_gt in E2; lia].
  replace (- - sh)%Z with sh by lia.
  pose proof (pow2_pos sh ltac:(lia)) as HN.
  assert (inject_Z (2 ^ 52) <= a / inject_Z (2 ^ sh))%Q as Hx.
  { apply Qle_shift_div_l; [done|]. rewrite <- inject_Z_mult, <- Z.pow_add_r by lia.
    replace (52 + sh)%Z with p by (unfold sh; lia).
    eapply Qle_trans; [|apply (Qfloor_le a)]. by rewrite <- Zle_Qle. }
  apply Qfloor_resp_le in Hx. rewrite Qfloor_Z in Hx.
  pose proof (round_half_even_floor (a / inject_Z (2 ^ sh))) as Hm.
  set (m := round_half_even _) in *.
  rewrite <- inject_Z_mult, <- Zle_Qle.
  transitivity (2 ^ 52 * 2 ^ sh)%Z.
  - rewrite <- Z.pow_add_r by lia. apply Z.pow_le_mono_r; lia.
  - apply Z.mul_le_mono_nonneg_r; [|lia]. apply Z.pow_nonneg. lia.
Qed.

(** X23. An [int] duration of magnitude [1440 * 2^1024] or more does not
    reach the engine: the division raises [OverflowError]. *)
Theorem huge_duration_overflows (d : Z) :
  (1440 * 2 ^ 1024 ≤ Z.abs d)%Z →
  days_of (PyInt d)
  = Raise (OverflowError "integer division result too large for a float").
Proof.
  intros Hd. unfold days_of, true_div_int. change (24 * 60)%Z with 1440%Z.
  set (q := (inject_Z d / inject_Z 1440)%Q).
  assert (0 < 2 ^ 1024)%Z as Hpos by (by apply Z.pow_pos_nonneg).
  assert (inject_Z (2 ^ 1024) <= Qabs q)%Q as Hq.
  { unfold q, Qdiv. rewrite Qabs_Qmult.
    change (Qabs (/ inject_Z 1440)) with (/ 1440)%Q.
    apply Qle_shift_div_l; [done|].
    change 1440%Q with (inject_Z 1440).
    rewrite <- inject_Z_mult. unfold Qabs, inject_Z. cbn [Qnum Qden].
    unfold Qle. cbn [Qnum Qden]. lia. }
  assert (Qabs (Qred q) == Qabs q)%Q as Ha by (by rewrite Qred_correct).
  unfold float64_round.
  destruct (Qeq_bool (Qred q) 0) eqn:Ez.
  { apply Qeq_bool_iff in Ez. rewrite Ez in Ha. exfalso.
    rewrite <- Ha in Hq. change (Qabs 0) with (inject_Z 0) in Hq.
    rewrite <- Zle_Qle in Hq. lia. }
  assert (Qle_bool (inject_Z (2 ^ 1024)) (round_pos (Qabs (Qred q))) = true) as ->.
  { apply Qle_bool_iff, round_pos_big. by rewrite Ha. }
  done.
Qed.

Lemma huge_duration_overflows_witness :
  days_of (PyInt (- (1440 * 2 ^ 1024)))
  = Raise (OverflowError "integer division result too large for a float").
Proof.
  apply (huge_duration_overflows (- (1440 * 2 ^ 1024))). by vm_compute.
Defined.

End Bounds.

Lemma long_duration_keeps_all_witness :
  Adapter.postprocess (Adapter.concentration_mmolL_to_mgdL Double.sim_engine)
    Double.day_model (PyInt 1435)
  = Adapter.summarize Double.day_time Double.day_glucose.
Proof.
  apply (long_duration_keeps_all Double.sim_engine Double.day_model (PyInt 1435)
           Double.day_glucose 1435).
  - exists Double.day_glucose, "mg/dL". repeat split; reflexivity.
  - reflexivity.
  - reflexivity.
  - apply Forall_forall. intros t Ht. apply Qle_bool_iff.
    revert t Ht. apply Forall_forall. apply (Forall_fold_right). vm_compute.
    repeat split.
Defined.

(** ** Carbohydrates: forwarded, not examined *)

Section Carbohydrates.
Import Adapter Session.

Variable eng : Engine.
Variable BASE_DIR : string.
Variable json_dumps : ResultData → string.

#[local] Abbreviation reng := (recording eng).



(** *** The calls of a request *)

Section Sends.

Variable good : CallRecord → Prop.






End Sends.



End Carbohydrates.


(** A failing request: the namespace had reached the engine. *)
Example carbs_forwarded_before_failure :
  let eng := Session.recording Double.failing_engine in
  let out := Adapter.simulate_glucose_dynamics eng Double.base Double.json
               (PyFloat (-5)) (PyFloat 0) (PyFloat 70) (PyInt 120)
               (Double.start eng ([], [])) in
  out.1 = Ok "Error executing simulation: solver diverged" ∧
  (λ call, (Session.call_name call,
            (λ args : Adapter.Namespace, args !! "breakfast_carb_range")
              <$> Session.call_args call))
    <$> Session.calls out.2 !! 4%nat
  = Some ("load_settings_file", Some (Some (PyList [PyFloat (-5); PyFloat (-5)]))).
Proof. by vm_compute. Qed.
